(** * Pulse of Korea: the population state manager

    A shallow embedding of [population_manager.py] (the [CountryData],
    [PopulationState] and [PopulationManager] classes) together with the
    properties that the design document states about it.

    Conventions of the embedding.

    - A Python [int] is a [Z].  A Python [float] is an element of a type
      [F] carrying the operations of the [PyFloat] interface below.  The
      code is written once, over the interface, and read at two
      instances: [binary64], CPython's IEEE-754 double (the primitive
      floats of the kernel), and [exact], in which every operation is
      the exact rational one.  Statements that only follow the data flow
      are proved for every instance; statements about order and sign are
      proved at [exact], and evaluated at [binary64] on concrete inputs.
    - A call that raises returns [None]; the attributes a method had
      already assigned when it raised are not tracked.
    - The system clock is an input: each method takes the readings of
      [time.time()] and [datetime.now(kst)] it performs.
    - [print] calls are dropped. *)

From Stdlib Require Import ZArith QArith Qround Lia Lqa.
From Stdlib Require Import PrimFloat FloatOps SpecFloat FloatAxioms.
From Stdlib Require Import Ascii DecimalString DecimalZ DecimalPos.
From stdpp Require Import base option list sets strings.

Set Default Proof Using "Type".
Local Open Scope Z_scope.

(** ** Python floats *)

(** The float operations the module uses.  [of_int] is the conversion
    that mixed [int]/[float] arithmetic performs (it raises
    [OverflowError] on an [int] too large for a float), [int_of_float]
    is [int(x)] (truncation toward zero; it raises on an infinity or a
    NaN), [floor_of_float] is [math.floor], and [decimal m e] is the
    literal [m]e[e], that is the float nearest to [m * 10^e].  Every
    divisor in the module is a non-zero constant, so [ZeroDivisionError]
    cannot occur and [fdiv] is total. *)
Class PyFloat (F : Type) := {
  fadd : F → F → F;
  fsub : F → F → F;
  fmul : F → F → F;
  fdiv : F → F → F;
  fle : F → F → bool;
  decimal : Z → Z → F;
  of_int : Z → option F;
  int_of_float : F → option Z;
  floor_of_float : F → option Z;
}.
Global Hint Mode PyFloat ! : typeclass_instances.

Declare Scope pyfloat_scope.
Delimit Scope pyfloat_scope with py.
Infix "+" := fadd : pyfloat_scope.
Infix "-" := fsub : pyfloat_scope.
Infix "*" := fmul : pyfloat_scope.
Infix "/" := fdiv : pyfloat_scope.

(** *** The binary64 instance *)

Module Binary64.

(** The double nearest to the integer [z] (ties to even). *)
Definition round_int (z : Z) : float :=
  SF2Prim (binary_normalize prec emax z 0 false).

Definition of_int (z : Z) : option float :=
  let f := round_int z in
  if PrimFloat.is_infinity f then None else Some f.

(** A decimal literal.  For a negative exponent the quotient of two
    exactly represented integers is the correctly rounded value of the
    literal, which is what the parser of CPython produces. *)
Definition decimal (m e : Z) : float :=
  if 0 <=? e then round_int (m * 10 ^ e)
  else PrimFloat.div (round_int m) (round_int (10 ^ (- e))).

(** The integer part of [m * 2^e], for [m] positive. *)
Definition magnitude (m : positive) (e : Z) : Z * bool :=
  if 0 <=? e then (Z.pos m * 2 ^ e, true)
  else (Z.pos m / 2 ^ (- e), Z.pos m mod 2 ^ (- e) =? 0).

Definition int_of_float (f : float) : option Z :=
  match Prim2SF f with
  | S754_zero _ => Some 0
  | S754_finite s m e => Some (cond_Zopp s (fst (magnitude m e)))
  | S754_infinity _ | S754_nan => None
  end.

Definition floor_of_float (f : float) : option Z :=
  match Prim2SF f with
  | S754_zero _ => Some 0
  | S754_finite s m e =>
      let '(q, whole) := magnitude m e in
      Some (if s then (if whole then - q else - q - 1) else q)
  | S754_infinity _ | S754_nan => None
  end.

End Binary64.

#[export] Instance binary64 : PyFloat float := {|
  fadd := PrimFloat.add;
  fsub := PrimFloat.sub;
  fmul := PrimFloat.mul;
  fdiv := PrimFloat.div;
  fle := PrimFloat.leb;
  decimal := Binary64.decimal;
  of_int := Binary64.of_int;
  int_of_float := Binary64.int_of_float;
  floor_of_float := Binary64.floor_of_float;
|}.

(** *** The exact instance *)

Module Exact.

Definition decimal (m e : Z) : Q :=
  if 0 <=? e then inject_Z (m * 10 ^ e)
  else Qmake m (Z.to_pos (10 ^ (- e))).

(** Truncation toward zero. *)
Definition Qtrunc (q : Q) : Z := Z.quot (Qnum q) (Z.pos (Qden q)).

End Exact.

#[export] Instance exact : PyFloat Q := {|
  fadd := Qplus;
  fsub := Qminus;
  fmul := Qmult;
  fdiv := Qdiv;
  fle := Qle_bool;
  decimal := Exact.decimal;
  of_int := λ z, Some (inject_Z z);
  int_of_float := λ q, Some (Exact.Qtrunc q);
  floor_of_float := λ q, Some (Qfloor q);
|}.

(** *** Mixed arithmetic *)

Section MixedArithmetic.
Context {F : Type} `{!PyFloat F}.

(** [x / n], [x * n], [n + x], [n * x] and [n / x] for a float [x] and
    an int [n]: the int is converted first. *)
Definition float_div_int (x : F) (n : Z) : option F :=
  y ← of_int n; Some (x / y)%py.
Definition float_mul_int (x : F) (n : Z) : option F :=
  y ← of_int n; Some (x * y)%py.
Definition int_add_float (n : Z) (x : F) : option F :=
  y ← of_int n; Some (y + x)%py.
Definition int_mul_float (n : Z) (x : F) : option F :=
  y ← of_int n; Some (y * x)%py.
Definition int_div_float (n : Z) (x : F) : option F :=
  y ← of_int n; Some (y / x)%py.

(** [a / b] for two ints.  CPython rounds the exact quotient once; the
    quotient of the two converted operands is the same float whenever
    both are below [2^53] in absolute value, as they are at every call
    of this module on a clock reading. *)
Definition int_truediv (a b : Z) : option F :=
  x ← of_int a; y ← of_int b; Some (x / y)%py.
End MixedArithmetic.

(** ** The [datetime] module

    The part of the standard library the manager calls, after the
    pure-Python reference implementation of CPython: aware datetimes
    with a fixed offset, their difference, and [total_seconds]. *)

Record datetime := {
  year : Z; month : Z; day : Z;
  hour : Z; minute : Z; second : Z; microsecond : Z;
  utcoffset : Z;  (* of the attached [timezone], in seconds *)
}.

Record timedelta := { days : Z; seconds : Z; microseconds : Z }.

(** [timezone(timedelta(hours=9))] and [timezone.utc]. *)
Definition kst : Z := 9 * 3600.
Definition utc : Z := 0.

Definition _is_leap (y : Z) : bool :=
  (y mod 4 =? 0) && (negb (y mod 100 =? 0) || (y mod 400 =? 0)).

Definition _days_before_year (y : Z) : Z :=
  let y := y - 1 in y * 365 + y / 4 - y / 100 + y / 400.

Definition _DAYS_BEFORE_MONTH : list Z :=
  [-1; 0; 31; 59; 90; 120; 151; 181; 212; 243; 273; 304; 334].

Definition _days_before_month (y m : Z) : Z :=
  nth (Z.to_nat m) _DAYS_BEFORE_MONTH 0
  + (if (2 <? m) && _is_leap y then 1 else 0).

Definition _ymd2ord (y m d : Z) : Z :=
  _days_before_year y + _days_before_month y m + d.

Definition toordinal (t : datetime) : Z :=
  _ymd2ord (year t) (month t) (day t).

(** The constructor of [timedelta] normalises its arguments. *)
Definition mk_timedelta (d s us : Z) : timedelta :=
  let s := s + us / 1000000 in
  {| days := d + s / 86400; seconds := s mod 86400;
     microseconds := us mod 1000000 |}.

(** [a - b] for two aware datetimes. *)
Definition datetime_sub (a b : datetime) : timedelta :=
  let secs1 := second a + minute a * 60 + hour a * 3600 in
  let secs2 := second b + minute b * 60 + hour b * 3600 in
  mk_timedelta (toordinal a - toordinal b)
    (secs1 - secs2 + (utcoffset b - utcoffset a))
    (microsecond a - microsecond b).

(** [t.replace(hour=0, minute=0, second=0, microsecond=0)] *)
Definition replace_midnight (t : datetime) : datetime :=
  {| year := year t; month := month t; day := day t;
     hour := 0; minute := 0; second := 0; microsecond := 0;
     utcoffset := utcoffset t |}.

(** [t.date()] *)
Definition date (t : datetime) : Z * Z * Z := (year t, month t, day t).

(** [datetime(y, m, d, tzinfo=timezone.utc)] *)
Definition datetime_utc (y m d : Z) : datetime :=
  {| year := y; month := m; day := d;
     hour := 0; minute := 0; second := 0; microsecond := 0;
     utcoffset := utc |}.

Definition _EPOCH : datetime := datetime_utc 1970 1 1.

(** The ranges the constructor of [datetime] enforces on the time of day. *)
Definition valid_time (t : datetime) : Prop :=
  0 <= hour t < 24 ∧ 0 <= minute t < 60 ∧ 0 <= second t < 60
  ∧ 0 <= microsecond t < 1000000.

Definition two_digits (n : Z) : string :=
  String (Ascii.ascii_of_nat (48 + Z.to_nat (n / 10)))
    (String (Ascii.ascii_of_nat (48 + Z.to_nat (n mod 10))) EmptyString).

(** [t.strftime("%H:%M:%S")] *)
Definition strftime_HMS (t : datetime) : string :=
  two_digits (hour t) +:+ ":" +:+ two_digits (minute t) +:+ ":"
  +:+ two_digits (second t).

Section DatetimeFloat.
Context {F : Type} `{!PyFloat F}.

(** [td.total_seconds()] *)
Definition total_seconds (td : timedelta) : option F :=
  int_truediv ((days td * 86400 + seconds td) * 10 ^ 6 + microseconds td)
              (10 ^ 6).

(** [t.timestamp()] for an aware datetime. *)
Definition timestamp_of (t : datetime) : option F :=
  total_seconds (datetime_sub t _EPOCH).
End DatetimeFloat.

(** ** The data classes *)

Record PopulationEvent {F : Type} := {
  country : string;
  event_type : string;
  event_timestamp : F;
}.
Arguments PopulationEvent : clear implicits.

Record CountryData {F : Type} := {
  name : string;
  base_population : Z;
  base_year : Z;
  base_date : string;
  annual_births : Z;
  annual_deaths : Z;
  annual_growth_rate : F;
  fertility_rate : F;
  life_expectancy : F;
  birth_rate : F;
  death_rate : F;
  data_source : string;
}.
Arguments CountryData : clear implicits.

Record PopulationState {F : Type} := {
  timestamp : F;
  south_korea_population : Z;
  north_korea_population : Z;
  total_population : Z;
  sk_births_today : Z;
  sk_deaths_today : Z;
  nk_births_today : Z;
  nk_deaths_today : Z;
  seconds_since_midnight_kst : Z;
  recent_events : list (PopulationEvent F);
}.
Arguments PopulationState : clear implicits.

Section CountryDataMethods.
Context {F : Type} `{!PyFloat F}.

(** [365.25 * 24 * 60 * 60] *)
Definition seconds_per_year : option F :=
  a ← float_mul_int (decimal 36525 (-2)) 24;
  b ← float_mul_int a 60;
  float_mul_int b 60.

Definition calculate_daily_increment (self : CountryData F) : option F :=
  r ← float_div_int (annual_growth_rate self) 100;
  annual_increment ← int_mul_float (base_population self) r;
  Some (annual_increment / decimal 36525 (-2))%py.

Definition calculate_birth_death_rates_per_second (self : CountryData F)
  : option (F * F) :=
  y ← seconds_per_year;
  births_per_second ← int_div_float (annual_births self) y;
  y' ← seconds_per_year;
  deaths_per_second ← int_div_float (annual_deaths self) y';
  Some (births_per_second, deaths_per_second).
End CountryDataMethods.

(** ** The population manager *)

(** A connected viewer: the handle of its WebSocket. *)
Definition websocket : Type := nat.

Record PopulationManager {F : Type} := {
  connected_clients : list websocket;
  last_update_time : F;
  broadcast_interval : F;
  resync_interval : F;
  last_resync_time : F;
  sk_population : Z;
  nk_population : Z;
  self_recent_events : list (PopulationEvent F);
  max_recent_events : Z;
  self_sk_births_today : Z;
  self_sk_deaths_today : Z;
  self_nk_births_today : Z;
  self_nk_deaths_today : Z;
  current_day : Z * Z * Z;
  south_korea_data : CountryData F;
  north_korea_data : CountryData F;
  sk_births_per_sec : F;
  sk_deaths_per_sec : F;
  nk_births_per_sec : F;
  nk_deaths_per_sec : F;
  (* set by [update_base_data] only: absent until then *)
  sk_daily_increment : option F;
  nk_daily_increment : option F;
}.
Arguments PopulationManager : clear implicits.

(** The clock readings of one call of [calculate_current_population]:
    [time.time()], then [get_korea_timezone_now()] for the date, then
    [get_korea_timezone_now()] inside [get_seconds_since_midnight_kst]. *)
Record clock_reads {F : Type} := {
  time_time : F;
  now_for_date : datetime;
  now_for_seconds : datetime;
}.
Arguments clock_reads : clear implicits.

(** The outbound tick message. *)
Record tick_message {F : Type} := {
  msg_timestamp : F;
  msg_south_korea_population : Z;
  msg_north_korea_population : Z;
  msg_total_population : Z;
  msg_sk_births_today : Z;
  msg_sk_deaths_today : Z;
  msg_nk_births_today : Z;
  msg_nk_deaths_today : Z;
  msg_korea_time : string;
  msg_seconds_since_midnight : Z;
  msg_is_resync : bool;
  msg_simulation_rates : F * F * F * F;
  msg_event_indicators : bool * bool;
}.
Arguments tick_message : clear implicits.

(** The dictionary [new_data] of [update_base_data], read through the
    six keys the method looks up; a key the dictionary omits is [None].
    The values have the types of the parameters of the endpoint that
    builds the dictionary. *)
Record new_data {F : Type} := {
  nd_population : option Z;
  nd_year : option Z;
  nd_date : option string;
  nd_births : option Z;
  nd_deaths : option Z;
  nd_growth_rate : option F;
}.
Arguments new_data : clear implicits.

(** [d.get(key, fallback)] *)
Definition dict_get {A : Type} (entry : option A) (fallback : A) : A :=
  default fallback entry.

Section Manager.
Context {F : Type} `{!PyFloat F}.

Definition south_korea_initial : CountryData F := {|
  name := "South Korea";
  base_population := 51628117;
  base_year := 2024;
  base_date := "2024-01-01T00:00:00Z";
  annual_births := 216215;
  annual_deaths := 325162;
  annual_growth_rate := decimal (-21) (-2);
  fertility_rate := decimal 748 (-3);
  life_expectancy := decimal 755 (-1);
  birth_rate := decimal 42 (-1);
  death_rate := decimal 63 (-1);
  data_source := "KOSIS (Korean Statistical Information Service)";
|}.

(** [int(25971909 * rate / 1000)] *)
Definition per_thousand (rate : F) : option Z :=
  a ← int_mul_float 25971909 rate;
  b ← float_div_int a 1000;
  int_of_float b.

Definition north_korea_initial : option (CountryData F) :=
  births ← per_thousand (decimal 132 (-1));
  deaths ← per_thousand (decimal 92 (-1));
  Some {|
    name := "North Korea";
    base_population := 25971909;
    base_year := 2024;
    base_date := "2024-01-01T00:00:00Z";
    annual_births := births;
    annual_deaths := deaths;
    annual_growth_rate := decimal 4 (-1);
    fertility_rate := decimal 19 (-1);
    life_expectancy := decimal 723 (-1);
    birth_rate := decimal 132 (-1);
    death_rate := decimal 92 (-1);
    data_source := "CIA World Factbook 2024";
  |}.

(** [PopulationManager.__init__], on the readings [t1] and [t2] of
    [time.time()] and [today] of [get_korea_timezone_now()]. *)
Definition init (t1 t2 : F) (today : datetime)
  : option (PopulationManager F) :=
  let sk := south_korea_initial in
  nk ← north_korea_initial;
  sk_rates ← calculate_birth_death_rates_per_second sk;
  nk_rates ← calculate_birth_death_rates_per_second nk;
  Some {|
    connected_clients := [];
    last_update_time := t1;
    broadcast_interval := decimal 10 (-1);
    resync_interval := decimal 300 (-1);
    last_resync_time := t2;
    sk_population := 0;
    nk_population := 0;
    self_recent_events := [];
    max_recent_events := 0;
    self_sk_births_today := 0;
    self_sk_deaths_today := 0;
    self_nk_births_today := 0;
    self_nk_deaths_today := 0;
    current_day := date today;
    south_korea_data := sk;
    north_korea_data := nk;
    sk_births_per_sec := sk_rates.1;
    sk_deaths_per_sec := sk_rates.2;
    nk_births_per_sec := nk_rates.1;
    nk_deaths_per_sec := nk_rates.2;
    sk_daily_increment := None;
    nk_daily_increment := None;
  |}.

Definition get_seconds_since_midnight_kst (now_kst : datetime) : option Z :=
  let midnight_kst := replace_midnight now_kst in
  let delta := datetime_sub now_kst midnight_kst in
  s ← total_seconds (F:=F) delta;
  int_of_float s.

(** [(annual_growth_rate / 100) * base_population * (days / 365.25)] *)
Definition growth_increment (stats : CountryData F) (time_elapsed_days : F)
  : option F :=
  r ← float_div_int (annual_growth_rate stats) 100;
  rb ← float_mul_int r (base_population stats);
  Some (rb * (time_elapsed_days / decimal 36525 (-2)))%py.

(** [int(annual * day_fraction / 365.25)] *)
Definition events_today (annual : Z) (day_fraction : F) : option Z :=
  a ← int_mul_float annual day_fraction;
  int_of_float (a / decimal 36525 (-2))%py.

Definition calculate_current_population
    (self : PopulationManager F) (clk : clock_reads F)
  : option (PopulationManager F * PopulationState F) :=
  let current_time := time_time clk in
  let current_date := date (now_for_date clk) in
  let current_day' :=
    if decide (current_date ≠ current_day self) then current_date
    else current_day self in
  base_timestamp ← timestamp_of (datetime_utc 2024 1 1);
  let time_elapsed_seconds := (current_time - base_timestamp)%py in
  time_elapsed_days ← float_div_int time_elapsed_seconds (24 * 60 * 60);
  sk_growth_increment ←
    growth_increment (south_korea_data self) time_elapsed_days;
  nk_growth_increment ←
    growth_increment (north_korea_data self) time_elapsed_days;
  sk_sum ← int_add_float (base_population (south_korea_data self))
                         sk_growth_increment;
  sk_population' ← int_of_float sk_sum;
  nk_sum ← int_add_float (base_population (north_korea_data self))
                         nk_growth_increment;
  nk_population' ← int_of_float nk_sum;
  seconds_today ← get_seconds_since_midnight_kst (now_for_seconds clk);
  day_fraction ← int_truediv seconds_today (24 * 60 * 60);
  sk_births ← events_today (annual_births (south_korea_data self)) day_fraction;
  sk_deaths ← events_today (annual_deaths (south_korea_data self)) day_fraction;
  nk_births ← events_today (annual_births (north_korea_data self)) day_fraction;
  nk_deaths ← events_today (annual_deaths (north_korea_data self)) day_fraction;
  Some ({|
    connected_clients := connected_clients self;
    last_update_time := current_time;
    broadcast_interval := broadcast_interval self;
    resync_interval := resync_interval self;
    last_resync_time := last_resync_time self;
    sk_population := sk_population';
    nk_population := nk_population';
    self_recent_events := self_recent_events self;
    max_recent_events := max_recent_events self;
    self_sk_births_today := sk_births;
    self_sk_deaths_today := sk_deaths;
    self_nk_births_today := nk_births;
    self_nk_deaths_today := nk_deaths;
    current_day := current_day';
    south_korea_data := south_korea_data self;
    north_korea_data := north_korea_data self;
    sk_births_per_sec := sk_births_per_sec self;
    sk_deaths_per_sec := sk_deaths_per_sec self;
    nk_births_per_sec := nk_births_per_sec self;
    nk_deaths_per_sec := nk_deaths_per_sec self;
    sk_daily_increment := sk_daily_increment self;
    nk_daily_increment := nk_daily_increment self;
  |}, {|
    timestamp := current_time;
    south_korea_population := sk_population';
    north_korea_population := nk_population';
    total_population := sk_population' + nk_population';
    sk_births_today := sk_births;
    sk_deaths_today := sk_deaths;
    nk_births_today := nk_births;
    nk_deaths_today := nk_deaths;
    seconds_since_midnight_kst := seconds_today;
    recent_events := self_recent_events self;
  |}).

(** *** Viewers *)

Definition set_connected_clients
    (self : PopulationManager F) (l : list websocket) : PopulationManager F :=
  {|
    connected_clients := l;
    last_update_time := last_update_time self;
    broadcast_interval := broadcast_interval self;
    resync_interval := resync_interval self;
    last_resync_time := last_resync_time self;
    sk_population := sk_population self;
    nk_population := nk_population self;
    self_recent_events := self_recent_events self;
    max_recent_events := max_recent_events self;
    self_sk_births_today := self_sk_births_today self;
    self_sk_deaths_today := self_sk_deaths_today self;
    self_nk_births_today := self_nk_births_today self;
    self_nk_deaths_today := self_nk_deaths_today self;
    current_day := current_day self;
    south_korea_data := south_korea_data self;
    north_korea_data := north_korea_data self;
    sk_births_per_sec := sk_births_per_sec self;
    sk_deaths_per_sec := sk_deaths_per_sec self;
    nk_births_per_sec := nk_births_per_sec self;
    nk_deaths_per_sec := nk_deaths_per_sec self;
    sk_daily_increment := sk_daily_increment self;
    nk_daily_increment := nk_daily_increment self;
  |}.

Definition set_last_resync_time
    (self : PopulationManager F) (t : F) : PopulationManager F :=
  {|
    connected_clients := connected_clients self;
    last_update_time := last_update_time self;
    broadcast_interval := broadcast_interval self;
    resync_interval := resync_interval self;
    last_resync_time := t;
    sk_population := sk_population self;
    nk_population := nk_population self;
    self_recent_events := self_recent_events self;
    max_recent_events := max_recent_events self;
    self_sk_births_today := self_sk_births_today self;
    self_sk_deaths_today := self_sk_deaths_today self;
    self_nk_births_today := self_nk_births_today self;
    self_nk_deaths_today := self_nk_deaths_today self;
    current_day := current_day self;
    south_korea_data := south_korea_data self;
    north_korea_data := north_korea_data self;
    sk_births_per_sec := sk_births_per_sec self;
    sk_deaths_per_sec := sk_deaths_per_sec self;
    nk_births_per_sec := nk_births_per_sec self;
    nk_deaths_per_sec := nk_deaths_per_sec self;
    sk_daily_increment := sk_daily_increment self;
    nk_daily_increment := nk_daily_increment self;
  |}.

(** [l.remove(x)] for an [x] that occurs in [l]: the first occurrence
    goes. *)
Fixpoint remove_first (x : websocket) (l : list websocket) : list websocket :=
  match l with
  | [] => []
  | y :: l' => if decide (x = y) then l' else y :: remove_first x l'
  end.

Definition add_client (self : PopulationManager F) (ws : websocket)
  : PopulationManager F :=
  set_connected_clients self (connected_clients self ++ [ws]).

Definition remove_client (self : PopulationManager F) (ws : websocket)
  : PopulationManager F :=
  if decide (ws ∈ connected_clients self)
  then set_connected_clients self (remove_first ws (connected_clients self))
  else self.

(** *** The broadcast *)

(** The [for] loop over the viewers.  [send_fails ws] tells whether
    [await ws.send_text(...)] raises during this tick; the loop
    returns the viewers that received the message and the list
    [disconnected_clients], both in the order of the iteration. *)
Definition send_to_all (send_fails : websocket → bool)
    (clients : list websocket) : list websocket * list websocket :=
  foldl (λ '(delivered, disconnected_clients) client,
           if send_fails client
           then (delivered, disconnected_clients ++ [client])
           else (delivered ++ [client], disconnected_clients))
        ([], []) clients.

(** [broadcast_update], on the reading [korea_now] of the clock.  The
    result is the manager after the call and, unless the method
    returned at once for want of viewers, the message with the viewers
    that received it. *)
Definition broadcast_update
    (self : PopulationManager F) (state : PopulationState F)
    (korea_now : datetime) (send_fails : websocket → bool)
  : PopulationManager F * option (tick_message F * list websocket) :=
  match connected_clients self with
  | [] => (self, None)
  | _ :: _ =>
    let current_time := timestamp state in
    let is_resync_time :=
      fle (resync_interval self) (current_time - last_resync_time self)%py in
    let self :=
      if is_resync_time then set_last_resync_time self current_time
      else self in
    let message := {|
      msg_timestamp := timestamp state;
      msg_south_korea_population := south_korea_population state;
      msg_north_korea_population := north_korea_population state;
      msg_total_population := total_population state;
      msg_sk_births_today := sk_births_today state;
      msg_sk_deaths_today := sk_deaths_today state;
      msg_nk_births_today := nk_births_today state;
      msg_nk_deaths_today := nk_deaths_today state;
      msg_korea_time := strftime_HMS korea_now;
      msg_seconds_since_midnight := seconds_since_midnight_kst state;
      msg_is_resync := is_resync_time;
      msg_simulation_rates :=
        (sk_births_per_sec self, sk_deaths_per_sec self,
         nk_births_per_sec self, nk_deaths_per_sec self);
      msg_event_indicators := (false, false);
    |} in
    let '(delivered, disconnected_clients) :=
      send_to_all send_fails (connected_clients self) in
    (foldl remove_client self disconnected_clients,
     Some (message, delivered))
  end.

(** *** The administrative update *)

Definition update_country (stats : CountryData F) (d : new_data F)
  : CountryData F :=
  {|
    name := name stats;
    base_population := dict_get (nd_population d) (base_population stats);
    base_year := dict_get (nd_year d) (base_year stats);
    base_date := dict_get (nd_date d) (base_date stats);
    annual_births := dict_get (nd_births d) (annual_births stats);
    annual_deaths := dict_get (nd_deaths d) (annual_deaths stats);
    annual_growth_rate :=
      dict_get (nd_growth_rate d) (annual_growth_rate stats);
    fertility_rate := fertility_rate stats;
    life_expectancy := life_expectancy stats;
    birth_rate := birth_rate stats;
    death_rate := death_rate stats;
    data_source := data_source stats;
  |}.

(** [str.lower] is a parameter of the method: what follows holds for
    any function in its place. *)
Variable lower : string → string.

Definition update_base_data
    (self : PopulationManager F) (country : string) (d : new_data F)
  : option (PopulationManager F) :=
  if decide (lower country = "south_korea") then
    let sk := update_country (south_korea_data self) d in
    increment ← calculate_daily_increment sk;
    rates ← calculate_birth_death_rates_per_second sk;
    Some {|
      connected_clients := connected_clients self;
      last_update_time := last_update_time self;
      broadcast_interval := broadcast_interval self;
      resync_interval := resync_interval self;
      last_resync_time := last_resync_time self;
      sk_population := sk_population self;
      nk_population := nk_population self;
      self_recent_events := self_recent_events self;
      max_recent_events := max_recent_events self;
      self_sk_births_today := self_sk_births_today self;
      self_sk_deaths_today := self_sk_deaths_today self;
      self_nk_births_today := self_nk_births_today self;
      self_nk_deaths_today := self_nk_deaths_today self;
      current_day := current_day self;
      south_korea_data := sk;
      north_korea_data := north_korea_data self;
      sk_births_per_sec := rates.1;
      sk_deaths_per_sec := rates.2;
      nk_births_per_sec := nk_births_per_sec self;
      nk_deaths_per_sec := nk_deaths_per_sec self;
      sk_daily_increment := Some increment;
      nk_daily_increment := nk_daily_increment self;
    |}
  else if decide (lower country = "north_korea") then
    let nk := update_country (north_korea_data self) d in
    increment ← calculate_daily_increment nk;
    rates ← calculate_birth_death_rates_per_second nk;
    Some {|
      connected_clients := connected_clients self;
      last_update_time := last_update_time self;
      broadcast_interval := broadcast_interval self;
      resync_interval := resync_interval self;
      last_resync_time := last_resync_time self;
      sk_population := sk_population self;
      nk_population := nk_population self;
      self_recent_events := self_recent_events self;
      max_recent_events := max_recent_events self;
      self_sk_births_today := self_sk_births_today self;
      self_sk_deaths_today := self_sk_deaths_today self;
      self_nk_births_today := self_nk_births_today self;
      self_nk_deaths_today := self_nk_deaths_today self;
      current_day := current_day self;
      south_korea_data := south_korea_data self;
      north_korea_data := nk;
      sk_births_per_sec := sk_births_per_sec self;
      sk_deaths_per_sec := sk_deaths_per_sec self;
      nk_births_per_sec := rates.1;
      nk_deaths_per_sec := rates.2;
      sk_daily_increment := sk_daily_increment self;
      nk_daily_increment := Some increment;
    |}
  else Some self.

(** *** Executions *)

(** What happens to the manager during the life of the process: an
    iteration of the loop of [start_broadcasting] (one tick), a viewer
    connecting or disconnecting, a reading of the snapshot by an
    endpoint, an administrative update.  A tick is taken as one step:
    the interleavings of the event loop inside a tick are not
    modelled. *)
Inductive event :=
  | Tick (clk : clock_reads F) (korea_now : datetime)
         (send_fails : websocket → bool)
  | AddClient (ws : websocket)
  | RemoveClient (ws : websocket)
  | Snapshot (clk : clock_reads F)
  | UpdateBaseData (country : string) (d : new_data F).

(** One iteration of [start_broadcasting]. *)
Definition tick (self : PopulationManager F) (clk : clock_reads F)
    (korea_now : datetime) (send_fails : websocket → bool)
  : option (PopulationManager F * option (tick_message F * list websocket)) :=
  r ← calculate_current_population self clk;
  Some (broadcast_update r.1 r.2 korea_now send_fails).

Definition step (self : PopulationManager F) (e : event)
  : option (PopulationManager F * option (tick_message F * list websocket)) :=
  match e with
  | Tick clk korea_now send_fails => tick self clk korea_now send_fails
  | AddClient ws => Some (add_client self ws, None)
  | RemoveClient ws => Some (remove_client self ws, None)
  | Snapshot clk =>
      r ← calculate_current_population self clk; Some (r.1, None)
  | UpdateBaseData country d =>
      self' ← update_base_data self country d; Some (self', None)
  end.

(** The manager after the events, and what each tick sent, in order.
    The execution is followed up to the first call that raises. *)
Fixpoint run (self : PopulationManager F) (es : list event)
  : option (PopulationManager F * list (tick_message F * list websocket)) :=
  match es with
  | [] => Some (self, [])
  | e :: es' =>
      r ← step self e;
      r' ← run r.1 es';
      Some (r'.1, from_option (λ o, [o]) [] r.2 ++ r'.2)
  end.
End Manager.

(** ** The estimator of the design document

    [estimate(stats, now)] as the document words it, one country at a
    time: the population from the time elapsed since the fixed epoch,
    and the events of the day from the fraction of the local day. *)

Section Estimator.
Context {F : Type} `{!PyFloat F}.

(** The fixed epoch 2024-01-01T00:00:00Z, in seconds. *)
Definition fixed_epoch : option F := timestamp_of (datetime_utc 2024 1 1).

(** [now - fixed_epoch], in days. *)
Definition elapsed_days (now : F) : option F :=
  epoch ← fixed_epoch;
  float_div_int (now - epoch)%py 86400.

(** [base_population + (annual_growth_rate/100) * base_population *
    (elapsed_days / 365.25)], truncated to an integer. *)
Definition estimate_population (stats : CountryData F) (now : F) : option Z :=
  d ← elapsed_days now;
  r ← float_div_int (annual_growth_rate stats) 100;
  rb ← float_mul_int r (base_population stats);
  total ← int_add_float (base_population stats)
                        (rb * (d / decimal 36525 (-2)))%py;
  int_of_float total.

(** [day_fraction = seconds_since_local_midnight / 86400] *)
Definition day_fraction_of (now_kst : datetime) : option F :=
  s ← get_seconds_since_midnight_kst (F:=F) now_kst;
  int_truediv s 86400.

(** [annual_count * day_fraction / 365.25], truncated toward zero. *)
Definition estimate_events (annual_count : Z) (now_kst : datetime) : option Z :=
  f ← day_fraction_of now_kst;
  a ← int_mul_float annual_count f;
  int_of_float (a / decimal 36525 (-2))%py.

(** [floor(annual_count * day_fraction / 365.25)] *)
Definition estimate_events_floor (annual_count : Z) (now_kst : datetime)
  : option Z :=
  f ← day_fraction_of now_kst;
  a ← int_mul_float annual_count f;
  floor_of_float (a / decimal 36525 (-2))%py.

(** The manager with other [base_date] and [base_year] in both records. *)
Definition with_base_date (stats : CountryData F) (d : string) (y : Z)
  : CountryData F :=
  {|
    name := name stats;
    base_population := base_population stats;
    base_year := y;
    base_date := d;
    annual_births := annual_births stats;
    annual_deaths := annual_deaths stats;
    annual_growth_rate := annual_growth_rate stats;
    fertility_rate := fertility_rate stats;
    life_expectancy := life_expectancy stats;
    birth_rate := birth_rate stats;
    death_rate := death_rate stats;
    data_source := data_source stats;
  |}.

Definition with_country_data (self : PopulationManager F)
    (sk nk : CountryData F) : PopulationManager F :=
  {|
    connected_clients := connected_clients self;
    last_update_time := last_update_time self;
    broadcast_interval := broadcast_interval self;
    resync_interval := resync_interval self;
    last_resync_time := last_resync_time self;
    sk_population := sk_population self;
    nk_population := nk_population self;
    self_recent_events := self_recent_events self;
    max_recent_events := max_recent_events self;
    self_sk_births_today := self_sk_births_today self;
    self_sk_deaths_today := self_sk_deaths_today self;
    self_nk_births_today := self_nk_births_today self;
    self_nk_deaths_today := self_nk_deaths_today self;
    current_day := current_day self;
    south_korea_data := sk;
    north_korea_data := nk;
    sk_births_per_sec := sk_births_per_sec self;
    sk_deaths_per_sec := sk_deaths_per_sec self;
    nk_births_per_sec := nk_births_per_sec self;
    nk_deaths_per_sec := nk_deaths_per_sec self;
    sk_daily_increment := sk_daily_increment self;
    nk_daily_increment := nk_daily_increment self;
  |}.
End Estimator.

(** ** The viewers a broadcast reaches *)

(** The viewers whose send succeeds, in the order of the list. *)
Definition reached (send_fails : websocket → bool) (l : list websocket)
  : list websocket :=
  filter (λ ws, send_fails ws = false) l.

(** ** The pace of the ticks *)

Section Pace.
Context {F : Type} `{!PyFloat F}.

(** The reading of [time.time()] of a tick. *)
Definition tick_time (e : event (F:=F)) : option F :=
  match e with
  | Tick clk _ _ => Some (time_time clk)
  | _ => None
  end.

Definition tick_times (es : list (event (F:=F))) : list F :=
  omap tick_time es.

(** Every tick of the execution finds at least one viewer connected. *)
Fixpoint always_viewed (lower : string → string)
    (self : PopulationManager F) (es : list (event (F:=F))) : Prop :=
  match es with
  | [] => True
  | e :: es' =>
      (is_Some (tick_time e) → connected_clients self ≠ [])
      ∧ match step lower self e with
        | Some r => always_viewed lower r.1 es'
        | None => True
        end
  end.

(** The same as a boolean, to check it on a concrete run. *)
Fixpoint always_viewed_check (lower : string → string)
    (self : PopulationManager F) (es : list (event (F:=F))) : bool :=
  match es with
  | [] => true
  | e :: es' =>
      (match tick_time e, connected_clients self with
       | Some _, [] => false
       | _, _ => true
       end)
      && match step lower self e with
         | Some r => always_viewed_check lower r.1 es'
         | None => true
         end
  end.
End Pace.

(** Each time is at or after the one before it, and at most 30 seconds
    after it. *)
Fixpoint paced (previous : Q) (times : list Q) : Prop :=
  match times with
  | [] => True
  | t :: times' =>
      (previous <= t)%Q ∧ (t <= previous + 30)%Q ∧ paced t times'
  end.

Fixpoint paced_check (previous : Q) (times : list Q) : bool :=
  match times with
  | [] => true
  | t :: times' =>
      Qle_bool previous t && Qle_bool t (previous + 30)
      && paced_check t times'
  end.

(** ** Closed forms in exact arithmetic *)

(** 2024-01-01T00:00:00Z, in seconds since 1970-01-01T00:00:00Z. *)
Definition epoch_seconds : Q := 1704067200.

Definition population_formula (base : Z) (rate now : Q) : Q :=
  (inject_Z base
   + rate / 100 * inject_Z base
     * ((now - epoch_seconds) / 86400 / (36525 # 100)))%Q.

(** The seconds since local midnight, from the fields of the local time. *)
Definition seconds_of_day (t : datetime) : Z :=
  hour t * 3600 + minute t * 60 + second t.

(** ** Concrete runs, used to instantiate the statements below *)

(** [str.lower] on the ASCII letters. *)
Definition lower_ascii_char (c : Ascii.ascii) : Ascii.ascii :=
  let n := Ascii.nat_of_ascii c in
  if ((65 <=? n)%nat && (n <=? 90)%nat)%bool
  then Ascii.ascii_of_nat (n + 32) else c.

Fixpoint lower_ascii (s : string) : string :=
  match s with
  | EmptyString => EmptyString
  | String c s' => String (lower_ascii_char c) (lower_ascii s')
  end.

(** Noon in Seoul on the first of January 2025. *)
Definition noon_2025 : datetime :=
  {| year := 2025; month := 1; day := 1;
     hour := 12; minute := 0; second := 0; microsecond := 0;
     utcoffset := kst |}.

(** The send to viewer 2 fails. *)
Definition viewer_2_fails (ws : websocket) : bool := Nat.eqb ws 2.

Section Scenarios.
Context {F : Type} `{!PyFloat F}.

(** [epoch + 365.25 days], in seconds. *)
Definition one_year_after_epoch : option F :=
  epoch ← fixed_epoch;
  year_seconds ← float_mul_int (decimal 36525 (-2)) 86400;
  Some (epoch + year_seconds)%py.

(** The readings of a clock that shows [now] and noon in Seoul. *)
Definition clock_at (now : F) : clock_reads F :=
  {| time_time := now; now_for_date := noon_2025;
     now_for_seconds := noon_2025 |}.

Definition clock_one_year : option (clock_reads F) :=
  now ← one_year_after_epoch;
  Some {| time_time := now; now_for_date := noon_2025;
          now_for_seconds := noon_2025 |}.

(** The manager as the module creates it, read one year after the
    epoch. *)
Definition snapshot_one_year : option (PopulationState F) :=
  clk ← clock_one_year;
  self ← init (time_time clk) (time_time clk) noon_2025;
  r ← calculate_current_population self clk;
  Some r.2.

(** The same with the manager, the clock, and the manager after the
    call. *)
Definition scenario_one_year
  : option (PopulationManager F * clock_reads F
            * PopulationManager F * PopulationState F) :=
  clk ← clock_one_year;
  self ← init (time_time clk) (time_time clk) noon_2025;
  r ← calculate_current_population self clk;
  Some (self, clk, r.1, r.2).

(** The manager as the module creates it at the epoch. *)
Definition manager_at_epoch : option (PopulationManager F) :=
  init (decimal 1704067200 0) (decimal 1704067200 0) noon_2025.

(** Two snapshots of the manager [self]: at the epoch and 365.25 days
    later. *)
Definition two_snapshots (self : PopulationManager F)
  : option (PopulationState F * PopulationState F) :=
  r1 ← calculate_current_population self (clock_at (decimal 1704067200 0));
  r2 ← calculate_current_population self (clock_at (decimal 1735624800 0));
  Some (r1.2, r2.2).

(** A snapshot 365.25 days before the epoch. *)
Definition snapshot_before_epoch (self : PopulationManager F)
  : option (PopulationState F) :=
  r ← calculate_current_population self (clock_at (decimal 1672509600 0));
  Some r.2.

(** The dictionary [{"growth_rate": r}]. *)
Definition only_growth_rate (r : F) : new_data F :=
  {| nd_population := None; nd_year := None; nd_date := None;
     nd_births := None; nd_deaths := None; nd_growth_rate := Some r |}.

(** The dictionary [{"births": n}]. *)
Definition only_births (n : Z) : new_data F :=
  {| nd_population := None; nd_year := None; nd_date := None;
     nd_births := Some n; nd_deaths := None; nd_growth_rate := None |}.

(** The dictionary [{"population": n, "growth_rate": r}]. *)
Definition population_and_growth_rate (n : Z) (r : F) : new_data F :=
  {| nd_population := Some n; nd_year := None; nd_date := None;
     nd_births := None; nd_deaths := None; nd_growth_rate := Some r |}.

(** The manager of [scenario_one_year] after the update
    [{"growth_rate": 0.5}] of ["South_Korea"]. *)
Definition scenario_update
  : option (PopulationManager F * PopulationManager F) :=
  s ← scenario_one_year;
  self' ← update_base_data lower_ascii s.1.1.1 "South_Korea"
            (only_growth_rate (decimal 5 (-1)));
  Some (s.1.1.1, self').

(** The manager at the epoch after the update [{"births": -1000}] of
    ["south_korea"]. *)
Definition manager_negative_births : option (PopulationManager F) :=
  self ← manager_at_epoch;
  update_base_data lower_ascii self "south_korea" (only_births (-1000)).

(** The manager at the epoch after the update
    [{"population": -1000000, "growth_rate": 10.0}] of ["south_korea"]. *)
Definition manager_negative_population : option (PopulationManager F) :=
  self ← manager_at_epoch;
  update_base_data lower_ascii self "south_korea"
    (population_and_growth_rate (-1000000) (decimal 100 (-1))).

(** Three viewers connect, a tick in which the send to viewer 2 fails,
    then a tick in which every send succeeds. *)
Definition scenario_run
  : option (PopulationManager F
            * list (tick_message F * list websocket)) :=
  s ← scenario_one_year;
  run lower_ascii s.1.1.1
    [AddClient 1%nat; AddClient 2%nat; AddClient 3%nat;
     Tick s.1.1.2 noon_2025 viewer_2_fails;
     Tick s.1.1.2 noon_2025 (λ _, false)].

(** [n] ticks, one second apart, the first at [t0] seconds. *)
Definition ticks_every_second (t0 : Z) (n : nat) : list (event (F:=F)) :=
  map (λ k, Tick (clock_at (decimal (t0 + Z.of_nat k) 0)) noon_2025
                 (λ _, false))
      (seq 0 n).

(** Sixty-one ticks from the epoch on, with no viewer connected. *)
Definition scenario_no_viewers
  : option (PopulationManager F
            * list (tick_message F * list websocket)) :=
  self ← manager_at_epoch;
  run lower_ascii self (ticks_every_second 1704067200 61).

(** A viewer connects, then ninety-one ticks from the epoch on. *)
Definition scenario_one_viewer
  : option (PopulationManager F
            * list (tick_message F * list websocket)) :=
  self ← manager_at_epoch;
  run lower_ascii self
    (AddClient 1%nat :: ticks_every_second 1704067200 91).
End Scenarios.

(** ** Views of the manager

    Notions used to state what the methods read and what they leave
    alone. *)

(** How many times the viewer [ws] is registered in [l]. *)
Definition registrations (ws : websocket) (l : list websocket) : nat :=
  length (filter (λ x, x = ws) l).

Section Views.
Context {F : Type} `{!PyFloat F}.

(** What the manager holds about the two countries. *)
Definition statistics_of (self : PopulationManager F) :=
  (south_korea_data self, north_korea_data self,
   (sk_births_per_sec self, sk_deaths_per_sec self,
    nk_births_per_sec self, nk_deaths_per_sec self),
   (sk_daily_increment self, nk_daily_increment self),
   self_recent_events self).

(** What a broadcast reads: the viewers, the resync fields and the
    statistics. *)
Definition broadcast_view (self : PopulationManager F) :=
  (connected_clients self, resync_interval self, last_resync_time self,
   statistics_of self).

(** The per-second rates of the manager are those of its statistics. *)
Definition rates_match (self : PopulationManager F) : Prop :=
  calculate_birth_death_rates_per_second (south_korea_data self)
  = Some (sk_births_per_sec self, sk_deaths_per_sec self)
  ∧ calculate_birth_death_rates_per_second (north_korea_data self)
    = Some (nk_births_per_sec self, nk_deaths_per_sec self).

(** The fields of a record that no method assigns. *)
Definition description_of (stats : CountryData F) :=
  (name stats, fertility_rate stats, life_expectancy stats,
   birth_rate stats, death_rate stats, data_source stats).

(** The four counters of a snapshot, and the annual counts they come
    from. *)
Definition counters_today (st : PopulationState F) : list Z :=
  [sk_births_today st; sk_deaths_today st;
   nk_births_today st; nk_deaths_today st].

Definition annual_counts (self : PopulationManager F) : list Z :=
  [annual_births (south_korea_data self);
   annual_deaths (south_korea_data self);
   annual_births (north_korea_data self);
   annual_deaths (north_korea_data self)].

(** One of the three counts of the record is an [int] too large to
    convert to a float. *)
Definition too_large_for_float (stats : CountryData F) : Prop :=
  of_int (F:=F) (base_population stats) = None
  ∨ of_int (F:=F) (annual_births stats) = None
  ∨ of_int (F:=F) (annual_deaths stats) = None.

(** The manager [b] is the manager [a] with the viewer [ws] left out. *)
Definition without_viewer (ws : websocket) (a b : PopulationManager F)
  : Prop :=
  connected_clients b = filter (λ x, x ≠ ws) (connected_clients a)
  ∧ statistics_of a = statistics_of b.

Definition is_snapshot (e : event (F:=F)) : bool :=
  match e with Snapshot _ => true | _ => false end.

(** The event is an iteration of the loop or a reading of the snapshot. *)
Definition is_tick_or_snapshot (e : event (F:=F)) : bool :=
  match e with Tick _ _ _ | Snapshot _ => true | _ => false end.
End Views.

(** [{**d1, **d2}]: the keys of [d2] over those of [d1]. *)
Definition dict_merge {F : Type} (d1 d2 : new_data F) : new_data F :=
  {| nd_population := from_option Some (nd_population d1) (nd_population d2);
     nd_year := from_option Some (nd_year d1) (nd_year d2);
     nd_date := from_option Some (nd_date d1) (nd_date d2);
     nd_births := from_option Some (nd_births d1) (nd_births d2);
     nd_deaths := from_option Some (nd_deaths d1) (nd_deaths d2);
     nd_growth_rate :=
       from_option Some (nd_growth_rate d1) (nd_growth_rate d2) |}.

(** The first instant of the local day. *)
Definition local_midnight (t : datetime) : Prop :=
  hour t = 0 ∧ minute t = 0 ∧ second t = 0 ∧ microsecond t = 0.

(** ** The handlers of [main.py] that call the manager *)

(** [str(n)] for an [int]. *)
Definition str_of_int (n : Z) : string := NilZero.string_of_int (Z.to_int n).

(** What a handler answers: the body it returns, or the
    [HTTPException] it raises. *)
Inductive http_response (A : Type) :=
  | Response (body : A)
  | HTTPException (status_code : Z) (detail : string).
Arguments Response {A} body.
Arguments HTTPException {A} status_code detail.

Record update_response {F : Type} := {
  ur_status : string;
  ur_message : string;
  ur_updated_data : new_data F;
  ur_timestamp : string;
}.
Arguments update_response : clear implicits.

Record precise_state {F : Type} := {
  ps_timestamp : F;
  ps_south_korea_population : Z;
  ps_north_korea_population : Z;
  ps_total_population : Z;
  ps_births_deaths_today : (Z * Z) * (Z * Z);
  ps_recent_events : list (string * string * F * F);
  ps_realtime_rates_per_second : (F * F * F) * (F * F * F) * (F * F * F);
  ps_expected_integer_changes : (F * F) * (F * F);
  ps_korea_time : string;
}.
Arguments precise_state : clear implicits.

(** The message [websocket_endpoint] sends first. *)
Record initial_state {F : Type} := {
  is_south_korea_population : Z;
  is_north_korea_population : Z;
  is_total_population : Z;
  is_sk_births_today : Z;
  is_sk_deaths_today : Z;
  is_nk_births_today : Z;
  is_nk_deaths_today : Z;
  is_korea_time : string;
  is_event_indicators : bool * bool * bool * bool * bool * bool;
  is_recent_visual_events : list (PopulationEvent F);
  is_recent_events : list (PopulationEvent F);
}.
Arguments initial_state : clear implicits.

Section Endpoints.
Context {F : Type} `{!PyFloat F}.

(** [str.lower], [datetime.isoformat] and the built-in [round] are
    parameters: what follows holds for any functions in their place. *)
Variable lower : string → string.
Variable isoformat : datetime → string.
Variable py_round : F → Z → F.

Definition initial_message (current_state : PopulationState F)
    (korea_now : datetime) : initial_state F :=
  {| is_south_korea_population := south_korea_population current_state;
     is_north_korea_population := north_korea_population current_state;
     is_total_population := total_population current_state;
     is_sk_births_today := sk_births_today current_state;
     is_sk_deaths_today := sk_deaths_today current_state;
     is_nk_births_today := nk_births_today current_state;
     is_nk_deaths_today := nk_deaths_today current_state;
     is_korea_time := strftime_HMS korea_now;
     is_event_indicators := (false, false, false, false, false, false);
     is_recent_visual_events := [];
     is_recent_events := [] |}.

(** [websocket_endpoint] from [add_client] to the sending of the
    initial message: the viewer is registered, the snapshot is taken
    and the message built, with no suspension in between. *)
Definition websocket_endpoint_connect (self : PopulationManager F)
    (ws : websocket) (clk : clock_reads F) (korea_now : datetime)
  : option (PopulationManager F * initial_state F) :=
  let self := add_client self ws in
  r ← calculate_current_population self clk;
  Some (r.1, initial_message r.2 korea_now).

(** The [finally] clause of [websocket_endpoint]. *)
Definition websocket_endpoint_finally (self : PopulationManager F)
    (ws : websocket) : PopulationManager F :=
  remove_client self ws.

(** The handler of [POST /api/admin/update-base-data].
    [ADMIN_UPDATE_KEY] is the variable of the environment, [korea_now]
    the reading of the clock for the answer. *)
Definition update_base_data_endpoint (ADMIN_UPDATE_KEY : option string)
    (self : PopulationManager F) (country : string) (population year : Z)
    (births deaths : option Z) (growth_rate : option F)
    (admin_key : option string) (korea_now : datetime)
  : option (PopulationManager F * http_response (update_response F)) :=
  let expected_admin_key := default "admin-secret-key" ADMIN_UPDATE_KEY in
  if decide (admin_key ≠ Some expected_admin_key) then
    Some (self, HTTPException 401 "Invalid admin key")
  else if decide (lower country ∉ ["south_korea"; "north_korea"]) then
    Some (self,
          HTTPException 400 "Country must be 'south_korea' or 'north_korea'")
  else
    let update_data := {|
      nd_population := Some population;
      nd_year := Some year;
      nd_date := Some (str_of_int year +:+ "-01-01T00:00:00Z");
      nd_births := births;
      nd_deaths := deaths;
      nd_growth_rate := growth_rate;
    |} in
    self' ← update_base_data lower self (lower country) update_data;
    Some (self',
          Response {|
            ur_status := "success";
            ur_message := "Updated " +:+ country +:+ " base data";
            ur_updated_data := update_data;
            ur_timestamp := isoformat korea_now;
          |}).

(** [x == 0.0] *)
Definition float_is_zero (x : F) : bool :=
  fle x (decimal 0 0) && fle (decimal 0 0) x.

(** [1.0 / x], which raises [ZeroDivisionError] on a zero. *)
Definition one_over (x : F) : option F :=
  if float_is_zero x then None else Some (decimal 1 0 / x)%py.

(** [l[-n:]] for a positive [n]. *)
Definition last_n {A : Type} (n : nat) (l : list A) : list A :=
  drop (length l - n) l.

(** The handler of [GET /api/realtime/precise]. *)
Definition get_realtime_precise (self : PopulationManager F)
    (clk : clock_reads F) (korea_now : datetime)
  : option (PopulationManager F * precise_state F) :=
  r ← calculate_current_population self clk;
  let self := r.1 in
  let current_state := r.2 in
  let events :=
    map (λ event, (country event, event_type event, event_timestamp event,
                   (timestamp current_state - event_timestamp event)%py))
        (last_n 20 (recent_events current_state)) in
  let rates :=
    ((py_round (sk_births_per_sec self) 8,
      py_round (sk_deaths_per_sec self) 8,
      py_round (sk_births_per_sec self - sk_deaths_per_sec self)%py 8),
     (py_round (nk_births_per_sec self) 8,
      py_round (nk_deaths_per_sec self) 8,
      py_round (nk_births_per_sec self - nk_deaths_per_sec self)%py 8),
     (py_round (sk_births_per_sec self + nk_births_per_sec self)%py 8,
      py_round (sk_deaths_per_sec self + nk_deaths_per_sec self)%py 8,
      py_round ((sk_births_per_sec self + nk_births_per_sec self)
                - (sk_deaths_per_sec self + nk_deaths_per_sec self))%py 8)) in
  sk_births_every ← one_over (sk_births_per_sec self);
  nk_births_every ← one_over (nk_births_per_sec self);
  sk_deaths_every ← one_over (sk_deaths_per_sec self);
  nk_deaths_every ← one_over (nk_deaths_per_sec self);
  Some (self, {|
    ps_timestamp := timestamp current_state;
    ps_south_korea_population := south_korea_population current_state;
    ps_north_korea_population := north_korea_population current_state;
    ps_total_population := total_population current_state;
    ps_births_deaths_today :=
      ((sk_births_today current_state, sk_deaths_today current_state),
       (nk_births_today current_state, nk_deaths_today current_state));
    ps_recent_events := events;
    ps_realtime_rates_per_second := rates;
    ps_expected_integer_changes :=
      ((py_round sk_births_every 1, py_round nk_births_every 1),
       (py_round sk_deaths_every 1, py_round nk_deaths_every 1));
    ps_korea_time := isoformat korea_now;
  |}).
End Endpoints.

(** ** The [comma] filter of the templates *)

(** The digits, least significant first, with a comma after every
    third digit that has a digit after it. *)
Fixpoint group3 (l : list Ascii.ascii) : list Ascii.ascii :=
  match l with
  | a :: b :: c :: ((_ :: _) as tl) =>
      a :: b :: c :: ","%char :: group3 tl
  | _ => l
  end.

Definition insert_commas (digits : string) : string :=
  String.string_of_list_ascii
    (rev (group3 (rev (String.list_ascii_of_string digits)))).

(** [f"{n:,}"] for an [int]. *)
Definition format_comma (n : Z) : string :=
  match Z.to_int n with
  | Decimal.Pos d => insert_commas (NilZero.string_of_uint d)
  | Decimal.Neg d => String "-" (insert_commas (NilZero.string_of_uint d))
  end.

(** The values the filter is modelled on: an [int], a [float] or
    [None].  Strings, which [int()] would parse, are left out. *)
Inductive py_value :=
  | PyInt (n : Z)
  | PyFloatValue (x : float)
  | PyNone.

(** [comma_filter]: the formatted string, or the value itself when
    [int(value)] raises [ValueError] (a NaN) or [TypeError] ([None]).
    [int()] of an infinity raises [OverflowError], which the filter
    does not catch. *)
Definition comma_filter (value : py_value) : option (string + py_value) :=
  match value with
  | PyInt n => Some (inl (format_comma n))
  | PyFloatValue x =>
      if PrimFloat.is_nan x then Some (inr value)
      else n ← Binary64.int_of_float x; Some (inl (format_comma n))
  | PyNone => Some (inr value)
  end.

(** The string without its commas. *)
Definition remove_commas (s : string) : string :=
  String.string_of_list_ascii
    (filter (λ c, c ≠ ","%char) (String.list_ascii_of_string s)).

(** A decimal digit. *)
Definition is_digit (c : Ascii.ascii) : bool :=
  ((48 <=? Ascii.nat_of_ascii c) && (Ascii.nat_of_ascii c <=? 57))%nat.

(** Read from the right, the characters come in groups of three digits
    closed by a comma, up to a last group of one to three digits. *)
Fixpoint grouped_from_right (l : list Ascii.ascii) : bool :=
  match l with
  | [a] => is_digit a
  | [a; b] => is_digit a && is_digit b
  | [a; b; c] => is_digit a && is_digit b && is_digit c
  | a :: b :: c :: sep :: ((_ :: _) as tl) =>
      is_digit a && is_digit b && is_digit c
      && bool_decide (sep = ","%char) && grouped_from_right tl
  | _ => false
  end.

Definition well_grouped (s : string) : bool :=
  grouped_from_right (rev (String.list_ascii_of_string s)).

(** ** More concrete runs *)

(** Midnight in Seoul on the first of January 2025, and the last
    microsecond of that day. *)
Definition midnight_2025 : datetime :=
  {| year := 2025; month := 1; day := 1;
     hour := 0; minute := 0; second := 0; microsecond := 0;
     utcoffset := kst |}.

Definition last_second_2025 : datetime :=
  {| year := 2025; month := 1; day := 1;
     hour := 23; minute := 59; second := 59; microsecond := 999999;
     utcoffset := kst |}.

Section MoreRuns.
Context {F : Type} `{!PyFloat F}.

(** The readings of a clock that shows [now] and the local time [t]. *)
Definition clock_with (now : F) (t : datetime) : clock_reads F :=
  {| time_time := now; now_for_date := t; now_for_seconds := t |}.

(** The dictionary [{"population": n}]. *)
Definition only_population (n : Z) : new_data F :=
  {| nd_population := Some n; nd_year := None; nd_date := None;
     nd_births := None; nd_deaths := None; nd_growth_rate := None |}.
End MoreRuns.

(** * Properties *)

(** ** The snapshot and the estimator *)

Section SnapshotFacts.
Context {F : Type} `{!PyFloat F}.
Implicit Types (self : PopulationManager F) (clk : clock_reads F)
  (st : PopulationState F).

(** What a successful call of [calculate_current_population] returns,
    field by field, in terms of the estimator. *)
Lemma calculate_current_population_fields self clk self' st :
  calculate_current_population self clk = Some (self', st) →
  estimate_population (south_korea_data self) (time_time clk)
    = Some (south_korea_population st)
  ∧ estimate_population (north_korea_data self) (time_time clk)
    = Some (north_korea_population st)
  ∧ estimate_events (F:=F) (annual_births (south_korea_data self))
      (now_for_seconds clk) = Some (sk_births_today st)
  ∧ estimate_events (F:=F) (annual_deaths (south_korea_data self))
      (now_for_seconds clk) = Some (sk_deaths_today st)
  ∧ estimate_events (F:=F) (annual_births (north_korea_data self))
      (now_for_seconds clk) = Some (nk_births_today st)
  ∧ estimate_events (F:=F) (annual_deaths (north_korea_data self))
      (now_for_seconds clk) = Some (nk_deaths_today st)
  ∧ total_population st
    = south_korea_population st + north_korea_population st
  ∧ timestamp st = time_time clk.
Proof.
  unfold calculate_current_population, estimate_population, estimate_events,
    day_fraction_of, elapsed_days, fixed_epoch, growth_increment, events_today.
  change (24 * 60 * 60) with 86400.
  intros Hc. simplify_option_eq. repeat split; done.
Qed.

(** The manager that [__init__] builds. *)
Lemma init_fields t1 t2 today self :
  init t1 t2 today = Some self →
  south_korea_data self = south_korea_initial
  ∧ north_korea_initial = Some (north_korea_data self)
  ∧ connected_clients self = []
  ∧ last_resync_time self = t2
  ∧ resync_interval self = decimal 300 (-1).
Proof.
  unfold init. intros Hi.
  apply bind_Some in Hi as (nk & Hnk & Hi).
  apply bind_Some in Hi as (r1 & _ & Hi).
  apply bind_Some in Hi as (r2 & _ & Hi).
  injection Hi as <-. simpl. by rewrite Hnk.
Qed.
End SnapshotFacts.

(** ** The run one year after the epoch *)

Section Scenario.
Context {F : Type} `{!PyFloat F}.

Lemma scenario_one_year_inv (self self' : PopulationManager F) clk st :
  scenario_one_year = Some (self, clk, self', st) →
  init (time_time clk) (time_time clk) noon_2025 = Some self
  ∧ calculate_current_population self clk = Some (self', st)
  ∧ one_year_after_epoch = Some (time_time clk).
Proof.
  unfold scenario_one_year, clock_one_year. intros Hs.
  apply bind_Some in Hs as (clk0 & Hclk & Hs).
  apply bind_Some in Hs as (self0 & Hi & Hs).
  apply bind_Some in Hs as ([self1 st1] & Hc & Hs).
  injection Hs as -> -> -> ->.
  apply bind_Some in Hclk as (now & Hnow & Hclk). injection Hclk as <-.
  done.
Qed.
End Scenario.

Lemma scenario_one_year_binary64 : is_Some (scenario_one_year (F:=float)).
Proof. vm_compute. eexists. reflexivity. Qed.

Lemma fixed_epoch_binary64 : fixed_epoch (F:=float) = Some 1704067200%float.
Proof. vm_compute. reflexivity. Qed.

(** ** What each method leaves alone *)

Section Frame.
Context {F : Type} `{!PyFloat F}.
Implicit Types (self : PopulationManager F) (clk : clock_reads F)
  (st : PopulationState F) (ws : websocket) (l : list websocket).

Lemma calculate_current_population_frame self clk self' st :
  calculate_current_population self clk = Some (self', st) →
  connected_clients self' = connected_clients self
  ∧ last_resync_time self' = last_resync_time self
  ∧ resync_interval self' = resync_interval self
  ∧ south_korea_data self' = south_korea_data self
  ∧ north_korea_data self' = north_korea_data self.
Proof.
  unfold calculate_current_population. intros Hc. simplify_option_eq. done.
Qed.

Lemma update_base_data_frame lower self country d self' :
  update_base_data lower self country d = Some self' →
  connected_clients self' = connected_clients self
  ∧ last_resync_time self' = last_resync_time self
  ∧ resync_interval self' = resync_interval self.
Proof.
  unfold update_base_data. intros Hu.
  repeat case_decide; simplify_option_eq; done.
Qed.

Lemma remove_client_frame self ws :
  last_resync_time (remove_client self ws) = last_resync_time self
  ∧ resync_interval (remove_client self ws) = resync_interval self.
Proof. unfold remove_client. case_decide; done. Qed.

Lemma foldl_remove_client_frame self l :
  last_resync_time (foldl remove_client self l) = last_resync_time self
  ∧ resync_interval (foldl remove_client self l) = resync_interval self.
Proof.
  revert self. induction l as [|ws l IH]; intros self; simpl; [done|].
  destruct (IH (remove_client self ws)) as [-> ->]. apply remove_client_frame.
Qed.
End Frame.

(** ** C6: a failed send *)

Section Delivery.
Context {F : Type} `{!PyFloat F}.
Implicit Types (self : PopulationManager F) (ws : websocket)
  (l pre : list websocket) (send_fails : websocket → bool).

Lemma remove_first_subseteq ws l : remove_first ws l ⊆ l.
Proof.
  induction l as [|y l IH]; simpl; [done|].
  intros x. rewrite elem_of_cons. case_decide; [by right|].
  rewrite elem_of_cons. intros [->|Hx]; [by left|]. right. by apply IH.
Qed.

Lemma remove_first_middle ws pre l :
  ws ∉ pre → remove_first ws (pre ++ ws :: l) = pre ++ l.
Proof.
  induction pre as [|y pre IH]; simpl; intros Hpre.
  - by rewrite decide_True.
  - rewrite decide_False by set_solver. f_equal. apply IH. set_solver.
Qed.

Lemma send_to_all_spec send_fails l :
  send_to_all send_fails l
  = (reached send_fails l, filter (λ ws, send_fails ws = true) l).
Proof.
  unfold send_to_all, reached.
  enough (Hgen : ∀ acc1 acc2,
    foldl (λ '(delivered, disconnected_clients) client,
             if send_fails client
             then (delivered, disconnected_clients ++ [client])
             else (delivered ++ [client], disconnected_clients))
          (acc1, acc2) l
    = (acc1 ++ filter (λ ws, send_fails ws = false) l,
       acc2 ++ filter (λ ws, send_fails ws = true) l)) by apply (Hgen [] []).
  induction l as [|c l IH]; intros acc1 acc2; simpl.
  - by rewrite !app_nil_r.
  - destruct (send_fails c) eqn:Hc; rewrite IH.
    + rewrite filter_cons_False by (rewrite Hc; done).
      rewrite filter_cons_True by done. by rewrite <- app_assoc.
    + rewrite filter_cons_True by done.
      rewrite filter_cons_False by (rewrite Hc; done). by rewrite <- app_assoc.
Qed.

Lemma connected_clients_remove_client self ws :
  connected_clients (remove_client self ws)
  = if decide (ws ∈ connected_clients self)
    then remove_first ws (connected_clients self)
    else connected_clients self.
Proof. unfold remove_client. by case_decide. Qed.

(** Removing, one by one, the viewers whose send failed leaves the
    viewers whose send succeeded. *)
Lemma foldl_remove_client_failed send_fails self pre l :
  connected_clients self = pre ++ l →
  Forall (λ ws, send_fails ws = false) pre →
  connected_clients
    (foldl remove_client self (filter (λ ws, send_fails ws = true) l))
  = pre ++ reached send_fails l.
Proof.
  revert self pre. induction l as [|c l IH]; intros self pre Hself Hpre.
  - simpl. by rewrite Hself.
  - unfold reached in *. destruct (send_fails c) eqn:Hc.
    + rewrite filter_cons_True by done.
      rewrite filter_cons_False by (rewrite Hc; done). simpl.
      apply IH; [|done].
      rewrite connected_clients_remove_client, Hself.
      rewrite decide_True by set_solver.
      apply remove_first_middle. intros Hin.
      rewrite Forall_forall in Hpre. specialize (Hpre _ Hin). congruence.
    + rewrite filter_cons_False by (rewrite Hc; done).
      rewrite filter_cons_True by done.
      rewrite (IH self (pre ++ [c])).
      * by rewrite <- app_assoc.
      * by rewrite <- app_assoc.
      * apply Forall_app. split; [done|]. by constructor.
Qed.

(** [broadcast_update], seen from the viewers. *)
Lemma broadcast_update_clients self state korea_now send_fails :
  connected_clients (broadcast_update self state korea_now send_fails).1
  = reached send_fails (connected_clients self).
Proof.
  unfold broadcast_update.
  destruct (connected_clients self) as [|c l] eqn:Hl; [done|].
  rewrite send_to_all_spec; simpl.
  set (self1 := if fle _ _ then _ else _).
  assert (Hl1 : connected_clients self1 = c :: l).
  { unfold self1. by destruct (fle _ _). }
  rewrite Hl1. simpl.
  apply (foldl_remove_client_failed send_fails self1 [] (c :: l)); done.
Qed.

Lemma broadcast_update_delivered self state korea_now send_fails self' m d :
  broadcast_update self state korea_now send_fails = (self', Some (m, d)) →
  d = reached send_fails (connected_clients self).
Proof.
  unfold broadcast_update.
  destruct (connected_clients self) as [|c l] eqn:Hl; [done|].
  rewrite send_to_all_spec.
  set (self1 := if fle _ _ then _ else _).
  assert (Hl1 : connected_clients self1 = c :: l).
  { unfold self1. by destruct (fle _ _). }
  rewrite Hl1. intros [= _ _ <-]. done.
Qed.

Lemma broadcast_update_sends self state korea_now send_fails :
  connected_clients self ≠ [] →
  ∃ m, (broadcast_update self state korea_now send_fails).2
       = Some (m, reached send_fails (connected_clients self)).
Proof.
  intros Hne.
  destruct (broadcast_update self state korea_now send_fails)
    as [self' [[m d]|]] eqn:Hb.
  - exists m. simpl. by rewrite (broadcast_update_delivered _ _ _ _ _ _ _ Hb).
  - exfalso. unfold broadcast_update in Hb.
    destruct (connected_clients self); [done|].
    rewrite send_to_all_spec in Hb. done.
Qed.
End Delivery.

Section Executions.
Context {F : Type} `{!PyFloat F}.
Variable lower : string → string.
Implicit Types (self : PopulationManager F) (ws : websocket)
  (es : list (event (F:=F))) (send_fails : websocket → bool).

Lemma run_cons self e es :
  run lower self (e :: es)
  = r ← step lower self e;
    r' ← run lower r.1 es;
    Some (r'.1, from_option (λ o, [o]) [] r.2 ++ r'.2).
Proof. reflexivity. Qed.

(** The message of a tick carries the snapshot computed in that tick. *)
Lemma tick_message_fields self clk korea_now send_fails self' m d :
  tick self clk korea_now send_fails = Some (self', Some (m, d)) →
  ∃ self1 st,
    calculate_current_population self clk = Some (self1, st)
    ∧ msg_timestamp m = timestamp st
    ∧ msg_south_korea_population m = south_korea_population st
    ∧ msg_north_korea_population m = north_korea_population st
    ∧ msg_total_population m = total_population st
    ∧ msg_is_resync m
      = fle (resync_interval self)
            (timestamp st - last_resync_time self)%py
    ∧ d = reached send_fails (connected_clients self).
Proof.
  unfold tick. intros Ht.
  destruct (calculate_current_population self clk) as [[self1 st]|] eqn:Hc;
    [|done].
  simpl in Ht. injection Ht as Hb.
  destruct (calculate_current_population_frame _ _ _ _ Hc)
    as (Hcl & Hlast & Hint & _).
  exists self1, st. split; [done|].
  pose proof (broadcast_update_delivered _ _ _ _ _ _ _ Hb) as Hd.
  rewrite Hcl in Hd. rewrite <- Hlast, <- Hint.
  unfold broadcast_update in Hb.
  destruct (connected_clients self1); [done|].
  destruct (send_to_all _ _) as [d1 d2].
  injection Hb as _ <- _. done.
Qed.

(** A viewer that is not a member and is not added stays out of the
    membership, and out of every delivery. *)
Lemma step_keeps_out self e self' o ws :
  ws ∉ connected_clients self →
  e ≠ AddClient ws →
  step lower self e = Some (self', o) →
  (ws ∉ connected_clients self') ∧ (∀ m d, o = Some (m, d) → ws ∉ d).
Proof.
  intros Hout Hne Hstep. destruct e as [clk k f|c|c|clk|country nd]; simpl in Hstep.
  - unfold tick in Hstep.
    destruct (calculate_current_population self clk) as [[self1 st]|] eqn:Hc;
      [|done].
    simpl in Hstep. injection Hstep as Hb.
    destruct (calculate_current_population_frame _ _ _ _ Hc) as (Hcl & _).
    pose proof (broadcast_update_clients self1 st k f) as Hcl'.
    rewrite Hb, Hcl in Hcl'. simpl in Hcl'. split.
    + rewrite Hcl'. unfold reached. rewrite list_elem_of_filter. tauto.
    + intros m d ->.
      rewrite (broadcast_update_delivered _ _ _ _ _ _ _ Hb), Hcl.
      unfold reached. rewrite list_elem_of_filter. tauto.
  - injection Hstep as <- <-. split; [|done].
    unfold add_client. simpl. rewrite elem_of_app, list_elem_of_singleton.
    intros [?| ->]; [done|]. by apply Hne.
  - injection Hstep as <- <-. split; [|done].
    rewrite connected_clients_remove_client. case_decide; [|done].
    intros Hin. by apply remove_first_subseteq in Hin.
  - destruct (calculate_current_population self clk) as [[self1 st]|] eqn:Hc;
      [|done].
    simpl in Hstep. injection Hstep as <- <-.
    destruct (calculate_current_population_frame _ _ _ _ Hc) as (-> & _).
    done.
  - destruct (update_base_data lower self country nd) as [self1|] eqn:Hu;
      [|done].
    simpl in Hstep. injection Hstep as <- <-.
    destruct (update_base_data_frame _ _ _ _ _ Hu) as (-> & _). done.
Qed.

Lemma run_keeps_out self es self' outs ws :
  ws ∉ connected_clients self →
  AddClient ws ∉ es →
  run lower self es = Some (self', outs) →
  (ws ∉ connected_clients self') ∧ (∀ m d, (m, d) ∈ outs → ws ∉ d).
Proof.
  revert self outs. induction es as [|e es IH]; intros self outs Hout Hadd Hrun.
  - injection Hrun as <- <-. split; [done|]. intros m d Hin.
    by apply elem_of_nil in Hin.
  - rewrite run_cons in Hrun.
    destruct (step lower self e) as [[self1 o]|] eqn:Hstep; [|done].
    simpl in Hrun.
    destruct (run lower self1 es) as [[self2 outs2]|] eqn:Hrun2; [|done].
    simpl in Hrun. injection Hrun as <- <-.
    apply not_elem_of_cons in Hadd as [Hne Hadd].
    destruct (step_keeps_out _ _ _ _ _ Hout (not_eq_sym Hne) Hstep)
      as [Hout1 Ho].
    destruct (IH _ _ Hout1 Hadd Hrun2) as [Hout2 Houts].
    split; [done|]. intros m d. rewrite elem_of_app. intros [Hin|Hin].
    + destruct o as [[m1 d1]|]; simpl in Hin.
      * apply list_elem_of_singleton in Hin. injection Hin as -> ->.
        by apply (Ho m1 d1).
      * by apply elem_of_nil in Hin.
    + by apply (Houts m d).
Qed.


(** C9.  The total of a snapshot is the sum of its two populations, in
    every state that [calculate_current_population] returns and in
    every message that a tick sends. *)
Theorem total_population_is_the_sum :
  (∀ self clk self' st,
     calculate_current_population self clk = Some (self', st) →
     total_population st
     = south_korea_population st + north_korea_population st)
  ∧ (∀ self es self' outs,
       run lower self es = Some (self', outs) →
       ∀ m d, (m, d) ∈ outs →
       msg_total_population m
       = msg_south_korea_population m + msg_north_korea_population m).
Proof.
  split.
  - intros self clk self' st Hc.
    by destruct (calculate_current_population_fields _ _ _ _ Hc)
      as (_ & _ & _ & _ & _ & _ & Htot & _).
  - intros self es. revert self.
    induction es as [|e es IH]; intros self self' outs Hrun m d Hin.
    + injection Hrun as <- <-. by apply elem_of_nil in Hin.
    + rewrite run_cons in Hrun.
      destruct (step lower self e) as [[self1 o]|] eqn:Hstep; [|done].
      simpl in Hrun.
      destruct (run lower self1 es) as [[self2 outs2]|] eqn:Hrun2; [|done].
      simpl in Hrun. injection Hrun as <- <-.
      apply elem_of_app in Hin as [Hin|Hin]; [|by eapply IH].
      destruct o as [[m1 d1]|]; simpl in Hin;
        [|by apply elem_of_nil in Hin].
      apply list_elem_of_singleton in Hin. injection Hin as -> ->.
      destruct e as [clk k f|c|c|clk|country nd]; simpl in Hstep.
      * destruct (tick_message_fields _ _ _ _ _ _ _ Hstep)
          as (self0 & st & Hc & _ & -> & -> & -> & _).
        by destruct (calculate_current_population_fields _ _ _ _ Hc)
          as (_ & _ & _ & _ & _ & _ & Htot & _).
      * done.
      * done.
      * by destruct (calculate_current_population self clk).
      * by destruct (update_base_data lower self country nd).
Qed.
End Executions.

(** ** C7 and C10: the administrative update *)

Section Update.
Context {F : Type} `{!PyFloat F}.
Variable lower : string → string.
Implicit Types (self : PopulationManager F) (d : new_data F).

Lemma update_base_data_countries self country d self' :
  update_base_data lower self country d = Some self' →
  south_korea_data self'
  = (if decide (lower country = "south_korea")
     then update_country (south_korea_data self) d
     else south_korea_data self)
  ∧ north_korea_data self'
    = (if decide (lower country = "south_korea") then north_korea_data self
       else if decide (lower country = "north_korea")
            then update_country (north_korea_data self) d
            else north_korea_data self).
Proof.
  unfold update_base_data. intros Hu.
  repeat case_decide; simplify_option_eq; done.
Qed.

(** C7.  After [update_base_data], a field whose key the dictionary
    omits ([births], [deaths], [growth_rate], [date]) is what it was, in
    both records; the record of the country that was not named is what
    it was; and when [births] and [deaths] are omitted the births and
    deaths of the day computed afterwards are those computed before. *)
Theorem update_leaves_omitted_fields self country d self' :
  update_base_data lower self country d = Some self' →
  (nd_births d = None →
     annual_births (south_korea_data self')
     = annual_births (south_korea_data self)
     ∧ annual_births (north_korea_data self')
       = annual_births (north_korea_data self))
  ∧ (nd_deaths d = None →
       annual_deaths (south_korea_data self')
       = annual_deaths (south_korea_data self)
       ∧ annual_deaths (north_korea_data self')
         = annual_deaths (north_korea_data self))
  ∧ (nd_growth_rate d = None →
       annual_growth_rate (south_korea_data self')
       = annual_growth_rate (south_korea_data self)
       ∧ annual_growth_rate (north_korea_data self')
         = annual_growth_rate (north_korea_data self))
  ∧ (nd_date d = None →
       base_date (south_korea_data self') = base_date (south_korea_data self)
       ∧ base_date (north_korea_data self')
         = base_date (north_korea_data self))
  ∧ (lower country ≠ "south_korea" →
       south_korea_data self' = south_korea_data self)
  ∧ (lower country ≠ "north_korea" →
       north_korea_data self' = north_korea_data self)
  ∧ (nd_births d = None → nd_deaths d = None →
       ∀ clk self1 st self1' st',
         calculate_current_population self clk = Some (self1, st) →
         calculate_current_population self' clk = Some (self1', st') →
         sk_births_today st' = sk_births_today st
         ∧ sk_deaths_today st' = sk_deaths_today st
         ∧ nk_births_today st' = nk_births_today st
         ∧ nk_deaths_today st' = nk_deaths_today st).
Proof.
  intros Hu. destruct (update_base_data_countries _ _ _ _ Hu) as [Hsk Hnk].
  assert (Hb : nd_births d = None →
     annual_births (south_korea_data self')
     = annual_births (south_korea_data self)
     ∧ annual_births (north_korea_data self')
       = annual_births (north_korea_data self)).
  { intros Hd. rewrite Hsk, Hnk.
    repeat case_decide; simpl; rewrite ?Hd; done. }
  assert (Hde : nd_deaths d = None →
     annual_deaths (south_korea_data self')
     = annual_deaths (south_korea_data self)
     ∧ annual_deaths (north_korea_data self')
       = annual_deaths (north_korea_data self)).
  { intros Hd. rewrite Hsk, Hnk.
    repeat case_decide; simpl; rewrite ?Hd; done. }
  split; [exact Hb|]. split; [exact Hde|].
  split; [|split; [|split; [|split]]].
  - intros Hd. rewrite Hsk, Hnk.
    repeat case_decide; simpl; rewrite ?Hd; done.
  - intros Hd. rewrite Hsk, Hnk.
    repeat case_decide; simpl; rewrite ?Hd; done.
  - intros Hne. rewrite Hsk. by rewrite decide_False.
  - intros Hne. rewrite Hnk. case_decide; [done|]. by rewrite decide_False.
  - intros Hd1 Hd2 clk self1 st self1' st' Hc Hc'.
    destruct (Hb Hd1) as [Hb1 Hb2]. destruct (Hde Hd2) as [Hde1 Hde2].
    destruct (calculate_current_population_fields _ _ _ _ Hc)
      as (_ & _ & H1 & H2 & H3 & H4 & _).
    destruct (calculate_current_population_fields _ _ _ _ Hc')
      as (_ & _ & H1' & H2' & H3' & H4' & _).
    rewrite Hb1 in H1'. rewrite Hde1 in H2'.
    rewrite Hb2 in H3'. rewrite Hde2 in H4'.
    repeat split; congruence.
Qed.

(** C10.  For a country whose lower-case form is neither
    ["south_korea"] nor ["north_korea"], [update_base_data] returns
    normally, whatever the dictionary, and the manager (both records,
    the rates per second, everything else) is what it was. *)
Theorem unknown_country_is_a_no_op self country d :
  lower country ≠ "south_korea" →
  lower country ≠ "north_korea" →
  update_base_data lower self country d = Some self.
Proof.
  intros Hsk Hnk. unfold update_base_data.
  rewrite decide_False by done. by rewrite decide_False.
Qed.
End Update.

(** *** Instances of C6, C7, C9 and C10 on concrete runs *)

Section MoreScenarios.
Context {F : Type} `{!PyFloat F}.

Lemma scenario_update_inv (self self' : PopulationManager F) :
  scenario_update = Some (self, self') →
  update_base_data lower_ascii self "South_Korea"
    (only_growth_rate (decimal 5 (-1))) = Some self'.
Proof.
  unfold scenario_update. intros Hs.
  apply bind_Some in Hs as (s & _ & Hs).
  apply bind_Some in Hs as (u & Hu & Hs).
  by injection Hs as <- <-.
Qed.

Lemma scenario_run_inv
    (r : PopulationManager F * list (tick_message F * list websocket)) :
  scenario_run = Some r →
  ∃ (self : PopulationManager F) clk,
    run lower_ascii self
      [AddClient 1%nat; AddClient 2%nat; AddClient 3%nat;
       Tick clk noon_2025 viewer_2_fails;
       Tick clk noon_2025 (λ _, false)] = Some r.
Proof.
  unfold scenario_run. intros Hs.
  apply bind_Some in Hs as (s & _ & Hs). by exists s.1.1.1, s.1.1.2.
Qed.
End MoreScenarios.

Lemma scenario_update_binary64 : is_Some (scenario_update (F:=float)).
Proof. vm_compute. eexists. reflexivity. Qed.

Lemma scenario_run_binary64 :
  ∃ self m1 m2,
    scenario_run (F:=float)
    = Some (self, [(m1, [1; 3]%nat); (m2, [1; 3]%nat)]).
Proof. vm_compute. do 3 eexists. reflexivity. Qed.

Lemma update_leaves_omitted_fields_witness :
  ∃ self self' : PopulationManager float,
    update_base_data lower_ascii self "South_Korea"
      (only_growth_rate (decimal 5 (-1))) = Some self'
    ∧ annual_births (south_korea_data self')
      = annual_births (south_korea_data self)
    ∧ annual_deaths (south_korea_data self')
      = annual_deaths (south_korea_data self)
    ∧ north_korea_data self' = north_korea_data self.
Proof.
  destruct scenario_update_binary64 as [[self self'] Hs].
  exists self, self'.
  pose proof (scenario_update_inv _ _ Hs) as Hu.
  destruct (update_leaves_omitted_fields lower_ascii self "South_Korea"
              (only_growth_rate (decimal 5 (-1))) self' Hu)
    as (Hb & Hd & _ & _ & _ & Hnk & _).
  split; [exact Hu|]. split; [exact (proj1 (Hb eq_refl))|].
  split; [exact (proj1 (Hd eq_refl))|].
  apply Hnk. vm_compute. discriminate.
Defined.

Lemma unknown_country_is_a_no_op_witness :
  ∃ self : PopulationManager float,
    lower_ascii "Japan" ≠ "south_korea"
    ∧ lower_ascii "Japan" ≠ "north_korea"
    ∧ update_base_data lower_ascii self "Japan"
        (only_growth_rate (decimal 5 (-1))) = Some self.
Proof.
  destruct scenario_update_binary64 as [[self self'] _].
  exists self.
  assert (H1 : lower_ascii "Japan" ≠ "south_korea")
    by (vm_compute; discriminate).
  assert (H2 : lower_ascii "Japan" ≠ "north_korea")
    by (vm_compute; discriminate).
  split; [exact H1|]. split; [exact H2|].
  exact (unknown_country_is_a_no_op lower_ascii self "Japan"
           (only_growth_rate (decimal 5 (-1))) H1 H2).
Defined.

Lemma total_population_is_the_sum_witness :
  ∃ (self : PopulationManager float) m1 m2,
    scenario_run = Some (self, [(m1, [1; 3]%nat); (m2, [1; 3]%nat)])
    ∧ msg_total_population m1
      = msg_south_korea_population m1 + msg_north_korea_population m1.
Proof.
  destruct scenario_run_binary64 as (self & m1 & m2 & Hs).
  exists self, m1, m2. split; [exact Hs|].
  destruct (scenario_run_inv _ Hs) as (self0 & clk & Hrun).
  exact (proj2 (total_population_is_the_sum lower_ascii) _ _ _ _ Hrun
           m1 [1; 3]%nat (list_elem_of_here _ _)).
Defined.


(** ** Exact arithmetic *)

Section ExactArithmetic.
Import Exact.

Lemma Qtrunc_nonneg (q : Q) : (0 <= q)%Q → Qtrunc q = Qfloor q.
Proof.
  destruct q as [n d]. unfold Qle, Qtrunc, Qfloor. simpl. intros Hn.
  apply Z.quot_div_nonneg; lia.
Qed.

Lemma Qtrunc_nonpos (q : Q) : (q <= 0)%Q → Qtrunc q = Qceiling q.
Proof.
  destruct q as [n d]. unfold Qle, Qtrunc, Qceiling, Qfloor. simpl. intros Hn.
  rewrite <- (Z.opp_involutive n) at 1.
  rewrite Z.quot_opp_l by lia. f_equal. apply Z.quot_div_nonneg; lia.
Qed.

Lemma Qtrunc_comp (q q' : Q) : (q == q')%Q → Qtrunc q = Qtrunc q'.
Proof.
  intros Heq. destruct (Qlt_le_dec q 0) as [Hneg|Hpos].
  - rewrite !Qtrunc_nonpos by (rewrite <- ?Heq; by apply Qlt_le_weak).
    by rewrite Heq.
  - rewrite !Qtrunc_nonneg by (rewrite <- ?Heq; done). by rewrite Heq.
Qed.

Lemma Qtrunc_inject_Z (z : Z) : Qtrunc (inject_Z z) = z.
Proof. unfold Qtrunc. simpl. apply Z.quot_1_r. Qed.

Lemma Qtrunc_div (a : Z) (b : positive) :
  Qtrunc (inject_Z a / inject_Z (Z.pos b)) = a ÷ Z.pos b.
Proof. unfold Qtrunc, Qdiv, Qmult, Qinv. simpl. by rewrite Z.mul_1_r. Qed.

(** Truncation toward zero is monotone. *)
Lemma Qtrunc_le (x y : Q) : (x <= y)%Q → Qtrunc x <= Qtrunc y.
Proof.
  intros Hxy. destruct (Qlt_le_dec x 0) as [Hx|Hx];
    destruct (Qlt_le_dec y 0) as [Hy|Hy].
  - rewrite !Qtrunc_nonpos by by apply Qlt_le_weak. by apply Qceiling_resp_le.
  - rewrite (Qtrunc_nonpos x) by by apply Qlt_le_weak.
    rewrite (Qtrunc_nonneg y) by done.
    transitivity 0.
    + change 0 with (Qceiling 0). apply Qceiling_resp_le. by apply Qlt_le_weak.
    + change 0 with (Qfloor 0). by apply Qfloor_resp_le.
  - exfalso. apply (Qlt_irrefl 0). eapply Qle_lt_trans; [exact Hx|].
    eapply Qle_lt_trans; [exact Hxy|done].
  - rewrite !Qtrunc_nonneg by done. by apply Qfloor_resp_le.
Qed.

(** The fixed epoch of the code is 1704067200 seconds. *)
Lemma exact_fixed_epoch :
  ∃ q : Q, fixed_epoch (F:=Q) = Some q ∧ (q == epoch_seconds)%Q.
Proof. eexists. split; [vm_compute; reflexivity|reflexivity]. Qed.

Lemma exact_estimate_population (stats : CountryData Q) (now : Q) :
  estimate_population stats now
  = Some (Qtrunc (population_formula (base_population stats)
                    (annual_growth_rate stats) now)).
Proof.
  destruct exact_fixed_epoch as (q & Hq & Heq).
  unfold estimate_population, elapsed_days. rewrite Hq.
  cbn. f_equal. apply Qtrunc_comp.
  unfold population_formula.
  change (Z.to_pos (10 ^ (- (-2)))) with 100%positive.
  rewrite Heq. reflexivity.
Qed.

Lemma population_formula_at_epoch base rate :
  (population_formula base rate epoch_seconds == inject_Z base)%Q.
Proof. unfold population_formula. field. Qed.

(** The formula is monotone in [now], one way or the other with the
    sign of the rate, when the base population is not negative. *)
Lemma population_formula_le base rate x y :
  0 <= base → (x <= y)%Q →
  ((0 <= rate)%Q →
     (population_formula base rate x <= population_formula base rate y)%Q)
  ∧ ((rate <= 0)%Q →
     (population_formula base rate y <= population_formula base rate x)%Q).
Proof.
  intros Hb Hxy. unfold population_formula, epoch_seconds.
  assert (Hb' : (0 <= inject_Z base)%Q).
  { change 0%Q with (inject_Z 0). by rewrite <- Zle_Qle. }
  set (b := inject_Z base) in *. clearbody b.
  assert (Hd : ((y - 1704067200) / 86400 / (36525 # 100)
                - (x - 1704067200) / 86400 / (36525 # 100)
                == (y - x) * (100 # 3155760000))%Q) by field.
  split; intros Hr.
  - assert (H : (0 <= rate / 100 * b * ((y - x) * (100 # 3155760000)))%Q).
    { apply Qmult_le_0_compat.
      - apply Qmult_le_0_compat; [|done].
        apply Qle_shift_div_l; [done|]. by rewrite Qmult_0_l.
      - apply Qmult_le_0_compat; [|done]. lra. }
    rewrite <- Hd in H. lra.
  - assert (H : (0 <= (- rate) / 100 * b * ((y - x) * (100 # 3155760000)))%Q).
    { apply Qmult_le_0_compat.
      - apply Qmult_le_0_compat; [|done].
        apply Qle_shift_div_l; [done|]. rewrite Qmult_0_l. lra.
      - apply Qmult_le_0_compat; [|done]. lra. }
    rewrite <- Hd in H.
    assert (Hn : (- rate / 100 * b
                  * ((y - 1704067200) / 86400 / (36525 # 100)
                     - (x - 1704067200) / 86400 / (36525 # 100))
       == rate / 100 * b * ((x - 1704067200) / 86400 / (36525 # 100))
          - rate / 100 * b * ((y - 1704067200) / 86400 / (36525 # 100)))%Q)
      by field.
    rewrite Hn in H. lra.
Qed.

Lemma datetime_sub_midnight t :
  valid_time t →
  datetime_sub t (replace_midnight t)
  = {| days := 0; seconds := seconds_of_day t;
       microseconds := microsecond t |}.
Proof.
  intros (Hh & Hm & Hs & Hus).
  unfold datetime_sub, mk_timedelta, toordinal, replace_midnight,
    seconds_of_day. simpl.
  rewrite (Z.sub_0_r (microsecond t)).
  rewrite (Z.div_small (microsecond t)), (Z.mod_small (microsecond t)) by lia.
  replace (second t + minute t * 60 + hour t * 3600 - (0 + 0 * 60 + 0 * 3600)
           + (utcoffset t - utcoffset t) + 0)
    with (hour t * 3600 + minute t * 60 + second t) by lia.
  rewrite Z.div_small, Z.mod_small by lia. f_equal. lia.
Qed.

(** The seconds since midnight that the code computes are those of the
    local time of day. *)
Lemma exact_seconds_since_midnight t :
  valid_time t →
  get_seconds_since_midnight_kst (F:=Q) t = Some (seconds_of_day t).
Proof.
  intros Hv. unfold get_seconds_since_midnight_kst, total_seconds.
  rewrite datetime_sub_midnight by done. simpl.
  change (10 ^ 6) with 1000000. f_equal.
  rewrite Qtrunc_div.
  destruct Hv as (Hh & Hm & Hs & Hus). unfold seconds_of_day.
  rewrite Z.quot_div_nonneg by lia.
  symmetry. apply Z.div_unique with (microsecond t); lia.
Qed.

Lemma exact_estimate_events annual t :
  valid_time t →
  estimate_events (F:=Q) annual t
  = Some ((annual * seconds_of_day t) ÷ 31557600)
  ∧ (0 <= annual →
     estimate_events_floor (F:=Q) annual t = estimate_events (F:=Q) annual t).
Proof.
  intros Hv. unfold estimate_events, estimate_events_floor, day_fraction_of.
  rewrite exact_seconds_since_midnight by done. cbn.
  change (Z.to_pos (10 ^ (- (-2)))) with 100%positive.
  set (q := (inject_Z annual * (inject_Z (seconds_of_day t) / inject_Z 86400)
             / (36525 # 100))%Q).
  assert (Hq : (q == inject_Z (annual * seconds_of_day t)
                     / inject_Z (Z.pos 31557600))%Q).
  { unfold q. rewrite inject_Z_mult. field. }
  split.
  - f_equal. rewrite (Qtrunc_comp _ _ Hq). apply Qtrunc_div.
  - intros Ha. f_equal. symmetry. apply Qtrunc_nonneg. rewrite Hq.
    apply Qle_shift_div_l; [done|]. rewrite Qmult_0_l.
    change 0%Q with (inject_Z 0). rewrite <- Zle_Qle.
    destruct Hv as (Hh & Hm & Hs & Hus). unfold seconds_of_day. nia.
Qed.

(** In exact arithmetic no call raises. *)
Lemma exact_calculate_total (self : PopulationManager Q) clk :
  is_Some (calculate_current_population self clk).
Proof.
  unfold calculate_current_population, growth_increment, events_today,
    get_seconds_since_midnight_kst, timestamp_of, total_seconds.
  cbn. eexists. reflexivity.
Qed.
End ExactArithmetic.

(** ** C1: the population formula and its anchor *)

Section Anchor.
Context {F : Type} `{!PyFloat F}.
Implicit Types (self : PopulationManager F) (clk : clock_reads F)
  (st : PopulationState F).

Lemma calculate_ignores_base_date self clk sk_date sk_year nk_date nk_year :
  snd <$> calculate_current_population
            (with_country_data self
               (with_base_date (south_korea_data self) sk_date sk_year)
               (with_base_date (north_korea_data self) nk_date nk_year)) clk
  = snd <$> calculate_current_population self clk.
Proof.
  unfold calculate_current_population, growth_increment. simpl.
  repeat (match goal with
          | |- context [mbind _ ?x] => destruct x; simpl; [|reflexivity]
          end).
  reflexivity.
Qed.
End Anchor.

(** C1.  Whatever the statistics and the clock, the population that
    [calculate_current_population] returns for each country is
    [base_population + (annual_growth_rate/100) * base_population *
    (elapsed_days / 365.25)] truncated to an integer, with
    [elapsed_days] counted from 2024-01-01T00:00:00Z, and the snapshot
    is the same whatever [base_date] and [base_year] hold: in every
    arithmetic.  The epoch of the code is 1704067200 seconds in
    binary64, and in exact arithmetic the population is the truncation
    of the formula with that epoch. *)
Theorem population_anchored_to_fixed_epoch :
  (∀ (F : Type) (HF : PyFloat F) (self self' : PopulationManager F) clk st,
     calculate_current_population self clk = Some (self', st) →
     estimate_population (south_korea_data self) (time_time clk)
       = Some (south_korea_population st)
     ∧ estimate_population (north_korea_data self) (time_time clk)
       = Some (north_korea_population st)
     ∧ ∀ sk_date sk_year nk_date nk_year,
         snd <$> calculate_current_population
                   (with_country_data self
                      (with_base_date (south_korea_data self) sk_date sk_year)
                      (with_base_date (north_korea_data self) nk_date nk_year))
                   clk
         = Some st)
  ∧ fixed_epoch (F:=float) = Some 1704067200%float
  ∧ (∀ (self self' : PopulationManager Q) clk st,
       calculate_current_population self clk = Some (self', st) →
       south_korea_population st
       = Exact.Qtrunc
           (population_formula (base_population (south_korea_data self))
              (annual_growth_rate (south_korea_data self)) (time_time clk))
       ∧ north_korea_population st
         = Exact.Qtrunc
             (population_formula (base_population (north_korea_data self))
                (annual_growth_rate (north_korea_data self))
                (time_time clk))).
Proof.
  split; [|split].
  - intros F HF self self' clk st Hc.
    destruct (calculate_current_population_fields _ _ _ _ Hc)
      as (Hsk & Hnk & _).
    repeat split; [done..|].
    intros. rewrite calculate_ignores_base_date, Hc. reflexivity.
  - exact fixed_epoch_binary64.
  - intros self self' clk st Hc.
    destruct (calculate_current_population_fields _ _ _ _ Hc)
      as (Hsk & Hnk & _).
    rewrite exact_estimate_population in Hsk, Hnk.
    injection Hsk as <-. injection Hnk as <-. done.
Qed.

Lemma population_anchored_to_fixed_epoch_witness :
  ∃ (self self' : PopulationManager float) clk st,
    scenario_one_year = Some (self, clk, self', st)
    ∧ calculate_current_population self clk = Some (self', st)
    ∧ estimate_population (south_korea_data self) (time_time clk)
      = Some (south_korea_population st)
    ∧ snd <$> calculate_current_population
               (with_country_data self
                  (with_base_date (south_korea_data self) "1999-12-31" 1999)
                  (with_base_date (north_korea_data self) "2030-06-01" 2030))
               clk
      = Some st.
Proof.
  destruct scenario_one_year_binary64 as [[[[self clk] self'] st] Hs].
  destruct (scenario_one_year_inv _ _ _ _ Hs) as (_ & Hc & _).
  exists self, self', clk, st.
  destruct (proj1 population_anchored_to_fixed_epoch _ _ self self' clk st Hc)
    as (Hsk & _ & Hdate).
  repeat split; [exact Hs | exact Hc | exact Hsk | apply Hdate].
Defined.

(** ** C2: the births and deaths of the day *)




(** ** C3: the concrete case of South Korea *)

Lemma one_year_after_epoch_binary64 :
  one_year_after_epoch (F:=float) = Some 1735624800%float.
Proof. vm_compute. reflexivity. Qed.

Lemma one_year_after_epoch_exact :
  ∃ q : Q, one_year_after_epoch (F:=Q) = Some q ∧ (q == 1735624800)%Q.
Proof. eexists. split; [vm_compute; reflexivity | reflexivity]. Qed.

(** C3, as stated: the population of South Korea one year after the
    epoch would be 51520712.  The code returns another number. *)
Lemma south_korea_one_year_is_not_51520712 :
  south_korea_population <$> snapshot_one_year (F:=float) ≠ Some 51520712
  ∧ south_korea_population <$> snapshot_one_year (F:=Q) ≠ Some 51520712.
Proof. split; vm_compute; discriminate. Qed.

(** C3, amended: with the constants of South Korea
    ([base_population = 51628117], [annual_growth_rate = -0.21]) the
    population computed at [now = epoch + 365.25 days] is 51519697, the
    truncation of [51628117 - 108419.0457], in binary64 and in exact
    arithmetic alike. *)
Theorem south_korea_one_year :
  (∀ (self self' : PopulationManager float) clk st,
     base_population (south_korea_data self) = 51628117 →
     annual_growth_rate (south_korea_data self) = decimal (-21) (-2) →
     one_year_after_epoch = Some (time_time clk) →
     calculate_current_population self clk = Some (self', st) →
     south_korea_population st = 51519697)
  ∧ (∀ (self self' : PopulationManager Q) clk st,
     base_population (south_korea_data self) = 51628117 →
     annual_growth_rate (south_korea_data self) = decimal (-21) (-2) →
     one_year_after_epoch = Some (time_time clk) →
     calculate_current_population self clk = Some (self', st) →
     south_korea_population st = 51519697).
Proof.
  split; intros self self' clk st Hbase Hrate Hnow Hc;
    apply calculate_current_population_fields in Hc as (Hsk & _);
    unfold estimate_population in Hsk; rewrite Hbase, Hrate in Hsk.
  - rewrite one_year_after_epoch_binary64 in Hnow.
    injection Hnow as Hnow. rewrite <- Hnow in Hsk.
    vm_compute in Hsk. injection Hsk as Hsk. symmetry. exact Hsk.
  - destruct clk as [now d1 d2]; simpl in *.
    vm_compute in Hnow. injection Hnow as Hnow. rewrite <- Hnow in Hsk.
    vm_compute in Hsk. injection Hsk as Hsk. symmetry. exact Hsk.
Qed.

Lemma south_korea_one_year_witness :
  ∃ (self self' : PopulationManager float) clk st,
    scenario_one_year = Some (self, clk, self', st)
    ∧ south_korea_population st = 51519697.
Proof.
  destruct scenario_one_year_binary64 as [[[[self clk] self'] st] Hs].
  destruct (scenario_one_year_inv _ _ _ _ Hs) as (Hi & Hc & Hnow).
  destruct (init_fields _ _ _ _ Hi) as (Hsk & _).
  exists self, self', clk, st. split; [exact Hs|].
  apply (proj1 south_korea_one_year self self' clk st); [| |exact Hnow|exact Hc].
  - rewrite Hsk. reflexivity.
  - rewrite Hsk. reflexivity.
Defined.

(** ** C4 and C8: the population along the time *)

Section AlongTheTime.
Implicit Types (self : PopulationManager Q) (clk : clock_reads Q)
  (st : PopulationState Q) (stats : CountryData Q).

(** The population of one country at two instants. *)
Lemma estimate_population_monotone stats now1 now2 p1 p2 :
  0 <= base_population stats →
  (now1 <= now2)%Q →
  estimate_population stats now1 = Some p1 →
  estimate_population stats now2 = Some p2 →
  ((0 < annual_growth_rate stats)%Q → p1 <= p2)
  ∧ ((annual_growth_rate stats < 0)%Q → p2 <= p1).
Proof.
  intros Hb Hle H1 H2. rewrite exact_estimate_population in H1, H2.
  injection H1 as <-. injection H2 as <-.
  destruct (population_formula_le (base_population stats)
              (annual_growth_rate stats) now1 now2 Hb Hle) as [Hup Hdown].
  split; intros Hr; apply Qtrunc_le.
  - apply Hup. by apply Qlt_le_weak.
  - apply Hdown. by apply Qlt_le_weak.
Qed.

(** The population of one country before the epoch. *)
Lemma estimate_population_before_epoch stats now p :
  0 <= base_population stats →
  (now < epoch_seconds)%Q →
  estimate_population stats now = Some p →
  ((0 < annual_growth_rate stats)%Q → p <= base_population stats)
  ∧ ((annual_growth_rate stats < 0)%Q → base_population stats <= p).
Proof.
  intros Hb Hlt Hp. rewrite exact_estimate_population in Hp.
  injection Hp as <-.
  destruct (population_formula_le (base_population stats)
              (annual_growth_rate stats) now epoch_seconds Hb
              (Qlt_le_weak _ _ Hlt)) as [Hup Hdown].
  pose proof (population_formula_at_epoch (base_population stats)
                (annual_growth_rate stats)) as Hat.
  split; intros Hr.
  - transitivity (Exact.Qtrunc (inject_Z (base_population stats)));
      [|by rewrite Qtrunc_inject_Z].
    apply Qtrunc_le. rewrite <- Hat. apply Hup. by apply Qlt_le_weak.
  - transitivity (Exact.Qtrunc (inject_Z (base_population stats)));
      [by rewrite Qtrunc_inject_Z|].
    apply Qtrunc_le. rewrite <- Hat. apply Hdown. by apply Qlt_le_weak.
Qed.


End AlongTheTime.




(** In binary64 the population can equal the base just before the
    epoch: one float below the epoch, North Korea's is its base. *)
Lemma north_korea_at_base_just_before_epoch :
  ∃ (self self' : PopulationManager float) st,
    manager_at_epoch = Some self
    ∧ calculate_current_population self
        (clock_at (PrimFloat.next_down 1704067200))
      = Some (self', st)
    ∧ PrimFloat.ltb (PrimFloat.next_down 1704067200) 1704067200 = true
    ∧ base_population (north_korea_data self) = 25971909
    ∧ north_korea_population st = 25971909.
Proof.
  eexists _, _, _.
  split; [vm_compute; reflexivity|].
  split; [vm_compute; reflexivity|].
  repeat split; vm_compute; reflexivity.
Qed.


(** ** C5: the resync flag *)

Section Resync.
Context {F : Type} `{!PyFloat F}.
Variable lower : string → string.
Implicit Types (self : PopulationManager F) (e : event (F:=F))
  (es : list (event (F:=F))).

(** What [broadcast_update] does to the resync clock. *)
Lemma broadcast_update_resync self state korea_now send_fails :
  resync_interval (broadcast_update self state korea_now send_fails).1
  = resync_interval self
  ∧ match (broadcast_update self state korea_now send_fails).2 with
    | Some (m, d) =>
        msg_timestamp m = timestamp state
        ∧ msg_is_resync m
          = fle (resync_interval self)
                (timestamp state - last_resync_time self)%py
        ∧ last_resync_time
            (broadcast_update self state korea_now send_fails).1
          = (if msg_is_resync m then timestamp state
             else last_resync_time self)
    | None =>
        connected_clients self = []
        ∧ last_resync_time
            (broadcast_update self state korea_now send_fails).1
          = last_resync_time self
    end.
Proof.
  unfold broadcast_update.
  destruct (connected_clients self) as [|c l] eqn:Hl; [done|].
  destruct (send_to_all _ _) as [d1 d2]. simpl.
  set (self1 := if fle _ _ then _ else _).
  destruct (foldl_remove_client_frame self1 d2) as [-> ->].
  unfold self1. by destruct (fle _ _).
Qed.

(** What a step does to the resync clock, and what it sends. *)
Lemma step_resync self e self' o :
  step lower self e = Some (self', o) →
  resync_interval self' = resync_interval self
  ∧ match tick_time e with
    | None => o = None ∧ last_resync_time self' = last_resync_time self
    | Some t =>
        match o with
        | Some (m, d) =>
            msg_timestamp m = t
            ∧ msg_is_resync m
              = fle (resync_interval self) (t - last_resync_time self)%py
            ∧ last_resync_time self'
              = (if msg_is_resync m then t else last_resync_time self)
        | None =>
            connected_clients self = []
            ∧ last_resync_time self' = last_resync_time self
        end
    end.
Proof.
  intros Hstep. destruct e as [clk k f|c|c|clk|country nd]; simpl in *.
  - unfold tick in Hstep.
    destruct (calculate_current_population self clk) as [[self1 st]|] eqn:Hc;
      [|done].
    simpl in Hstep. injection Hstep as Hb.
    destruct (calculate_current_population_frame _ _ _ _ Hc)
      as (Hcl & Hlast & Hint & _).
    destruct (calculate_current_population_fields _ _ _ _ Hc)
      as (_ & _ & _ & _ & _ & _ & _ & Hts).
    pose proof (broadcast_update_resync self1 st k f) as Hr.
    rewrite Hb in Hr. simpl in Hr.
    rewrite Hcl, Hlast, Hint, Hts in Hr. exact Hr.
  - injection Hstep as <- <-. done.
  - injection Hstep as <- <-. split; [|split; [done|]];
      apply remove_client_frame.
  - destruct (calculate_current_population self clk) as [[self1 st]|] eqn:Hc;
      [|done].
    simpl in Hstep. injection Hstep as <- <-.
    destruct (calculate_current_population_frame _ _ _ _ Hc)
      as (_ & -> & -> & _). done.
  - destruct (update_base_data lower self country nd) as [self1|] eqn:Hu;
      [|done].
    simpl in Hstep. injection Hstep as <- <-.
    destruct (update_base_data_frame _ _ _ _ _ Hu) as (_ & -> & ->). done.
Qed.
Lemma run_cons_inv self e es self' outs :
  run lower self (e :: es) = Some (self', outs) →
  ∃ self1 o outs2,
    step lower self e = Some (self1, o)
    ∧ run lower self1 es = Some (self', outs2)
    ∧ outs = from_option (λ x, [x]) [] o ++ outs2.
Proof.
  rewrite run_cons. intros Hrun.
  destruct (step lower self e) as [[self1 o]|] eqn:Hstep; [|done].
  simpl in Hrun.
  destruct (run lower self1 es) as [[self2 outs2]|] eqn:Hrun2; [|done].
  simpl in Hrun. injection Hrun as <- <-. by exists self1, o, outs2.
Qed.

(** The first resync message of an execution passed the test of the
    code against the resync clock at the start. *)
Lemma first_resync_after es : ∀ self self' outs j m2 d2,
  run lower self es = Some (self', outs) →
  outs !! j = Some (m2, d2) →
  msg_is_resync m2 = true →
  (∀ k m d, (k < j)%nat → outs !! k = Some (m, d) →
     msg_is_resync m = false) →
  fle (resync_interval self)
      (msg_timestamp m2 - last_resync_time self)%py = true.
Proof.
  induction es as [|e es IH]; intros self self' outs j m2 d2 Hrun Hj H2 Hnone.
  - injection Hrun as <- <-. by rewrite lookup_nil in Hj.
  - destruct (run_cons_inv _ _ _ _ _ Hrun)
      as (self1 & o & outs2 & Hstep & Hrun2 & ->).
    destruct (step_resync _ _ _ _ Hstep) as [HR Hs].
    destruct o as [[m d]|]; simpl in *.
    + destruct (tick_time e) as [t|]; [|by destruct Hs].
      destruct Hs as (Hts & Hres & Hlast).
      destruct j as [|j]; simpl in Hj.
      * injection Hj as <- <-. by rewrite Hts, <- Hres.
      * assert (Hm : msg_is_resync m = false)
          by (apply (Hnone 0%nat m d); [lia|done]).
        rewrite Hm in Hlast. rewrite <- HR, <- Hlast.
        apply (IH self1 self' outs2 j m2 d2); try done.
        intros k m' d' Hk Hk'. apply (Hnone (S k) m' d'); [lia|done].
    + assert (Hlast : last_resync_time self1 = last_resync_time self).
      { destruct (tick_time e); by destruct Hs. }
      rewrite <- HR, <- Hlast. by apply (IH self1 self' outs2 j m2 d2).
Qed.

(** Two resync messages with no resync message between them: the
    second passed the test of the code against the timestamp of the
    first. *)
Lemma consecutive_resyncs es : ∀ self self' outs i j m1 d1 m2 d2,
  run lower self es = Some (self', outs) →
  (i < j)%nat →
  outs !! i = Some (m1, d1) → outs !! j = Some (m2, d2) →
  msg_is_resync m1 = true → msg_is_resync m2 = true →
  (∀ k m d, (i < k < j)%nat → outs !! k = Some (m, d) →
     msg_is_resync m = false) →
  fle (resync_interval self) (msg_timestamp m2 - msg_timestamp m1)%py = true.
Proof.
  induction es as [|e es IH];
    intros self self' outs i j m1 d1 m2 d2 Hrun Hij Hi Hj H1 H2 Hnone.
  - injection Hrun as <- <-. by rewrite lookup_nil in Hi.
  - destruct (run_cons_inv _ _ _ _ _ Hrun)
      as (self1 & o & outs2 & Hstep & Hrun2 & ->).
    destruct (step_resync _ _ _ _ Hstep) as [HR Hs].
    destruct o as [[m d]|]; simpl in *.
    + destruct (tick_time e) as [t|]; [|by destruct Hs].
      destruct Hs as (Hts & Hres & Hlast).
      destruct j as [|j]; [lia|]. simpl in Hj.
      destruct i as [|i]; simpl in Hi.
      * injection Hi as <- <-. rewrite H1 in Hlast.
        rewrite <- HR, Hts, <- Hlast.
        apply (first_resync_after es self1 self' outs2 j m2 d2); try done.
        intros k m' d' Hk Hk'. apply (Hnone (S k) m' d'); [lia|done].
      * rewrite <- HR.
        apply (IH self1 self' outs2 i j m1 d1 m2 d2); try done; [lia|].
        intros k m' d' Hk Hk'. apply (Hnone (S k) m' d'); [lia|done].
    + rewrite <- HR. by apply (IH self1 self' outs2 i j m1 d1 m2 d2).
Qed.
End Resync.

Section ResyncCadence.
Variable lower : string → string.
Implicit Types (self : PopulationManager Q) (e : event (F:=Q))
  (es : list (event (F:=Q)))
  (outs : list (tick_message Q * list websocket)).

(** In exact arithmetic, a tick that finds a viewer is a resync tick
    exactly when 30 seconds have passed since the last one. *)
Lemma step_tick_exact self e self' o t :
  (resync_interval self == 30)%Q →
  step lower self e = Some (self', o) →
  tick_time e = Some t →
  connected_clients self ≠ [] →
  ∃ m d, o = Some (m, d) ∧ msg_timestamp m = t
    ∧ ((last_resync_time self + 30 <= t)%Q ∧ msg_is_resync m = true
         ∧ last_resync_time self' = t
       ∨ (t < last_resync_time self + 30)%Q ∧ msg_is_resync m = false
         ∧ last_resync_time self' = last_resync_time self).
Proof.
  intros HR Hstep Ht Hne.
  destruct (step_resync lower _ _ _ _ Hstep) as [_ Hs]. rewrite Ht in Hs.
  destruct o as [[m d]|]; [|by destruct Hs].
  destruct Hs as (Hts & Hres & Hlast). exists m, d.
  split; [done|]. split; [done|].
  simpl in Hres. destruct (msg_is_resync m).
  - left. symmetry in Hres. apply Qle_bool_iff in Hres.
    rewrite HR in Hres. split; [lra|done].
  - right. split; [|done]. apply Qnot_le_lt. intros Hle.
    assert (Hb : Qle_bool (resync_interval self) (t - last_resync_time self)
                 = true) by (apply Qle_bool_iff; rewrite HR; lra).
    congruence.
Qed.

(** Every resync message lies 30 seconds or more after the resync
    clock at the start, and after any earlier resync message. *)
Lemma run_resync_spacing self es self' outs :
  (resync_interval self == 30)%Q →
  run lower self es = Some (self', outs) →
  (∀ m d, (m, d) ∈ outs → msg_is_resync m = true →
     (last_resync_time self + 30 <= msg_timestamp m)%Q)
  ∧ (∀ i j m1 d1 m2 d2,
       (i < j)%nat →
       outs !! i = Some (m1, d1) → outs !! j = Some (m2, d2) →
       msg_is_resync m1 = true → msg_is_resync m2 = true →
       (msg_timestamp m1 + 30 <= msg_timestamp m2)%Q).
Proof.
  revert self outs. induction es as [|e es IH]; intros self outs HR Hrun.
  - injection Hrun as <- <-. split.
    + intros m d Hin. by apply elem_of_nil in Hin.
    + intros i j m1 d1 m2 d2 _ Hi. by rewrite lookup_nil in Hi.
  - destruct (run_cons_inv lower _ _ _ _ _ Hrun) as (self1 & o & outs2 & Hstep & Hrun2 & ->).
    destruct (step_resync lower _ _ _ _ Hstep) as [HR1 Hs].
    assert (HR1' : (resync_interval self1 == 30)%Q) by by rewrite HR1.
    destruct (IH _ _ HR1' Hrun2) as [IHa IHb].
    destruct o as [[m d]|]; simpl.
    + destruct (tick_time e) as [t|]; [|by destruct Hs].
      destruct Hs as (Hts & Hres & Hlast).
      assert (Hm : msg_is_resync m = true →
                   (last_resync_time self + 30 <= msg_timestamp m)%Q).
      { intros Htrue. rewrite Htrue in Hres. symmetry in Hres.
        apply Qle_bool_iff in Hres. simpl in Hres.
        rewrite HR, <- Hts in Hres. lra. }
      assert (Hlater : ∀ m' d', (m', d') ∈ outs2 → msg_is_resync m' = true →
                (last_resync_time self + 30 <= msg_timestamp m')%Q
                ∧ (msg_is_resync m = true →
                   (msg_timestamp m + 30 <= msg_timestamp m')%Q)).
      { intros m' d' Hin Htrue. specialize (IHa _ _ Hin Htrue).
        destruct (msg_is_resync m) eqn:Hm'.
        - specialize (Hm eq_refl). rewrite Hlast, <- Hts in IHa.
          split; [lra|done].
        - rewrite Hlast in IHa. split; [done|]. intros; discriminate. }
      split.
      * intros m' d' Hin Htrue. apply elem_of_cons in Hin as [Heq|Hin].
        -- injection Heq as -> ->. by apply Hm.
        -- by apply (Hlater m' d').
      * intros i j m1 d1 m2 d2 Hij Hi Hj H1 H2.
        destruct j as [|j]; [lia|]. simpl in Hj.
        destruct i as [|i]; simpl in Hi.
        -- injection Hi as <- <-.
           apply list_elem_of_lookup_2 in Hj.
           by apply (Hlater m2 d2).
        -- eapply (IHb i j); eauto. lia.
    + assert (Hlast : last_resync_time self1 = last_resync_time self).
      { destruct (tick_time e); by destruct Hs. }
      rewrite Hlast in IHa. split; [exact IHa|exact IHb].
Qed.

(** Once the previous tick fell before the next resync was due, the
    first tick on or after the due time is a resync tick, and it comes
    less than 60 seconds after the last resync. *)
Lemma next_resync_in_time es : ∀ self self' outs p lo hi,
  (resync_interval self == 30)%Q →
  run lower self es = Some (self', outs) →
  always_viewed lower self es →
  paced p (tick_times es) →
  (lo <= p)%Q →
  (p < last_resync_time self + 30)%Q →
  (last_resync_time self + 60 <= hi)%Q →
  (∃ t, t ∈ tick_times es ∧ (last_resync_time self + 30 <= t)%Q) →
  ∃ m d, (m, d) ∈ outs ∧ msg_is_resync m = true
    ∧ (lo <= msg_timestamp m)%Q ∧ (msg_timestamp m <= hi)%Q.
Proof.
  induction es as [|e es IH];
    intros self self' outs p lo hi HR Hrun Hview Hpaced Hlo Hp Hhi (t0 & Hin0 & Ht0).
  - by apply elem_of_nil in Hin0.
  - destruct (run_cons_inv lower _ _ _ _ _ Hrun)
      as (self1 & o & outs2 & Hstep & Hrun2 & ->).
    destruct (step_resync lower _ _ _ _ Hstep) as [HR1 Hs].
    assert (HR1' : (resync_interval self1 == 30)%Q) by by rewrite HR1.
    destruct Hview as [Hv Hview]. rewrite Hstep in Hview. simpl in Hview.
    unfold tick_times in Hpaced, Hin0. simpl in Hpaced, Hin0.
    destruct (tick_time e) as [t|] eqn:Ht.
    + simpl in Hpaced. destruct Hpaced as (Hpt & Htp & Hpaced).
      destruct (step_tick_exact _ _ _ _ _ HR Hstep Ht (Hv (mk_is_Some _ _ eq_refl)))
        as (m & d & -> & Hts & [(Hdue & Hres & Hlast)|(Hnot & Hres & Hlast)]).
      * exists m, d. split; [apply list_elem_of_here|]. split; [done|].
        rewrite Hts. split; lra.
      * destruct (IH self1 self' outs2 t lo hi) as (m' & d' & Hin & H1 & H2 & H3);
          try done; rewrite ?Hlast; try lra.
        -- apply elem_of_cons in Hin0 as [->|Hin0]; [lra|].
           by exists t0.
        -- exists m', d'. split; [|done]. by apply list_elem_of_further.
    + destruct Hs as [-> Hlast]. simpl.
      destruct (IH self1 self' outs2 p lo hi) as (m' & d' & Hin & H1 & H2 & H3);
        try done; rewrite ?Hlast; try done.
      * by exists t0.
      * by exists m', d'.
Qed.

(** Every window of 60 seconds inside a well-paced execution with
    viewers contains a resync tick. *)
Lemma resync_in_window es : ∀ self self' outs p T,
  (resync_interval self == 30)%Q →
  run lower self es = Some (self', outs) →
  always_viewed lower self es →
  paced p (tick_times es) →
  (p <= T)%Q →
  (last_resync_time self <= T)%Q →
  (∃ t, t ∈ tick_times es ∧ (T + 60 <= t)%Q) →
  ∃ m d, (m, d) ∈ outs ∧ msg_is_resync m = true
    ∧ (T <= msg_timestamp m)%Q ∧ (msg_timestamp m <= T + 60)%Q.
Proof.
  induction es as [|e es IH];
    intros self self' outs p T HR Hrun Hview Hpaced HpT HlastT (t0 & Hin0 & Ht0).
  - by apply elem_of_nil in Hin0.
  - destruct (run_cons_inv lower _ _ _ _ _ Hrun)
      as (self1 & o & outs2 & Hstep & Hrun2 & ->).
    destruct (step_resync lower _ _ _ _ Hstep) as [HR1 Hs].
    assert (HR1' : (resync_interval self1 == 30)%Q) by by rewrite HR1.
    pose proof Hview as [Hv Hview']. rewrite Hstep in Hview'. simpl in Hview'.
    unfold tick_times in Hpaced, Hin0. simpl in Hpaced, Hin0.
    destruct (tick_time e) as [t|] eqn:Ht.
    + simpl in Hpaced. destruct Hpaced as (Hpt & Htp & Hpaced).
      destruct (step_tick_exact _ _ _ _ _ HR Hstep Ht (Hv (mk_is_Some _ _ eq_refl)))
        as (m & d & -> & Hts & Hcases).
      assert (Hrest : t0 ∈ omap tick_time es ∨ t0 = t).
      { apply elem_of_cons in Hin0 as [->|Hin0]; [by right|by left]. }
      destruct (Qlt_le_dec t T) as [HtT|HTt].
      * (* the tick falls before the window *)
        assert (Hin1 : t0 ∈ omap tick_time es).
        { destruct Hrest as [?| ->]; [done|lra]. }
        destruct (IH self1 self' outs2 t T) as (m' & d' & Hin & H1 & H2 & H3);
          try done.
        -- lra.
        -- destruct Hcases as [(_ & _ & ->)|(_ & _ & ->)]; lra.
        -- by exists t0.
        -- exists m', d'. split; [|done]. by apply list_elem_of_further.
      * (* the tick falls in the window *)
        destruct Hcases as [(Hdue & Hres & Hlast)|(Hnot & Hres & Hlast)].
        -- exists m, d. split; [apply list_elem_of_here|]. split; [done|].
           rewrite Hts. split; lra.
        -- assert (Hin1 : t0 ∈ omap tick_time es).
           { destruct Hrest as [?| ->]; [done|lra]. }
           destruct (next_resync_in_time es self1 self' outs2 t T (T + 60))
             as (m' & d' & Hin & H1 & H2 & H3); try done;
             rewrite ?Hlast; try lra.
           ++ exists t0. split; [done|lra].
           ++ exists m', d'. split; [|done]. by apply list_elem_of_further.
    + destruct Hs as [-> Hlast]. simpl.
      destruct (IH self1 self' outs2 p T) as (m' & d' & Hin & H1 & H2 & H3);
        try done; rewrite ?Hlast; try done.
      * by exists t0.
      * by exists m', d'.
Qed.

(** The two halves of the cadence, in exact arithmetic. *)
Lemma resync_cadence_exact t1 t2 today self es self' outs :
  init t1 t2 today = Some self →
  run lower self es = Some (self', outs) →
  (∀ i j m1 d1 m2 d2,
     (i < j)%nat →
     outs !! i = Some (m1, d1) → outs !! j = Some (m2, d2) →
     msg_is_resync m1 = true → msg_is_resync m2 = true →
     (30 <= msg_timestamp m2 - msg_timestamp m1)%Q)
  ∧ (∀ first later T,
       tick_times es = first :: later →
       (t2 <= first)%Q →
       paced first later →
       always_viewed lower self es →
       (first <= T)%Q →
       (∃ t, t ∈ tick_times es ∧ (T + 60 <= t)%Q) →
       ∃ m d, (m, d) ∈ outs ∧ msg_is_resync m = true
         ∧ (T <= msg_timestamp m)%Q ∧ (msg_timestamp m <= T + 60)%Q).
Proof.
  intros Hinit Hrun.
  destruct (init_fields _ _ _ _ Hinit) as (_ & _ & _ & Hlast & Hint).
  assert (HR : (resync_interval self == 30)%Q) by (rewrite Hint; reflexivity).
  split.
  - intros i j m1 d1 m2 d2 Hij Hi Hj H1 H2.
    destruct (run_resync_spacing _ _ _ _ HR Hrun) as [_ Hb].
    specialize (Hb i j m1 d1 m2 d2 Hij Hi Hj H1 H2). lra.
  - intros first later T Htimes Hfirst Hpaced Hview HT Hex.
    apply (resync_in_window es self self' outs first T); try done.
    + rewrite Htimes. simpl. split; [lra|]. split; [lra|done].
    + rewrite Hlast. lra.
Qed.
End ResyncCadence.


(** The boolean checks are sound. *)
Lemma paced_check_correct previous times :
  paced_check previous times = true → paced previous times.
Proof.
  revert previous. induction times as [|t times IH]; intros p; simpl; [done|].
  rewrite !andb_true_iff, !Qle_bool_iff. intros [[H1 H2] H3]. auto.
Qed.

Lemma always_viewed_check_correct {F : Type} `{!PyFloat F} lower
    (self : PopulationManager F) es :
  always_viewed_check lower self es = true → always_viewed lower self es.
Proof.
  revert self. induction es as [|e es IH]; intros self; simpl; [done|].
  rewrite andb_true_iff. intros [H1 H2]. split.
  - intros [t Ht]. rewrite Ht in H1. by destruct (connected_clients self).
  - destruct (step lower self e) as [r|]; [|done]. by apply IH.
Qed.



(** * Further properties

    Properties of the code beside those of the design document: the
    membership of the viewers, invariants of the manager along its
    executions, the administrative update, the handlers of [main.py]
    that call the manager, and the arithmetic of the snapshot. *)

(** ** The membership of the viewers *)

Section Viewers.
Context {F : Type} `{!PyFloat F}.
Implicit Types (self : PopulationManager F) (ws : websocket)
  (l pre post : list websocket) (send_fails : websocket → bool).

Lemma remove_first_not_in ws l : ws ∉ l → remove_first ws l = l.
Proof.
  induction l as [|y l IH]; simpl; [done|].
  intros Hn. apply not_elem_of_cons in Hn as [Hne Hn].
  rewrite decide_False by done. by rewrite IH.
Qed.

Lemma remove_client_set self ws :
  remove_client self ws
  = set_connected_clients self (remove_first ws (connected_clients self)).
Proof.
  unfold remove_client. case_decide; [done|].
  rewrite remove_first_not_in by done. by destruct self.
Qed.

Lemma elem_of_first_split ws l :
  ws ∈ l → ∃ pre post, l = pre ++ ws :: post ∧ ws ∉ pre.
Proof.
  induction l as [|y l IH]; [by intros ?%elem_of_nil|].
  destruct (decide (ws = y)) as [->|Hne].
  - intros _. exists [], l. split; [done|]. apply not_elem_of_nil.
  - intros Hin. apply elem_of_cons in Hin as [?|Hin]; [done|].
    destruct (IH Hin) as (pre & post & -> & Hpre).
    exists (y :: pre), post. split; [done|].
    apply not_elem_of_cons. done.
Qed.

(** X1.  [remove_client] on a viewer that is not registered leaves the
    manager as it is; on a registered viewer it removes the first of its
    registrations and nothing else: the other viewers, their order and
    the later registrations of the same viewer stay. *)
Theorem remove_client_first_registration self ws :
  (ws ∉ connected_clients self → remove_client self ws = self)
  ∧ (ws ∈ connected_clients self →
     ∃ pre post,
       connected_clients self = pre ++ ws :: post
       ∧ (ws ∉ pre)
       ∧ connected_clients (remove_client self ws) = pre ++ post).
Proof.
  split.
  - intros Hn. unfold remove_client. by rewrite decide_False.
  - intros Hin. destruct (elem_of_first_split _ _ Hin) as (pre & post & Hl & Hpre).
    exists pre, post. split; [done|]. split; [done|].
    rewrite connected_clients_remove_client, decide_True by done.
    rewrite Hl. by apply remove_first_middle.
Qed.

(** X2.  [add_client] followed by [remove_client] of the same viewer
    gives the manager back when the viewer was not registered; when it
    was, the list has the same members but the viewer has moved from its
    first place to the last. *)
Theorem add_client_then_remove_client self ws :
  (ws ∉ connected_clients self → remove_client (add_client self ws) ws = self)
  ∧ (ws ∈ connected_clients self →
     connected_clients (remove_client (add_client self ws) ws)
     = remove_first ws (connected_clients self) ++ [ws]).
Proof.
  split.
  - intros Hn. rewrite remove_client_set. unfold add_client. simpl.
    rewrite remove_first_middle by done. rewrite app_nil_r. by destruct self.
  - intros Hin. rewrite remove_client_set. unfold add_client. simpl.
    destruct (elem_of_first_split _ _ Hin) as (pre & post & -> & Hpre).
    rewrite <- app_assoc. simpl. rewrite !remove_first_middle by done.
    by rewrite <- app_assoc.
Qed.

Lemma registrations_app ws l1 l2 :
  registrations ws (l1 ++ l2) = (registrations ws l1 + registrations ws l2)%nat.
Proof. unfold registrations. by rewrite filter_app, length_app. Qed.

Lemma registrations_reached send_fails ws l :
  registrations ws (reached send_fails l)
  = if send_fails ws then 0%nat else registrations ws l.
Proof.
  unfold registrations, reached.
  induction l as [|y l IH]; simpl; [by destruct (send_fails ws)|].
  destruct (send_fails y) eqn:Hy.
  - rewrite (filter_cons_False _ y l) by (rewrite Hy; done).
    rewrite IH. destruct (decide (y = ws)) as [->|Hne].
    + by rewrite Hy.
    + by rewrite (filter_cons_False (λ x, x = ws) y l).
  - rewrite (filter_cons_True (λ ws0, send_fails ws0 = false) y l) by done.
    destruct (decide (y = ws)) as [->|Hne].
    + rewrite Hy in *. rewrite !filter_cons_True by done. simpl. by rewrite IH.
    + rewrite !(filter_cons_False (λ x, x = ws) y) by done. done.
Qed.

End Viewers.

(** ** Invariants along the executions *)

Section Statistics.
Context {F : Type} `{!PyFloat F}.
Variable lower : string → string.
Implicit Types (self : PopulationManager F) (clk : clock_reads F)
  (st : PopulationState F) (ws : websocket) (es : list (event (F:=F))).

Lemma calculate_current_population_statistics self clk self' st :
  calculate_current_population self clk = Some (self', st) →
  statistics_of self' = statistics_of self
  ∧ recent_events st = self_recent_events self.
Proof.
  unfold calculate_current_population. intros Hc.
  repeat (apply bind_Some in Hc as (? & _ & Hc)).
  by injection Hc as <- <-.
Qed.

Lemma remove_client_statistics self ws :
  statistics_of (remove_client self ws) = statistics_of self.
Proof. unfold remove_client. by case_decide. Qed.

Lemma foldl_remove_client_statistics self (l : list websocket) :
  statistics_of (foldl remove_client self l) = statistics_of self.
Proof.
  revert self. induction l as [|ws l IH]; intros self; simpl; [done|].
  rewrite IH. apply remove_client_statistics.
Qed.

Lemma broadcast_update_statistics self st korea_now send_fails :
  statistics_of (broadcast_update self st korea_now send_fails).1
  = statistics_of self.
Proof.
  unfold broadcast_update. destruct (connected_clients self); [done|].
  destruct (send_to_all _ _) as [d1 d2]. simpl.
  rewrite foldl_remove_client_statistics. by destruct (fle _ _).
Qed.

Lemma tick_statistics self clk korea_now send_fails self' o :
  tick self clk korea_now send_fails = Some (self', o) →
  statistics_of self' = statistics_of self.
Proof.
  unfold tick. intros Ht.
  destruct (calculate_current_population self clk) as [[self1 st]|] eqn:Hc;
    [|done].
  simpl in Ht. injection Ht as Hb.
  destruct (calculate_current_population_statistics _ _ _ _ Hc) as [<- _].
  rewrite <- (broadcast_update_statistics self1 st korea_now send_fails).
  by rewrite Hb.
Qed.

Lemma rates_match_statistics self self' :
  statistics_of self' = statistics_of self → rates_match self → rates_match self'.
Proof.
  unfold statistics_of, rates_match. intros Hs [Hsk Hnk].
  split; congruence.
Qed.

Lemma init_rates_match t1 t2 today self :
  init t1 t2 today = Some self →
  rates_match self ∧ self_recent_events self = [].
Proof.
  unfold init. intros Hi.
  apply bind_Some in Hi as (nk & Hnk & Hi).
  apply bind_Some in Hi as ([r1 r1'] & H1 & Hi).
  apply bind_Some in Hi as ([r2 r2'] & H2 & Hi).
  injection Hi as <-. done.
Qed.

Lemma update_base_data_rates_match self country d self' :
  update_base_data lower self country d = Some self' →
  rates_match self →
  rates_match self' ∧ self_recent_events self' = self_recent_events self.
Proof.
  unfold update_base_data, rates_match. intros Hu [Hsk Hnk].
  repeat case_decide.
  - apply bind_Some in Hu as (i & _ & Hu).
    apply bind_Some in Hu as ([r r'] & Hr & Hu).
    injection Hu as <-. done.
  - apply bind_Some in Hu as (i & _ & Hu).
    apply bind_Some in Hu as ([r r'] & Hr & Hu).
    injection Hu as <-. done.
  - injection Hu as <-. done.
Qed.

Lemma step_rates_match self e self' o :
  step lower self e = Some (self', o) →
  rates_match self →
  rates_match self' ∧ self_recent_events self' = self_recent_events self.
Proof.
  intros Hstep Hr. destruct e as [clk k f|c|c|clk|country nd]; simpl in Hstep.
  - apply tick_statistics in Hstep. split.
    + by apply (rates_match_statistics self).
    + unfold statistics_of in Hstep. congruence.
  - injection Hstep as <- <-. done.
  - injection Hstep as <- <-.
    pose proof (remove_client_statistics self c) as Hs. split.
    + by apply (rates_match_statistics self).
    + unfold statistics_of in Hs. congruence.
  - destruct (calculate_current_population self clk) as [[self1 st]|] eqn:Hc;
      [|done].
    simpl in Hstep. injection Hstep as <- <-.
    destruct (calculate_current_population_statistics _ _ _ _ Hc) as [Hs _].
    split.
    + by apply (rates_match_statistics self).
    + unfold statistics_of in Hs. congruence.
  - destruct (update_base_data lower self country nd) as [self1|] eqn:Hu;
      [|done].
    simpl in Hstep. injection Hstep as <- <-.
    by apply (update_base_data_rates_match self country nd).
Qed.

Lemma run_rates_match self es self' outs :
  run lower self es = Some (self', outs) →
  rates_match self →
  rates_match self' ∧ self_recent_events self' = self_recent_events self.
Proof.
  revert self outs. induction es as [|e es IH]; intros self outs Hrun Hr.
  - by injection Hrun as <- <-.
  - destruct (run_cons_inv lower _ _ _ _ _ Hrun)
      as (self1 & o & outs1 & Hstep & Hrun1 & _).
    destruct (step_rates_match _ _ _ _ Hstep Hr) as [Hr1 He1].
    destruct (IH _ _ Hrun1 Hr1) as [Hr2 He2]. split; [done|]. congruence.
Qed.

(** X4.  Along any execution from the creation of the manager, the
    [simulation_rates] of a tick message are the rates that
    [calculate_birth_death_rates_per_second] gives on the statistics in
    force at that tick: an administrative update never leaves stale
    rates behind. *)
Theorem broadcast_rates_are_those_of_the_statistics
    t1 t2 today self0 es self outs clk korea_now send_fails self' m d :
  init t1 t2 today = Some self0 →
  run lower self0 es = Some (self, outs) →
  tick self clk korea_now send_fails = Some (self', Some (m, d)) →
  calculate_birth_death_rates_per_second (south_korea_data self)
  = Some (msg_simulation_rates m).1.1
  ∧ calculate_birth_death_rates_per_second (north_korea_data self)
    = Some ((msg_simulation_rates m).1.2, (msg_simulation_rates m).2).
Proof.
  intros Hi Hrun Ht.
  destruct (init_rates_match _ _ _ _ Hi) as [Hr0 _].
  destruct (run_rates_match _ _ _ _ Hrun Hr0) as [[Hsk Hnk] _].
  unfold tick in Ht.
  destruct (calculate_current_population self clk) as [[self1 st]|] eqn:Hc;
    [|done].
  simpl in Ht. injection Ht as Hb.
  destruct (calculate_current_population_statistics _ _ _ _ Hc) as [Hs _].
  unfold broadcast_update in Hb.
  destruct (connected_clients self1); [done|].
  destruct (send_to_all _ _) as [d1 d2].
  injection Hb as _ <- _. simpl.
  unfold statistics_of in Hs.
  assert (Hrates : (sk_births_per_sec self1, sk_deaths_per_sec self1,
                    nk_births_per_sec self1, nk_deaths_per_sec self1)
                   = (sk_births_per_sec self, sk_deaths_per_sec self,
                      nk_births_per_sec self, nk_deaths_per_sec self))
    by congruence.
  destruct (fle _ _); simpl; injection Hrates as -> -> -> ->; done.
Qed.

(** X5.  The server produces no events: along any execution from the
    creation of the manager [recent_events] stays empty, in the manager
    and in every snapshot. *)
Theorem no_server_side_events t1 t2 today self0 es self outs :
  init t1 t2 today = Some self0 →
  run lower self0 es = Some (self, outs) →
  self_recent_events self = []
  ∧ ∀ clk self' st,
      calculate_current_population self clk = Some (self', st) →
      recent_events st = [].
Proof.
  intros Hi Hrun.
  destruct (init_rates_match _ _ _ _ Hi) as [Hr0 He0].
  destruct (run_rates_match _ _ _ _ Hrun Hr0) as [_ He].
  rewrite He0 in He. split; [done|].
  intros clk self' st Hc.
  destruct (calculate_current_population_statistics _ _ _ _ Hc) as [_ ->].
  done.
Qed.
End Statistics.

Section Description.
Context {F : Type} `{!PyFloat F}.
Variable lower : string → string.
Implicit Types (self : PopulationManager F) (es : list (event (F:=F))).

Lemma step_description self e self' o :
  step lower self e = Some (self', o) →
  description_of (south_korea_data self')
  = description_of (south_korea_data self)
  ∧ description_of (north_korea_data self')
    = description_of (north_korea_data self).
Proof.
  intros Hstep. destruct e as [clk k f|c|c|clk|country nd]; simpl in Hstep.
  - apply tick_statistics in Hstep. unfold statistics_of in Hstep.
    split; congruence.
  - by injection Hstep as <- <-.
  - injection Hstep as <- <-.
    pose proof (remove_client_statistics self c) as Hs.
    unfold statistics_of in Hs. split; congruence.
  - destruct (calculate_current_population self clk) as [[self1 st]|] eqn:Hc;
      [|done].
    simpl in Hstep. injection Hstep as <- <-.
    destruct (calculate_current_population_frame _ _ _ _ Hc)
      as (_ & _ & _ & -> & ->). done.
  - destruct (update_base_data lower self country nd) as [self1|] eqn:Hu;
      [|done].
    simpl in Hstep. injection Hstep as <- <-.
    destruct (update_base_data_countries _ _ _ _ _ Hu) as [-> ->].
    repeat case_decide; done.
Qed.

(** X6.  No method assigns the name, the fertility rate, the life
    expectancy, the birth and death rates per thousand or the data
    source of a country: along any execution they are the constants of
    [__init__], whatever the administrative updates. *)
Theorem descriptions_never_change t1 t2 today self0 es self outs :
  init t1 t2 today = Some self0 →
  run lower self0 es = Some (self, outs) →
  description_of (south_korea_data self)
  = ("South Korea", decimal 748 (-3), decimal 755 (-1),
     decimal 42 (-1), decimal 63 (-1),
     "KOSIS (Korean Statistical Information Service)")
  ∧ description_of (north_korea_data self)
    = ("North Korea", decimal 19 (-1), decimal 723 (-1),
       decimal 132 (-1), decimal 92 (-1), "CIA World Factbook 2024").
Proof.
  intros Hi Hrun.
  assert (H0 : description_of (south_korea_data self0)
               = ("South Korea", decimal 748 (-3), decimal 755 (-1),
                  decimal 42 (-1), decimal 63 (-1),
                  "KOSIS (Korean Statistical Information Service)")
             ∧ description_of (north_korea_data self0)
               = ("North Korea", decimal 19 (-1), decimal 723 (-1),
                  decimal 132 (-1), decimal 92 (-1),
                  "CIA World Factbook 2024")).
  { destruct (init_fields _ _ _ _ Hi) as (-> & Hnk & _). split; [done|].
    unfold north_korea_initial in Hnk.
    apply bind_Some in Hnk as (b & _ & Hnk).
    apply bind_Some in Hnk as (d & _ & Hnk).
    injection Hnk as <-. done. }
  clear Hi. revert self0 outs Hrun H0.
  induction es as [|e es IH]; intros self0 outs Hrun H0.
  - by injection Hrun as <- <-.
  - destruct (run_cons_inv lower _ _ _ _ _ Hrun)
      as (self1 & o & outs1 & Hstep & Hrun1 & _).
    destruct (step_description _ _ _ _ Hstep) as [Hsk Hnk].
    apply (IH self1 outs1 Hrun1). by rewrite Hsk, Hnk.
Qed.
End Description.

(** ** The administrative update, composed *)

Section Updates.
Context {F : Type} `{!PyFloat F}.
Variable lower : string → string.
Implicit Types (self : PopulationManager F) (d : new_data F)
  (stats : CountryData F).

Lemma update_country_merge stats d1 d2 :
  update_country (update_country stats d1) d2
  = update_country stats (dict_merge d1 d2).
Proof.
  unfold update_country, dict_merge, dict_get. simpl.
  destruct d1 as [[] [] [] [] [] []], d2 as [[] [] [] [] [] []]; reflexivity.
Qed.

Lemma update_country_twice stats d :
  update_country (update_country stats d) d = update_country stats d.
Proof.
  unfold update_country, dict_get. simpl.
  destruct d as [[] [] [] [] [] []]; reflexivity.
Qed.

(** X7.  Two updates of the same country, one after the other,
    amount to one update with the two dictionaries merged, the keys of
    the second over those of the first; and an update applied a second
    time changes nothing. *)
Theorem update_base_data_last_wins self country d1 d2 self1 self2 :
  update_base_data lower self country d1 = Some self1 →
  update_base_data lower self1 country d2 = Some self2 →
  update_base_data lower self country (dict_merge d1 d2) = Some self2
  ∧ update_base_data lower self1 country d1 = Some self1.
Proof.
  unfold update_base_data. intros H1 H2.
  destruct (decide (lower country = "south_korea")) as [Hsk|Hsk];
    [|destruct (decide (lower country = "north_korea")) as [Hnk|Hnk]].
  - apply bind_Some in H1 as (i1 & Hi1 & H1).
    apply bind_Some in H1 as (r1 & Hr1 & H1). injection H1 as <-.
    simpl in H2 |- *. rewrite update_country_merge in H2.
    rewrite update_country_twice, Hi1, Hr1. done.
  - apply bind_Some in H1 as (i1 & Hi1 & H1).
    apply bind_Some in H1 as (r1 & Hr1 & H1). injection H1 as <-.
    simpl in H2 |- *. rewrite update_country_merge in H2.
    rewrite update_country_twice, Hi1, Hr1. done.
  - injection H1 as <-. done.
Qed.

(** X8.  An update of South Korea and an update of North Korea
    commute: in either order they give the same manager, or raise in
    both orders. *)
Theorem updates_of_the_two_countries_commute self c1 c2 d1 d2 :
  lower c1 = "south_korea" →
  lower c2 = "north_korea" →
  (self1 ← update_base_data lower self c1 d1;
   update_base_data lower self1 c2 d2)
  = (self2 ← update_base_data lower self c2 d2;
     update_base_data lower self2 c1 d1).
Proof.
  intros H1 H2. unfold update_base_data. rewrite H1, H2.
  rewrite !decide_True by done.
  rewrite (decide_False (P := "north_korea" = "south_korea")) by done.
  rewrite decide_True by done.
  destruct (calculate_daily_increment
              (update_country (south_korea_data self) d1)) as [i1|] eqn:Hi1;
    destruct (calculate_birth_death_rates_per_second
                (update_country (south_korea_data self) d1)) as [r1|] eqn:Hr1;
    destruct (calculate_daily_increment
                (update_country (north_korea_data self) d2)) as [i2|] eqn:Hi2;
    destruct (calculate_birth_death_rates_per_second
                (update_country (north_korea_data self) d2)) as [r2|] eqn:Hr2;
    simpl; rewrite ?Hi1, ?Hr1, ?Hi2, ?Hr2; simpl; rewrite ?Hi1, ?Hr1;
    reflexivity.
Qed.
End Updates.

Section Overflow.
Context {F : Type} `{!PyFloat F}.
Variable lower : string → string.
Implicit Types (self : PopulationManager F) (d : new_data F)
  (stats : CountryData F).

Hypothesis of_int_100 : is_Some (of_int (F:=F) 100).
Hypothesis seconds_per_year_ok : is_Some (seconds_per_year (F:=F)).

Lemma calculate_daily_increment_None stats :
  calculate_daily_increment stats = None
  ↔ of_int (F:=F) (base_population stats) = None.
Proof using of_int_100.
  unfold calculate_daily_increment, float_div_int, int_mul_float.
  destruct of_int_100 as [c ->]. simpl.
  destruct (of_int (base_population stats)); simpl; split; done.
Qed.

Lemma calculate_rates_None stats :
  calculate_birth_death_rates_per_second stats = None
  ↔ of_int (F:=F) (annual_births stats) = None
    ∨ of_int (F:=F) (annual_deaths stats) = None.
Proof using seconds_per_year_ok.
  unfold calculate_birth_death_rates_per_second, int_div_float.
  destruct seconds_per_year_ok as [y ->]. simpl.
  destruct (of_int (annual_births stats)); simpl;
    destruct (of_int (annual_deaths stats)); simpl; split;
    try done; try (intros [?|?]; done); auto.
Qed.

Lemma recalculate_None stats (k : F → F * F → PopulationManager F) :
  (increment ← calculate_daily_increment stats;
   rates ← calculate_birth_death_rates_per_second stats;
   Some (k increment rates)) = None
  ↔ too_large_for_float stats.
Proof using of_int_100 seconds_per_year_ok.
  unfold too_large_for_float.
  rewrite <- calculate_daily_increment_None, <- calculate_rates_None.
  destruct (calculate_daily_increment stats); simpl.
  - destruct (calculate_birth_death_rates_per_second stats); simpl.
    + split; [done|]. intros [?|?]; done.
    + split; auto.
  - split; auto.
Qed.

Lemma update_base_data_None self country d :
  update_base_data lower self country d = None
  ↔ (lower country = "south_korea"
     ∧ too_large_for_float (update_country (south_korea_data self) d))
    ∨ (lower country = "north_korea"
       ∧ too_large_for_float (update_country (north_korea_data self) d)).
Proof using of_int_100 seconds_per_year_ok.
  unfold update_base_data.
  destruct (decide (lower country = "south_korea")) as [Hsk|Hsk];
    [|destruct (decide (lower country = "north_korea")) as [Hnk|Hnk]].
  - rewrite recalculate_None. split; [by left|].
    intros [[_ ?]|[Hnk _]]; [done|]. rewrite Hsk in Hnk. done.
  - rewrite recalculate_None. split; [by right|].
    intros [[? _]|[_ ?]]; done.
  - split; [done|]. intros [[? _]|[? _]]; done.
Qed.
End Overflow.

(** X9.  In binary64 [update_base_data] raises exactly when it
    names one of the two countries and the population, the births or
    the deaths that the record would hold is an [int] too large to
    convert to a float ([OverflowError] in [calculate_daily_increment]
    or in [calculate_birth_death_rates_per_second]); the largest [int]
    that converts is [2^1024 - 2^970 - 1]. *)
Theorem update_base_data_overflow :
  (∀ (lower : string → string) (self : PopulationManager float) country d,
     update_base_data lower self country d = None
     ↔ (lower country = "south_korea"
        ∧ too_large_for_float (update_country (south_korea_data self) d))
       ∨ (lower country = "north_korea"
          ∧ too_large_for_float (update_country (north_korea_data self) d)))
  ∧ of_int (F:=float) (2 ^ 1024 - 2 ^ 970 - 1) = Some 0x1.fffffffffffffp+1023%float
  ∧ of_int (F:=float) (2 ^ 1024 - 2 ^ 970) = None
  ∧ of_int (F:=float) (- (2 ^ 1024 - 2 ^ 970)) = None.
Proof.
  split; [|split; [|split]].
  - intros lower self country d. apply update_base_data_None.
    + vm_compute. eexists. reflexivity.
    + vm_compute. eexists. reflexivity.
  - vm_compute. reflexivity.
  - vm_compute. reflexivity.
  - vm_compute. reflexivity.
Qed.

(** ** What the snapshot and the broadcast depend on *)

Section Dependence.
Context {F : Type} `{!PyFloat F}.
Variable lower : string → string.
Implicit Types (self a b : PopulationManager F) (clk : clock_reads F)
  (st : PopulationState F) (ws : websocket) (es : list (event (F:=F))).

(** The snapshot depends on the manager through its statistics only. *)
Lemma calculate_current_population_depends a b clk :
  statistics_of a = statistics_of b →
  snd <$> calculate_current_population a clk
  = snd <$> calculate_current_population b clk.
Proof.
  unfold statistics_of. intros Hs.
  assert (Hsk : south_korea_data a = south_korea_data b) by congruence.
  assert (Hnk : north_korea_data a = north_korea_data b) by congruence.
  assert (Hev : self_recent_events a = self_recent_events b) by congruence.
  unfold calculate_current_population, growth_increment.
  rewrite Hsk, Hnk, Hev.
  repeat (match goal with
          | |- context [mbind _ ?x] => destruct x; simpl; [|reflexivity]
          end).
  reflexivity.
Qed.

Lemma calculate_current_population_view a clk a' st :
  calculate_current_population a clk = Some (a', st) →
  broadcast_view a' = broadcast_view a.
Proof.
  intros Hc. unfold broadcast_view.
  destruct (calculate_current_population_frame _ _ _ _ Hc)
    as (-> & -> & -> & _).
  by destruct (calculate_current_population_statistics _ _ _ _ Hc) as [-> _].
Qed.

Lemma update_base_data_depends a b country d a' :
  broadcast_view a = broadcast_view b →
  update_base_data lower a country d = Some a' →
  ∃ b', update_base_data lower b country d = Some b'
        ∧ broadcast_view a' = broadcast_view b'.
Proof.
  unfold broadcast_view, statistics_of. intros Hv Hu.
  assert (Hsk : south_korea_data a = south_korea_data b) by congruence.
  assert (Hnk : north_korea_data a = north_korea_data b) by congruence.
  unfold update_base_data in *. rewrite <- Hsk, <- Hnk.
  repeat case_decide.
  - apply bind_Some in Hu as (i & -> & Hu).
    apply bind_Some in Hu as (r & -> & Hu). injection Hu as <-.
    eexists. split; [reflexivity|]. simpl. congruence.
  - apply bind_Some in Hu as (i & -> & Hu).
    apply bind_Some in Hu as (r & -> & Hu). injection Hu as <-.
    eexists. split; [reflexivity|]. simpl. congruence.
  - injection Hu as <-. eexists. split; [reflexivity|]. congruence.
Qed.

Lemma remove_client_view a b ws :
  broadcast_view a = broadcast_view b →
  broadcast_view (remove_client a ws) = broadcast_view (remove_client b ws).
Proof.
  unfold broadcast_view. intros Hv.
  rewrite !remove_client_statistics, !connected_clients_remove_client.
  destruct (remove_client_frame a ws) as [-> ->].
  destruct (remove_client_frame b ws) as [-> ->].
  assert (Hcl : connected_clients a = connected_clients b) by congruence.
  rewrite Hcl. congruence.
Qed.

Lemma foldl_remove_client_view a b (l : list websocket) :
  broadcast_view a = broadcast_view b →
  broadcast_view (foldl remove_client a l)
  = broadcast_view (foldl remove_client b l).
Proof.
  revert a b. induction l as [|ws l IH]; intros a b Hv; simpl; [done|].
  apply IH. by apply remove_client_view.
Qed.

Lemma set_last_resync_time_view a b (t : F) :
  broadcast_view a = broadcast_view b →
  broadcast_view (set_last_resync_time a t)
  = broadcast_view (set_last_resync_time b t).
Proof. unfold broadcast_view, statistics_of. simpl. congruence. Qed.

Lemma broadcast_update_depends a b st korea_now send_fails :
  broadcast_view a = broadcast_view b →
  (broadcast_update a st korea_now send_fails).2
  = (broadcast_update b st korea_now send_fails).2
  ∧ broadcast_view (broadcast_update a st korea_now send_fails).1
    = broadcast_view (broadcast_update b st korea_now send_fails).1.
Proof.
  intros Hv.
  assert (Hcl : connected_clients a = connected_clients b)
    by (unfold broadcast_view in Hv; congruence).
  assert (Hint : resync_interval a = resync_interval b)
    by (unfold broadcast_view in Hv; congruence).
  assert (Hlast : last_resync_time a = last_resync_time b)
    by (unfold broadcast_view in Hv; congruence).
  assert (Hrates : (sk_births_per_sec a, sk_deaths_per_sec a,
                    nk_births_per_sec a, nk_deaths_per_sec a)
                   = (sk_births_per_sec b, sk_deaths_per_sec b,
                      nk_births_per_sec b, nk_deaths_per_sec b))
    by (unfold broadcast_view, statistics_of in Hv; congruence).
  unfold broadcast_update. rewrite <- Hcl, <- Hint, <- Hlast.
  destruct (connected_clients a) as [|c l] eqn:Hl; [done|].
  set (fl := fle _ _).
  assert (Hv1 : broadcast_view (if fl then set_last_resync_time a (timestamp st)
                                else a)
                = broadcast_view (if fl then set_last_resync_time b (timestamp st)
                                  else b)).
  { destruct fl; [by apply set_last_resync_time_view|done]. }
  assert (Hcl1 : connected_clients
                   (if fl then set_last_resync_time a (timestamp st) else a)
                 = c :: l) by (by destruct fl).
  assert (Hcl2 : connected_clients
                   (if fl then set_last_resync_time b (timestamp st) else b)
                 = c :: l) by (destruct fl; simpl; congruence).
  rewrite Hcl1, Hcl2.
  destruct (send_to_all send_fails (c :: l)) as [d1 d2]. simpl. split.
  - do 2 f_equal.
    injection Hrates as H1 H2 H3 H4.
    destruct fl; simpl; rewrite H1, H2, H3, H4; reflexivity.
  - by apply foldl_remove_client_view.
Qed.

Lemma step_depends a b e a' o :
  broadcast_view a = broadcast_view b →
  step lower a e = Some (a', o) →
  ∃ b', step lower b e = Some (b', o) ∧ broadcast_view a' = broadcast_view b'.
Proof.
  intros Hv Hstep.
  assert (Hs : statistics_of a = statistics_of b)
    by (unfold broadcast_view in Hv; congruence).
  destruct e as [clk k f|c|c|clk|country nd]; simpl in Hstep |- *.
  - unfold tick in *.
    pose proof (calculate_current_population_depends a b clk Hs) as Hd.
    destruct (calculate_current_population a clk) as [[a1 st]|] eqn:Ha; [|done].
    destruct (calculate_current_population b clk) as [[b1 st']|] eqn:Hb;
      [|done].
    simpl in Hd. injection Hd as <-. simpl in Hstep |- *.
    injection Hstep as Hstep.
    assert (Hv1 : broadcast_view a1 = broadcast_view b1).
    { rewrite (calculate_current_population_view _ _ _ _ Ha).
      by rewrite (calculate_current_population_view _ _ _ _ Hb). }
    destruct (broadcast_update_depends a1 b1 st k f Hv1) as [Ho Hv2].
    rewrite Hstep in Ho, Hv2. simpl in Ho, Hv2.
    eexists. split; [|exact Hv2].
    rewrite Ho. by destruct (broadcast_update b1 st k f).
  - injection Hstep as <- <-. eexists. split; [reflexivity|].
    unfold broadcast_view in *. unfold add_client, statistics_of in *. simpl.
    congruence.
  - injection Hstep as <- <-. eexists. split; [reflexivity|].
    by apply remove_client_view.
  - pose proof (calculate_current_population_depends a b clk Hs) as Hd.
    destruct (calculate_current_population a clk) as [[a1 st]|] eqn:Ha; [|done].
    destruct (calculate_current_population b clk) as [[b1 st']|] eqn:Hb;
      [|done].
    simpl in Hstep |- *. injection Hstep as <- <-.
    eexists. split; [reflexivity|].
    rewrite (calculate_current_population_view _ _ _ _ Ha).
    by rewrite (calculate_current_population_view _ _ _ _ Hb).
  - destruct (update_base_data lower a country nd) as [a1|] eqn:Ha; [|done].
    simpl in Hstep. injection Hstep as <- <-.
    destruct (update_base_data_depends _ _ _ _ _ Hv Ha) as (b1 & -> & Hv1).
    eexists. split; [reflexivity|done].
Qed.

Lemma run_without_snapshots a b es a' outs :
  broadcast_view a = broadcast_view b →
  run lower a es = Some (a', outs) →
  ∃ b', run lower b (filter (λ e, is_snapshot e = false) es) = Some (b', outs)
        ∧ broadcast_view a' = broadcast_view b'.
Proof.
  revert a b outs. induction es as [|e es IH]; intros a b outs Hv Hrun.
  - injection Hrun as <- <-. by exists b.
  - destruct (run_cons_inv lower _ _ _ _ _ Hrun)
      as (a1 & o & outs1 & Hstep & Hrun1 & ->).
    destruct (is_snapshot e) eqn:He.
    + rewrite filter_cons_False by (rewrite He; done).
      destruct e as [| | |clk|]; try done. simpl in Hstep.
      destruct (calculate_current_population a clk) as [[a2 st]|] eqn:Ha;
        [|done].
      simpl in Hstep. injection Hstep as <- <-. simpl.
      apply (IH a2 b outs1); [|done].
      by rewrite (calculate_current_population_view _ _ _ _ Ha).
    + rewrite filter_cons_True by done.
      destruct (step_depends _ _ _ _ _ Hv Hstep) as (b1 & Hb1 & Hv1).
      destruct (IH _ _ _ Hv1 Hrun1) as (b' & Hb' & Hv').
      exists b'. split; [|done].
      rewrite run_cons, Hb1. simpl. rewrite Hb'. done.
Qed.

(** X10.  Reading the snapshot never changes what the viewers
    receive: an execution without its [Snapshot] events sends the same
    messages to the same viewers, and ends with the same viewers,
    resync fields and statistics. *)
Theorem snapshots_do_not_interfere self es self' outs :
  run lower self es = Some (self', outs) →
  ∃ self'',
    run lower self (filter (λ e, is_snapshot e = false) es)
    = Some (self'', outs)
    ∧ broadcast_view self'' = broadcast_view self'.
Proof.
  intros Hrun.
  destruct (run_without_snapshots self self es self' outs eq_refl Hrun)
    as (b' & Hb' & Hv).
  by exists b'.
Qed.

(** X11.  [calculate_current_population] overwrites every field it
    caches and reads none of them: called again on the same readings of
    the clock it returns the same snapshot and leaves the manager as the
    first call left it. *)
Theorem snapshot_is_idempotent self clk self' st :
  calculate_current_population self clk = Some (self', st) →
  calculate_current_population self' clk = Some (self', st).
Proof.
  unfold calculate_current_population. intros Hc.
  repeat (apply bind_Some in Hc as (? & ? & Hc)).
  injection Hc as <- <-. simpl.
  repeat (match goal with
          | H : ?x = Some _ |- context [mbind _ ?x] => rewrite H; simpl
          end).
  destruct (decide (date (now_for_date clk) ≠ current_day self)) as [Hd|Hd];
    simpl.
  - by rewrite decide_False by (intros Hn; by apply Hn).
  - by rewrite decide_False by done.
Qed.
End Dependence.

Section Idle.
Context {F : Type} `{!PyFloat F}.
Variable lower : string → string.
Implicit Types (self : PopulationManager F) (es : list (event (F:=F)))
  (st : PopulationState F) (send_fails : websocket → bool).

(** X12.  The message of a tick and the resync time the tick
    leaves do not depend on which sends fail: the flag is computed, and
    [last_resync_time] moved, before any send, so a resync is used up
    even when no viewer receives it. *)
Theorem message_does_not_depend_on_deliveries
    self st korea_now send_fails1 send_fails2 :
  fst <$> (broadcast_update self st korea_now send_fails1).2
  = fst <$> (broadcast_update self st korea_now send_fails2).2
  ∧ last_resync_time (broadcast_update self st korea_now send_fails1).1
    = last_resync_time (broadcast_update self st korea_now send_fails2).1
  ∧ (connected_clients self ≠ [] →
     last_resync_time (broadcast_update self st korea_now send_fails1).1
     = if fle (resync_interval self) (timestamp st - last_resync_time self)%py
       then timestamp st else last_resync_time self).
Proof.
  unfold broadcast_update.
  destruct (connected_clients self) as [|c l] eqn:Hl; [done|].
  destruct (send_to_all send_fails1 _) as [d1 d1'].
  destruct (send_to_all send_fails2 _) as [d2 d2']. simpl.
  rewrite !(proj1 (foldl_remove_client_frame _ _)).
  split; [done|]. split; [done|]. intros _. by destruct (fle _ _).
Qed.

Lemma step_idle self e self' o :
  connected_clients self = [] →
  is_tick_or_snapshot e = true →
  step lower self e = Some (self', o) →
  o = None ∧ broadcast_view self' = broadcast_view self.
Proof.
  intros Hnil He Hstep. destruct e as [clk k f| | |clk|]; try done;
    simpl in Hstep.
  - unfold tick in Hstep.
    destruct (calculate_current_population self clk) as [[self1 st]|] eqn:Hc;
      [|done].
    simpl in Hstep. injection Hstep as Hb.
    destruct (calculate_current_population_frame _ _ _ _ Hc) as (Hcl & _).
    unfold broadcast_update in Hb. rewrite Hcl, Hnil in Hb.
    injection Hb as <- <-. split; [done|].
    by apply (calculate_current_population_view _ clk _ st).
  - destruct (calculate_current_population self clk) as [[self1 st]|] eqn:Hc;
      [|done].
    simpl in Hstep. injection Hstep as <- <-. split; [done|].
    by apply (calculate_current_population_view _ clk _ st).
Qed.

(** X13.  While no viewer is connected, ticks and readings of the
    snapshot send nothing and leave the viewers, the resync fields and
    the statistics as they were; in particular [last_resync_time] does
    not move. *)
Theorem nothing_happens_without_viewers self es self' outs :
  connected_clients self = [] →
  Forall (λ e, is_tick_or_snapshot e = true) es →
  run lower self es = Some (self', outs) →
  outs = [] ∧ broadcast_view self' = broadcast_view self.
Proof.
  intros Hnil Hes. revert self outs Hnil.
  induction Hes as [|e es He Hes IH]; intros self outs Hnil Hrun.
  - by injection Hrun as <- <-.
  - destruct (run_cons_inv lower _ _ _ _ _ Hrun)
      as (self1 & o & outs1 & Hstep & Hrun1 & ->).
    destruct (step_idle _ _ _ _ Hnil He Hstep) as [-> Hv].
    assert (Hnil1 : connected_clients self1 = []).
    { unfold broadcast_view in Hv. congruence. }
    destruct (IH _ _ Hnil1 Hrun1) as [-> Hv1]. split; [done|]. congruence.
Qed.
End Idle.

(** ** The life of a connection *)

Section Lifetime.
Context {F : Type} `{!PyFloat F}.
Variable lower : string → string.
Implicit Types (self a b : PopulationManager F) (clk : clock_reads F)
  (st : PopulationState F) (ws c : websocket) (l : list websocket)
  (es : list (event (F:=F))) (send_fails : websocket → bool).

Lemma filter_reached ws send_fails l :
  filter (λ x, x ≠ ws) (reached send_fails l)
  = reached send_fails (filter (λ x, x ≠ ws) l).
Proof.
  unfold reached. induction l as [|y l IH]; [done|].
  destruct (send_fails y) eqn:Hy; destruct (decide (y = ws)) as [->|Hne].
  - rewrite (filter_cons_False (λ ws0, send_fails ws0 = false) ws l)
      by (rewrite Hy; done).
    rewrite (filter_cons_False (λ x, x ≠ ws) ws l) by (intros Hn; by apply Hn).
    done.
  - rewrite (filter_cons_False (λ ws0, send_fails ws0 = false) y l)
      by (rewrite Hy; done).
    rewrite (filter_cons_True (λ x, x ≠ ws) y l) by done.
    rewrite (filter_cons_False (λ ws0, send_fails ws0 = false) y)
      by (rewrite Hy; done).
    done.
  - rewrite (filter_cons_True (λ ws0, send_fails ws0 = false) ws l) by done.
    rewrite !(filter_cons_False (λ x, x ≠ ws) ws) by (intros Hn; by apply Hn).
    done.
  - rewrite (filter_cons_True (λ ws0, send_fails ws0 = false) y l) by done.
    rewrite !(filter_cons_True (λ x, x ≠ ws) y) by done.
    rewrite (filter_cons_True (λ ws0, send_fails ws0 = false) y) by done.
    by rewrite IH.
Qed.

Lemma filter_remove_first ws c l :
  filter (λ x, x ≠ ws) (remove_first c l)
  = if decide (c = ws) then filter (λ x, x ≠ ws) l
    else remove_first c (filter (λ x, x ≠ ws) l).
Proof.
  induction l as [|y l IH]; simpl; [by case_decide|].
  destruct (decide (c = y)) as [->|Hcy].
  - destruct (decide (y = ws)) as [->|Hne].
    + by rewrite (filter_cons_False (λ x, x ≠ ws) ws l)
        by (intros Hn; by apply Hn).
    + rewrite (filter_cons_True (λ x, x ≠ ws) y l) by done. simpl.
      by rewrite decide_True.
  - destruct (decide (y = ws)) as [->|Hne].
    + rewrite !(filter_cons_False (λ x, x ≠ ws) ws)
        by (intros Hn; by apply Hn).
      exact IH.
    + rewrite !(filter_cons_True (λ x, x ≠ ws) y) by done.
      rewrite IH. case_decide; [done|]. simpl. by rewrite decide_False.
Qed.

Lemma registrations_remove_first ws c l :
  (registrations ws (remove_first c l) ≤ registrations ws l)%nat.
Proof.
  unfold registrations. induction l as [|y l IH]; simpl; [done|].
  destruct (decide (c = y)) as [->|Hcy].
  - destruct (decide (y = ws)) as [->|Hne].
    + rewrite (filter_cons_True (λ x, x = ws) ws l) by done. simpl. lia.
    + by rewrite (filter_cons_False (λ x, x = ws) y l).
  - destruct (decide (y = ws)) as [->|Hne].
    + rewrite !(filter_cons_True (λ x, x = ws) ws) by done. simpl. lia.
    + by rewrite !(filter_cons_False (λ x, x = ws) y).
Qed.

Lemma registrations_0 ws l : ws ∉ l → registrations ws l = 0%nat.
Proof.
  unfold registrations. induction l as [|y l IH]; [done|].
  intros Hn. apply not_elem_of_cons in Hn as [Hne Hn].
  rewrite filter_cons_False by done. by apply IH.
Qed.

Lemma remove_first_last_registration ws l :
  (registrations ws l ≤ 1)%nat →
  remove_first ws l = filter (λ x, x ≠ ws) l.
Proof.
  unfold registrations. induction l as [|y l IH]; simpl; [done|].
  destruct (decide (ws = y)) as [<-|Hne].
  - rewrite (filter_cons_True (λ x, x = ws) ws l) by done. simpl.
    rewrite (filter_cons_False (λ x, x ≠ ws) ws l) by (intros Hn; by apply Hn).
    intros Hle.
    assert (Hout : ws ∉ l).
    { intros Hin.
      assert (Hin' : ws ∈ filter (λ x, x = ws) l)
        by (by apply list_elem_of_filter).
      destruct (filter (λ x, x = ws) l);
        [by apply elem_of_nil in Hin'|simpl in Hle; lia]. }
    clear IH Hle. induction l as [|z l IH]; [done|].
    apply not_elem_of_cons in Hout as [Hne Hout].
    rewrite filter_cons_True by done. by rewrite <- IH.
  - rewrite (filter_cons_False (λ x, x = ws) y l) by done.
    rewrite (filter_cons_True (λ x, x ≠ ws) y l) by done.
    intros Hle. by rewrite IH.
Qed.

Lemma step_without_viewer ws a b e a' o :
  without_viewer ws a b →
  (registrations ws (connected_clients a) ≤ 1)%nat →
  e ≠ AddClient ws →
  step lower a e = Some (a', o) →
  ∃ b' o',
    step lower b e = Some (b', o')
    ∧ without_viewer ws a' b'
    ∧ (registrations ws (connected_clients a') ≤ 1)%nat.
Proof.
  intros [Hcl Hs] Hreg Hne Hstep.
  destruct e as [clk k f|c|c|clk|country nd]; simpl in Hstep |- *.
  - unfold tick in *.
    pose proof (calculate_current_population_depends a b clk Hs) as Hd.
    destruct (calculate_current_population a clk) as [[a1 st]|] eqn:Ha; [|done].
    destruct (calculate_current_population b clk) as [[b1 st']|] eqn:Hb;
      [|done].
    simpl in Hd. injection Hd as <-. simpl in Hstep |- *.
    injection Hstep as Hstep.
    destruct (calculate_current_population_frame _ _ _ _ Ha) as (Hcla & _).
    destruct (calculate_current_population_frame _ _ _ _ Hb) as (Hclb & _).
    destruct (calculate_current_population_statistics _ _ _ _ Ha) as [Hsa _].
    destruct (calculate_current_population_statistics _ _ _ _ Hb) as [Hsb _].
    pose proof (broadcast_update_clients a1 st k f) as Hca.
    pose proof (broadcast_update_statistics a1 st k f) as Hsa'.
    rewrite Hstep in Hca, Hsa'. simpl in Hca, Hsa'.
    exists (broadcast_update b1 st k f).1, (broadcast_update b1 st k f).2.
    split; [by destruct (broadcast_update b1 st k f)|]. split; [split|].
    + rewrite broadcast_update_clients, Hca, Hcla, Hclb, Hcl.
      by rewrite filter_reached.
    + rewrite broadcast_update_statistics. congruence.
    + rewrite Hca, Hcla, registrations_reached. destruct (f ws); lia.
  - injection Hstep as <- <-. eexists _, _. split; [reflexivity|].
    unfold without_viewer, add_client. simpl. split; [split|].
    + rewrite filter_app, Hcl. f_equal.
      rewrite filter_cons_True; [done|]. intros ->. by apply Hne.
    + done.
    + rewrite registrations_app. unfold registrations at 2.
      rewrite filter_cons_False; [simpl; lia|]. intros ->. by apply Hne.
  - injection Hstep as <- <-. eexists _, _. split; [reflexivity|].
    rewrite !remove_client_set. unfold without_viewer. simpl.
    split; [split|].
    + rewrite filter_remove_first, Hcl. case_decide as Hc; [|done].
      subst c. rewrite remove_first_not_in; [done|].
      rewrite list_elem_of_filter. intros [Hn _]. by apply Hn.
    + done.
    + etrans; [apply registrations_remove_first|done].
  - pose proof (calculate_current_population_depends a b clk Hs) as Hd.
    destruct (calculate_current_population a clk) as [[a1 st]|] eqn:Ha; [|done].
    destruct (calculate_current_population b clk) as [[b1 st']|] eqn:Hb;
      [|done].
    simpl in Hstep |- *. injection Hstep as <- <-.
    destruct (calculate_current_population_frame _ _ _ _ Ha) as (Hcla & _).
    destruct (calculate_current_population_frame _ _ _ _ Hb) as (Hclb & _).
    destruct (calculate_current_population_statistics _ _ _ _ Ha) as [Hsa _].
    destruct (calculate_current_population_statistics _ _ _ _ Hb) as [Hsb _].
    eexists _, _. split; [reflexivity|]. unfold without_viewer.
    rewrite Hcla, Hclb. split; [split|]; [done|congruence|done].
  - destruct (update_base_data lower a country nd) as [a1|] eqn:Ha; [|done].
    simpl in Hstep. injection Hstep as <- <-.
    destruct (update_base_data_frame _ _ _ _ _ Ha) as (Hcla & _).
    assert (Hsk : south_korea_data a = south_korea_data b)
      by (unfold statistics_of in Hs; congruence).
    assert (Hnk : north_korea_data a = north_korea_data b)
      by (unfold statistics_of in Hs; congruence).
    unfold update_base_data in Ha |- *. rewrite <- Hsk, <- Hnk.
    unfold without_viewer, statistics_of in *.
    repeat case_decide.
    + apply bind_Some in Ha as (i & -> & Ha).
      apply bind_Some in Ha as (r & -> & Ha). injection Ha as <-.
      eexists _, _. split; [reflexivity|]. simpl. split; [split|];
        [done|congruence|done].
    + apply bind_Some in Ha as (i & -> & Ha).
      apply bind_Some in Ha as (r & -> & Ha). injection Ha as <-.
      eexists _, _. split; [reflexivity|]. simpl. split; [split|];
        [done|congruence|done].
    + injection Ha as <-. eexists _, _. split; [reflexivity|]. done.
Qed.

Lemma run_without_viewer ws a b es a' outs :
  without_viewer ws a b →
  (registrations ws (connected_clients a) ≤ 1)%nat →
  AddClient ws ∉ es →
  run lower a es = Some (a', outs) →
  ∃ b' outs',
    run lower b es = Some (b', outs')
    ∧ without_viewer ws a' b'
    ∧ (registrations ws (connected_clients a') ≤ 1)%nat.
Proof.
  revert a b outs. induction es as [|e es IH]; intros a b outs Hw Hreg Hadd Hrun.
  - injection Hrun as <- <-. by exists b, [].
  - destruct (run_cons_inv lower _ _ _ _ _ Hrun)
      as (a1 & o & outs1 & Hstep & Hrun1 & ->).
    apply not_elem_of_cons in Hadd as [Hne Hadd].
    destruct (step_without_viewer _ _ _ _ _ _ Hw Hreg (not_eq_sym Hne) Hstep)
      as (b1 & o' & Hb1 & Hw1 & Hreg1).
    destruct (IH _ _ _ Hw1 Hreg1 Hadd Hrun1) as (b' & outs' & Hb' & Hw' & Hreg').
    eexists _, _. split; [|done].
    rewrite run_cons, Hb1. simpl. rewrite Hb'. reflexivity.
Qed.

End Lifetime.

(** ** The handlers of [main.py] *)

Section EndpointFacts.
Context {F : Type} `{!PyFloat F}.
Variable lower : string → string.
Variable isoformat : datetime → string.
Variable py_round : F → Z → F.
Implicit Types (self : PopulationManager F) (clk : clock_reads F).


(** X16.  An accepted administrative update always replaces the
    population, the year and the date of the named country, the date
    being ["<year>-01-01T00:00:00Z"]; births, deaths and growth rate are
    replaced when given and kept otherwise; the other country and the
    viewers are untouched.  [lower] is assumed to fix the two names. *)
Theorem admin_update_replaces_population_year_and_date
    ADMIN_UPDATE_KEY self country population year births deaths growth_rate
    admin_key korea_now self' body :
  lower "south_korea" = "south_korea" →
  lower "north_korea" = "north_korea" →
  update_base_data_endpoint lower isoformat ADMIN_UPDATE_KEY self country
    population year births deaths growth_rate admin_key korea_now
  = Some (self', Response body) →
  ∃ stats stats',
    ((lower country = "south_korea"
      ∧ stats = south_korea_data self ∧ stats' = south_korea_data self'
      ∧ north_korea_data self' = north_korea_data self)
     ∨ (lower country = "north_korea"
        ∧ stats = north_korea_data self ∧ stats' = north_korea_data self'
        ∧ south_korea_data self' = south_korea_data self))
    ∧ base_population stats' = population
    ∧ base_year stats' = year
    ∧ base_date stats' = str_of_int year +:+ "-01-01T00:00:00Z"
    ∧ annual_births stats' = default (annual_births stats) births
    ∧ annual_deaths stats' = default (annual_deaths stats) deaths
    ∧ annual_growth_rate stats'
      = default (annual_growth_rate stats) growth_rate
    ∧ connected_clients self' = connected_clients self.
Proof.
  intros Hsk Hnk. unfold update_base_data_endpoint.
  case_decide as Hk; [done|]. case_decide as Hc; [done|].
  intros He. apply bind_Some in He as (s & Hu & He). injection He as <- _.
  destruct (update_base_data_countries _ _ _ _ _ Hu) as [Hs Hn].
  destruct (update_base_data_frame _ _ _ _ _ Hu) as (Hcl & _).
  rewrite !elem_of_cons in Hc.
  destruct Hc as [Hc|[Hc|?%elem_of_nil]]; [| |done]; rewrite Hc in Hs, Hn.
  - rewrite Hsk in Hs, Hn. rewrite decide_True in Hs, Hn by done.
    exists (south_korea_data self), (south_korea_data s).
    split; [left; done|]. rewrite Hs. done.
  - rewrite Hnk in Hs, Hn. rewrite decide_False in Hs, Hn by done.
    rewrite decide_True in Hn by done.
    exists (north_korea_data self), (north_korea_data s).
    split; [right; done|]. rewrite Hn. done.
Qed.

Lemma get_realtime_precise_None self clk korea_now :
  get_realtime_precise isoformat py_round self clk korea_now = None
  ↔ calculate_current_population self clk = None
    ∨ float_is_zero (sk_births_per_sec self) = true
    ∨ float_is_zero (nk_births_per_sec self) = true
    ∨ float_is_zero (sk_deaths_per_sec self) = true
    ∨ float_is_zero (nk_deaths_per_sec self) = true.
Proof.
  unfold get_realtime_precise.
  destruct (calculate_current_population self clk) as [[self1 st]|] eqn:Hc;
    simpl; [|split; auto].
  destruct (calculate_current_population_statistics _ _ _ _ Hc) as [Hs _].
  unfold statistics_of in Hs.
  assert (Hrates : (sk_births_per_sec self1, sk_deaths_per_sec self1,
                    nk_births_per_sec self1, nk_deaths_per_sec self1)
                   = (sk_births_per_sec self, sk_deaths_per_sec self,
                      nk_births_per_sec self, nk_deaths_per_sec self))
    by congruence.
  injection Hrates as -> -> -> ->. unfold one_over.
  destruct (float_is_zero (sk_births_per_sec self)); simpl; [split; auto|].
  destruct (float_is_zero (nk_births_per_sec self)); simpl; [split; auto|].
  destruct (float_is_zero (sk_deaths_per_sec self)); simpl; [split; auto|].
  destruct (float_is_zero (nk_deaths_per_sec self)); simpl; [split; auto|].
  split; [done|]. intros [?|[?|[?|[?|?]]]]; done.
Qed.

(** A count of zero gives a rate of zero. *)
Hypothesis zero_rate : ∀ y z : F,
  seconds_per_year = Some y → int_div_float 0 y = Some z →
  float_is_zero z = true.

Lemma zero_count_zero_rate (stats : CountryData F) r :
  calculate_birth_death_rates_per_second stats = Some r →
  (annual_births stats = 0 → float_is_zero r.1 = true)
  ∧ (annual_deaths stats = 0 → float_is_zero r.2 = true).
Proof using zero_rate.
  unfold calculate_birth_death_rates_per_second. intros Hr.
  apply bind_Some in Hr as (y & Hy & Hr).
  apply bind_Some in Hr as (b & Hb & Hr).
  apply bind_Some in Hr as (y' & Hy' & Hr).
  apply bind_Some in Hr as (d & Hd & Hr). injection Hr as <-. simpl.
  split; intros H0.
  - rewrite H0 in Hb. by apply (zero_rate y).
  - rewrite H0 in Hd. by apply (zero_rate y').
Qed.

Lemma zero_count_breaks_precise self country d self' clk korea_now :
  lower country = "south_korea" ∨ lower country = "north_korea" →
  nd_births d = Some 0 ∨ nd_deaths d = Some 0 →
  update_base_data lower self country d = Some self' →
  get_realtime_precise isoformat py_round self' clk korea_now = None.
Proof using zero_rate.
  intros Hc Hd Hu. apply get_realtime_precise_None. right.
  unfold update_base_data in Hu.
  destruct (decide (lower country = "south_korea")) as [Hsk|Hsk].
  - apply bind_Some in Hu as (i & _ & Hu).
    apply bind_Some in Hu as (r & Hr & Hu). injection Hu as <-. simpl.
    destruct (zero_count_zero_rate _ _ Hr) as [Hb Hde].
    destruct Hd as [Hd|Hd].
    + left. apply Hb. simpl. by rewrite Hd.
    + right. right. left. apply Hde. simpl. by rewrite Hd.
  - destruct Hc as [?|Hnk]; [done|]. rewrite decide_True in Hu by done.
    apply bind_Some in Hu as (i & _ & Hu).
    apply bind_Some in Hu as (r & Hr & Hu). injection Hu as <-. simpl.
    destruct (zero_count_zero_rate _ _ Hr) as [Hb Hde].
    destruct Hd as [Hd|Hd].
    + right. left. apply Hb. simpl. by rewrite Hd.
    + right. right. right. apply Hde. simpl. by rewrite Hd.
Qed.
End EndpointFacts.

(** X17.  [GET /api/realtime/precise] raises exactly when the
    snapshot raises or one of the four per-second rates is zero
    ([1.0 / rate]).  After an administrative update with [births] or
    [deaths] equal to 0, which the handler of the update accepts, it
    raises at every call, in binary64 and in exact arithmetic. *)
Theorem precise_endpoint_division_by_zero :
  (∀ (F : Type) (HF : PyFloat F) isoformat py_round
     (self : PopulationManager F) clk korea_now,
     get_realtime_precise isoformat py_round self clk korea_now = None
     ↔ calculate_current_population self clk = None
       ∨ float_is_zero (sk_births_per_sec self) = true
       ∨ float_is_zero (nk_births_per_sec self) = true
       ∨ float_is_zero (sk_deaths_per_sec self) = true
       ∨ float_is_zero (nk_deaths_per_sec self) = true)
  ∧ (∀ lower isoformat py_round (self self' : PopulationManager float)
       country d clk korea_now,
       lower country = "south_korea" ∨ lower country = "north_korea" →
       nd_births d = Some 0 ∨ nd_deaths d = Some 0 →
       update_base_data lower self country d = Some self' →
       get_realtime_precise isoformat py_round self' clk korea_now = None)
  ∧ (∀ lower isoformat py_round (self self' : PopulationManager Q)
       country d clk korea_now,
       lower country = "south_korea" ∨ lower country = "north_korea" →
       nd_births d = Some 0 ∨ nd_deaths d = Some 0 →
       update_base_data lower self country d = Some self' →
       get_realtime_precise isoformat py_round self' clk korea_now = None).
Proof.
  split; [|split].
  - intros. apply get_realtime_precise_None.
  - intros lower isoformat py_round self self' country d clk korea_now.
    apply zero_count_breaks_precise.
    intros y z Hy Hz. vm_compute in Hy. injection Hy as <-.
    vm_compute in Hz. injection Hz as <-. vm_compute. reflexivity.
  - intros lower isoformat py_round self self' country d clk korea_now.
    apply zero_count_breaks_precise.
    intros y z Hy Hz. vm_compute in Hy. injection Hy as <-.
    vm_compute in Hz. injection Hz as <-. vm_compute. reflexivity.
Qed.

(** ** Doubles *)

Section Doubles.

Lemma digits2_pos_bounds (p : positive) :
  2 ^ (Z.pos (digits2_pos p) - 1) <= Z.pos p < 2 ^ Z.pos (digits2_pos p).
Proof.
  induction p as [p IH|p IH|]; simpl digits2_pos.
  - rewrite Pos2Z.inj_succ.
    replace (Z.succ (Z.pos (digits2_pos p)) - 1)
      with (Z.succ (Z.pos (digits2_pos p) - 1)) by lia.
    rewrite !Z.pow_succ_r by lia. lia.
  - rewrite Pos2Z.inj_succ.
    replace (Z.succ (Z.pos (digits2_pos p)) - 1)
      with (Z.succ (Z.pos (digits2_pos p) - 1)) by lia.
    rewrite !Z.pow_succ_r by lia. lia.
  - simpl. lia.
Qed.

Lemma iter_xO_value (k p : positive) :
  Z.pos (Pos.iter xO p k) = Z.pos p * 2 ^ Z.pos k.
Proof.
  induction k as [|k IH] using Pos.peano_ind.
  - simpl. lia.
  - rewrite Pos.iter_succ, Pos2Z.inj_succ, Z.pow_succ_r by lia.
    rewrite Pos2Z.inj_xO, IH. lia.
Qed.

Lemma iter_xO_digits (k p : positive) :
  digits2_pos (Pos.iter xO p k) = (digits2_pos p + k)%positive.
Proof.
  induction k as [|k IH] using Pos.peano_ind.
  - simpl. lia.
  - rewrite Pos.iter_succ. simpl. rewrite IH. lia.
Qed.

(** A mantissa of 53 bits with an exponent in range is not rounded. *)
Lemma binary_round_aux_exact (s : bool) (m : positive) (e : Z) :
  digits2_pos m = 53%positive → -1074 <= e <= 971 →
  binary_round_aux prec emax s (Z.pos m) e loc_Exact = S754_finite s m e.
Proof.
  intros Hd He. unfold binary_round_aux, shr_fexp, fexp, SpecFloat.emin, Zdigits2.
  rewrite Hd. unfold prec, emax.
  replace (Z.max (53 + e - 53) (3 - 1024 - 53) - e) with 0 by lia.
  simpl. rewrite Hd.
  replace (Z.max (53 + e - 53) (3 - 1024 - 53) - e) with 0 by lia.
  simpl. rewrite Zle_imp_le_bool by lia. done.
Qed.

(** The double nearest to an integer below [2^53] is that integer. *)
Lemma round_int_small (p : positive) (s : bool) :
  Z.pos p < 2 ^ 53 →
  ∃ m e,
    binary_normalize prec emax (cond_Zopp s (Z.pos p)) 0 false
    = S754_finite s m e
    ∧ SpecFloat.valid_binary prec emax (S754_finite s m e) = true
    ∧ fst (Binary64.magnitude m e) = Z.pos p
    ∧ Z.pos (digits2_pos m) = 53
    ∧ -52 <= e <= 0
    ∧ Z.pos m = Z.pos p * 2 ^ (- e).
Proof.
  intros Hp. pose proof (digits2_pos_bounds p) as [Hlo Hhi].
  assert (Hd : Z.pos (digits2_pos p) <= 53).
  { destruct (Z.le_gt_cases (Z.pos (digits2_pos p)) 53) as [?|Hgt]; [done|].
    assert (2 ^ 53 <= 2 ^ (Z.pos (digits2_pos p) - 1))
      by (apply Z.pow_le_mono_r; lia).
    lia. }
  assert (Hn : binary_normalize prec emax (cond_Zopp s (Z.pos p)) 0 false
               = binary_round prec emax s p 0) by (by destruct s).
  rewrite Hn. unfold binary_round, shl_align, fexp, SpecFloat.emin, prec, emax.
  replace (Z.max (Z.pos (digits2_pos p) + 0 - 53) (3 - 1024 - 53) - 0)
    with (Z.pos (digits2_pos p) - 53) by lia.
  replace (Z.max (Z.pos (digits2_pos p) + 0 - 53) (3 - 1024 - 53))
    with (Z.pos (digits2_pos p) - 53) by lia.
  destruct (Z.pos (digits2_pos p) - 53) as [|k|k] eqn:Hk; [|lia|].
  - assert (Hd53 : digits2_pos p = 53%positive) by lia.
    exists p, 0. split; [by apply binary_round_aux_exact|]. split; [|split].
    + unfold SpecFloat.valid_binary, bounded, canonical_mantissa, fexp,
        SpecFloat.emin.
      rewrite Hd53. reflexivity.
    + unfold Binary64.magnitude. simpl. lia.
    + rewrite Hd53. simpl. lia.
  - assert (Hd53 : digits2_pos (Pos.iter xO p k) = 53%positive)
      by (rewrite iter_xO_digits; lia).
    exists (Pos.iter xO p k), (Z.neg k).
    split; [apply binary_round_aux_exact; [done|lia]|]. split; [|split].
    + unfold SpecFloat.valid_binary, bounded, canonical_mantissa, fexp,
        SpecFloat.emin.
      rewrite Hd53. apply andb_true_intro. split.
      * apply Z.eqb_eq. lia.
      * apply Zle_imp_le_bool. lia.
    + unfold Binary64.magnitude. simpl. rewrite iter_xO_value.
      change (- Z.neg k) with (Z.pos k).
      apply Z.div_mul. lia.
    + rewrite Hd53. split; [done|]. split; [lia|].
      rewrite iter_xO_value. reflexivity.
Qed.

Lemma Prim2SF_infinity : Prim2SF infinity = S754_infinity false.
Proof. vm_compute. reflexivity. Qed.

Lemma Prim2SF_zero : Prim2SF 0%float = S754_zero false.
Proof. vm_compute. reflexivity. Qed.

Lemma is_infinity_finite (f : float) s m e :
  Prim2SF f = S754_finite s m e → PrimFloat.is_infinity f = false.
Proof.
  intros Hf. unfold PrimFloat.is_infinity.
  rewrite FloatAxioms.eqb_spec, abs_spec, Hf, Prim2SF_infinity. reflexivity.
Qed.

(** [int(float(n)) = n] for an [int] below [2^53] in absolute value. *)
Lemma int_of_float_of_int (n : Z) :
  Z.abs n < 2 ^ 53 →
  ∃ f : float, of_int n = Some f ∧ int_of_float f = Some n.
Proof.
  intros Hn. simpl of_int. simpl int_of_float.
  unfold Binary64.of_int, Binary64.int_of_float, Binary64.round_int.
  destruct n as [|p|p].
  - eexists. split; vm_compute; reflexivity.
  - destruct (round_int_small p false) as (m & e & Hr & Hv & Hm & _); [lia|].
    change (cond_Zopp false (Z.pos p)) with (Z.pos p) in Hr. rewrite Hr.
    rewrite (is_infinity_finite _ false m e) by by apply Prim2SF_SF2Prim.
    eexists. split; [done|]. rewrite Prim2SF_SF2Prim by done.
    simpl. by rewrite Hm.
  - destruct (round_int_small p true) as (m & e & Hr & Hv & Hm & _); [lia|].
    change (cond_Zopp true (Z.pos p)) with (Z.neg p) in Hr. rewrite Hr.
    rewrite (is_infinity_finite _ true m e) by by apply Prim2SF_SF2Prim.
    eexists. split; [done|]. rewrite Prim2SF_SF2Prim by done.
    simpl. by rewrite Hm.
Qed.

(** Adding a product by zero does not change what [int()] gives. *)
Lemma int_of_float_add_zero_product (y x z : float) v :
  Prim2SF z = S754_zero false →
  int_of_float (y + x * z)%py = Some v → int_of_float y = Some v.
Proof.
  simpl. unfold Binary64.int_of_float. intros Hz.
  rewrite add_spec, mul_spec, Hz.
  destruct (Prim2SF x) as [sx|sx| |sx mx ex];
    destruct (Prim2SF y) as [sy|sy| |sy my ey]; simpl;
    try destruct sx; try destruct sy; simpl; done.
Qed.

(** A product by zero, divided by a positive constant, truncates to
    zero. *)
Lemma int_of_float_zero_product (x z c : float) m e v :
  Prim2SF z = S754_zero false →
  Prim2SF c = S754_finite false m e →
  int_of_float (x * z / c)%py = Some v → v = 0.
Proof.
  simpl. unfold Binary64.int_of_float. intros Hz Hc.
  rewrite div_spec, mul_spec, Hz, Hc.
  destruct (Prim2SF x) as [sx|sx| |sx mx ex]; simpl; congruence.
Qed.
End Doubles.

(** ** Division of doubles *)

Section Division.

Lemma digits2_pos_eq (p : positive) (d : Z) :
  2 ^ (d - 1) <= Z.pos p < 2 ^ d → 0 < d → Z.pos (digits2_pos p) = d.
Proof.
  intros [Hlo Hhi] Hd. pose proof (digits2_pos_bounds p) as [Hlo' Hhi'].
  destruct (Z.lt_trichotomy (Z.pos (digits2_pos p)) d) as [Hlt|[Heq|Hgt]];
    [|done|].
  - assert (2 ^ Z.pos (digits2_pos p) <= 2 ^ (d - 1))
      by (apply Z.pow_le_mono_r; lia).
    lia.
  - assert (2 ^ d <= 2 ^ (Z.pos (digits2_pos p) - 1))
      by (apply Z.pow_le_mono_r; lia).
    lia.
Qed.

Lemma loc_of_shr_record_of_loc m l :
  loc_of_shr_record (shr_record_of_loc m l) = l.
Proof. by destruct l as [|[]]. Qed.

Lemma shr_m_shr_record_of_loc m l : shr_m (shr_record_of_loc m l) = m.
Proof. by destruct l as [|[]]. Qed.

Lemma round_nearest_even_bounds m l :
  m <= round_nearest_even m l <= m + 1.
Proof. destruct l as [|[]]; simpl; try destruct (Z.even m); lia. Qed.

(** A mantissa of 53 bits is kept by [shr_fexp]; one of 54 bits loses
    its last bit. *)
Lemma shr_fexp_53 (m : positive) (e : Z) l :
  Z.pos (digits2_pos m) = 53 → -1074 <= e →
  shr_fexp prec emax (Z.pos m) e l = (shr_record_of_loc (Z.pos m) l, e).
Proof.
  intros Hd He. unfold shr_fexp, fexp, SpecFloat.emin, Zdigits2, prec, emax.
  rewrite Hd.
  replace (Z.max (53 + e - 53) (3 - 1024 - 53) - e) with 0 by lia.
  reflexivity.
Qed.

Lemma shr_fexp_54 (m : positive) (e : Z) l :
  Z.pos (digits2_pos m) = 54 → -1074 <= e →
  ∃ mrs,
    shr_fexp prec emax (Z.pos m) e l = (mrs, e + 1)
    ∧ shr_m mrs = Z.pos m / 2
    ∧ 0 < shr_m mrs.
Proof.
  intros Hd He. unfold shr_fexp, fexp, SpecFloat.emin, Zdigits2, prec, emax.
  rewrite Hd.
  replace (Z.max (54 + e - 53) (3 - 1024 - 53) - e) with 1 by lia.
  unfold shr. simpl iter_pos.
  destruct m as [p|p|]; [| |simpl in Hd; lia].
  - eexists. split; [destruct l as [|[]]; reflexivity|].
    destruct l as [|[]]; simpl; (split; [|lia]);
      rewrite Pos2Z.inj_xI;
      apply Z.div_unique with 1; lia.
  - eexists. split; [destruct l as [|[]]; reflexivity|].
    destruct l as [|[]]; simpl; (split; [|lia]);
      rewrite Pos2Z.inj_xO;
      apply Z.div_unique with 0; lia.
Qed.

(** The second step of [binary_round_aux] on a mantissa that the
    rounding has brought to at most [2^53]. *)
Lemma binary_round_aux_last (s : bool) (m1 : Z) (e : Z) :
  2 ^ 52 <= m1 <= 2 ^ 53 → -1074 <= e <= 900 →
  ∃ (M : positive) (D : Z),
    (let '(mrs, e') := shr_fexp prec emax m1 e loc_Exact in
     match shr_m mrs with
     | 0 => S754_zero s
     | Z.pos m => if e' <=? emax - prec then S754_finite s m e'
                  else S754_infinity s
     | Z.neg _ => S754_nan
     end) = S754_finite s M (e + D)
    ∧ 0 <= D <= 1
    ∧ m1 / 2 ^ D <= Z.pos M <= m1 / 2 ^ D
    ∧ (D = 1 → m1 = 2 ^ 53).
Proof.
  intros Hm He. destruct m1 as [|m|m]; [lia| |lia].
  destruct (Z.eq_dec (Z.pos m) (2 ^ 53)) as [Heq|Hne].
  - assert (Hd : Z.pos (digits2_pos m) = 54)
      by (apply digits2_pos_eq; lia).
    destruct (shr_fexp_54 m e loc_Exact Hd) as (mrs & -> & Hmrs & Hpos);
      [lia|].
    destruct (shr_m mrs) as [|M|M] eqn:HM; [lia| |lia].
    exists M, 1. unfold emax, prec.
    rewrite Zle_imp_le_bool by lia.
    split; [done|]. split; [lia|]. split; [|done].
    change (2 ^ 1) with 2. lia.
  - assert (Hd : Z.pos (digits2_pos m) = 53)
      by (apply digits2_pos_eq; lia).
    rewrite (shr_fexp_53 m e loc_Exact Hd) by lia. simpl shr_m.
    exists m, 0. unfold emax, prec.
    rewrite Zle_imp_le_bool by lia. rewrite Z.add_0_r.
    split; [done|]. split; [lia|]. split; [|lia].
    change (2 ^ 0) with 1. rewrite Z.div_1_r. lia.
Qed.

(** [binary_round_aux] on a quotient of 53 or 54 bits: the mantissa of
    the result is the quotient shifted right, or one more. *)
Lemma binary_round_aux_quotient (s : bool) (q : Z) (e : Z) l :
  2 ^ 52 <= q < 2 ^ 54 → -1074 <= e <= 800 →
  ∃ (M : positive) (D : Z),
    binary_round_aux prec emax s q e l = S754_finite s M (e + D)
    ∧ 0 <= D <= 2
    ∧ q / 2 ^ D <= Z.pos M <= q / 2 ^ D + 1.
Proof.
  intros Hq He. destruct q as [|pq|pq]; [lia| |lia].
  unfold binary_round_aux.
  destruct (Z.lt_ge_cases (Z.pos pq) (2 ^ 53)) as [Hlt|Hge].
  - assert (Hd : Z.pos (digits2_pos pq) = 53)
      by (apply digits2_pos_eq; lia).
    rewrite (shr_fexp_53 pq e l Hd) by lia.
    rewrite shr_m_shr_record_of_loc, loc_of_shr_record_of_loc.
    pose proof (round_nearest_even_bounds (Z.pos pq) l) as Hr.
    destruct (binary_round_aux_last s (round_nearest_even (Z.pos pq) l) e)
      as (M & D & HM & HD & Hb & HD1); [lia|lia|].
    exists M, D. split; [exact HM|]. split; [lia|].
    destruct (Z.eq_dec D 1) as [->|HD0].
    + specialize (HD1 eq_refl). change (2 ^ 1) with 2 in *.
      rewrite HD1 in Hb. change (2 ^ 53 / 2) with (2 ^ 52) in Hb.
      assert (Hpq : Z.pos pq = 2 ^ 53 - 1) by lia.
      rewrite Hpq. change ((2 ^ 53 - 1) / 2) with (2 ^ 52 - 1). lia.
    + assert (D = 0) by lia. subst D. change (2 ^ 0) with 1 in *.
      rewrite Z.div_1_r in *. lia.
  - assert (Hd : Z.pos (digits2_pos pq) = 54)
      by (apply digits2_pos_eq; lia).
    destruct (shr_fexp_54 pq e l Hd) as (mrs & -> & Hmrs & Hpos); [lia|].
    pose proof (round_nearest_even_bounds (shr_m mrs) (loc_of_shr_record mrs))
      as Hr.
    assert (Hhalf : 2 ^ 52 <= Z.pos pq / 2 < 2 ^ 53).
    { split.
      - apply Z.div_le_lower_bound; lia.
      - apply Z.div_lt_upper_bound; lia. }
    destruct (binary_round_aux_last s
                (round_nearest_even (shr_m mrs) (loc_of_shr_record mrs))
                (e + 1))
      as (M & D & HM & HD & Hb & HD1); [lia|lia|].
    exists M, (1 + D). replace (e + (1 + D)) with (e + 1 + D) by lia.
    split; [exact HM|]. split; [lia|].
    destruct (Z.eq_dec D 1) as [->|HD0].
    + specialize (HD1 eq_refl). change (2 ^ 1) with 2 in *.
      rewrite HD1 in Hb. change (2 ^ 53 / 2) with (2 ^ 52) in Hb.
      change (2 ^ (1 + 1)) with 4.
      assert (Hpq : Z.pos pq / 2 = 2 ^ 53 - 1) by lia.
      assert (Hq4 : Z.pos pq / 4 = 2 ^ 52 - 1).
      { replace 4 with (2 * 2) by lia.
        rewrite <- Z.div_div by lia. rewrite Hpq. reflexivity. }
      rewrite Hq4. lia.
    + assert (D = 0) by lia. subst D. change (2 ^ 0) with 1 in *.
      rewrite Z.div_1_r in *. change (2 ^ (1 + 0)) with 2. lia.
Qed.
End Division.

Section Quotient.

(** The quotient of two doubles with full mantissas, before rounding. *)
Lemma SFdiv_core_binary_53 (m1 m2 : positive) (e1 e2 : Z) :
  Z.pos (digits2_pos m1) = 53 → Z.pos (digits2_pos m2) = 53 →
  -1074 <= e1 - e2 - 53 →
  SFdiv_core_binary prec emax (Z.pos m1) e1 (Z.pos m2) e2
  = ((Z.pos m1 * 2 ^ 53) / Z.pos m2, e1 - e2 - 53,
     new_location (Z.pos m2) ((Z.pos m1 * 2 ^ 53) mod Z.pos m2)).
Proof.
  intros H1 H2 He. unfold SFdiv_core_binary, Zdigits2, fexp, SpecFloat.emin.
  rewrite H1, H2. unfold prec, emax.
  replace (Z.min (Z.max (53 + e1 - (53 + e2) - 53) (3 - 1024 - 53)) (e1 - e2))
    with (e1 - e2 - 53) by lia.
  replace (e1 - e2 - (e1 - e2 - 53)) with 53 by lia.
  rewrite Z.shiftl_mul_pow2 by lia.
  unfold Z.div, Z.modulo.
  by destruct (Z.div_eucl (Z.pos m1 * 2 ^ 53) (Z.pos m2)) as [q r].
Qed.

(** [int(n / 10**6)] is the whole part of the quotient for every [n]
    that counts the microseconds of less than a day. *)
Lemma int_truediv_microseconds (s us : Z) :
  0 <= s < 86400 → 0 <= us < 10 ^ 6 →
  int_truediv (F:=float) (s * 10 ^ 6 + us) (10 ^ 6) ≫= int_of_float = Some s.
Proof.
  intros Hs Hus.
  destruct (Z.eq_dec (s * 10 ^ 6 + us) 0) as [Hz|Hnz].
  { assert (s = 0) by lia. assert (us = 0) by lia. subst s us.
    vm_compute. reflexivity. }
  assert (Hy : ∃ y, of_int (F:=float) (10 ^ 6) = Some y
                    ∧ Prim2SF y = S754_finite false 8589934592000000 (-33)).
  { eexists. split; vm_compute; reflexivity. }
  destruct Hy as (y & Hy & Hy2).
  unfold int_truediv. rewrite Hy.
  destruct (s * 10 ^ 6 + us) as [|p|p] eqn:HN; [done| |lia].
  simpl of_int. unfold Binary64.of_int, Binary64.round_int.
  destruct (round_int_small p false)
    as (m1 & e1 & Hr & Hv & _ & Hd1 & He1 & Hm1); [lia|].
  change (cond_Zopp false (Z.pos p)) with (Z.pos p) in Hr. rewrite Hr.
  rewrite (is_infinity_finite _ false m1 e1) by by apply Prim2SF_SF2Prim.
  change (Binary64.int_of_float
            (PrimFloat.div (SF2Prim (S754_finite false m1 e1)) y) = Some s).
  unfold Binary64.int_of_float.
  rewrite div_spec, Hy2, Prim2SF_SF2Prim by done.
  unfold SF64div, SFdiv.
  rewrite SFdiv_core_binary_53 by (done || lia).
  set (m2 := 8589934592000000%positive).
  pose proof (digits2_pos_bounds m1) as Hb1. rewrite Hd1 in Hb1.
  change (53 - 1) with 52 in Hb1.
  set (k := - e1) in *.
  assert (Hk : 16 <= k <= 52).
  { split; [|lia].
    destruct (Z.le_gt_cases 16 k) as [|Hlt]; [done|].
    assert (2 ^ k <= 2 ^ 15) by (apply Z.pow_le_mono_r; lia).
    nia. }
  set (T := 2 ^ (k + 20)).
  assert (HT : 2 ^ 36 <= T) by (apply Z.pow_le_mono_r; lia).
  assert (Hq : Z.pos m1 * 2 ^ 53 / Z.pos m2 = Z.pos p * T / 10 ^ 6).
  { rewrite Hm1. unfold T. rewrite Z.pow_add_r by lia.
    change (Z.pos m2) with (10 ^ 6 * 2 ^ 33).
    replace (Z.pos p * 2 ^ k * 2 ^ 53)
      with (Z.pos p * (2 ^ k * 2 ^ 20) * 2 ^ 33) by (change (2 ^ 53) with (2 ^ 20 * 2 ^ 33); ring).
    apply Z.div_mul_cancel_r; lia. }
  set (q := Z.pos m1 * 2 ^ 53 / Z.pos m2) in *.
  assert (Hqr : 2 ^ 52 <= q < 2 ^ 54).
  { unfold q. split.
    - apply Z.div_le_lower_bound; [lia|]. unfold m2. lia.
    - apply Z.div_lt_upper_bound; [lia|]. unfold m2. lia. }
  assert (Hqlo : s * T <= q).
  { rewrite Hq. apply Z.div_le_lower_bound; [lia|]. nia. }
  assert (Hqhi : q <= (s + 1) * T - 5).
  { rewrite Hq.
    assert (Z.pos p * T / 10 ^ 6 < (s + 1) * T - 4); [|lia].
    apply Z.div_lt_upper_bound; [lia|]. nia. }
  destruct (binary_round_aux_quotient (xorb false false) q (e1 - -33 - 53)
              (new_location (Z.pos m2) ((Z.pos m1 * 2 ^ 53) mod Z.pos m2)))
    as (M & D & -> & HD & HM); [done|lia|].
  simpl xorb. cbn iota beta. unfold Binary64.magnitude.
  assert (He : e1 - -33 - 53 + D = - (k + 20 - D)) by lia.
  rewrite He.
  destruct (0 <=? - (k + 20 - D)) eqn:Hneg; [apply Z.leb_le in Hneg; lia|].
  rewrite Z.opp_involutive. simpl fst. f_equal.
  set (U := 2 ^ (k + 20 - D)).
  assert (HU : T = U * 2 ^ D).
  { unfold T, U. rewrite <- Z.pow_add_r by lia. f_equal. lia. }
  assert (HD2 : 1 <= 2 ^ D <= 4).
  { split; [apply (Z.pow_le_mono_r 2 0 D); lia|
            apply (Z.pow_le_mono_r 2 D 2); lia]. }
  assert (HUpos : 0 < U) by (unfold U; apply Z.pow_pos_nonneg; lia).
  assert (Hlo : s * U <= q / 2 ^ D).
  { apply Z.div_le_lower_bound; [lia|]. nia. }
  assert (Hhi : q / 2 ^ D < (s + 1) * U - 1).
  { apply Z.div_lt_upper_bound; [lia|]. nia. }
  symmetry. apply (Z.div_unique _ _ _ (Z.pos M - s * U)); nia.
Qed.
End Quotient.

(** ** The snapshot at the epoch and at local midnight *)

Lemma zero_elapsed_binary64 :
  Prim2SF (0%float / decimal 36525 (-2))%py = S754_zero false.
Proof. vm_compute. reflexivity. Qed.

Lemma days_per_year_binary64 :
  ∃ m e, Prim2SF (decimal 36525 (-2) : float) = S754_finite false m e.
Proof. vm_compute. eexists _, _. reflexivity. Qed.

Lemma growth_at_epoch_binary64 (stats : CountryData float) (gi y : float) v :
  growth_increment stats 0%float = Some gi →
  of_int (base_population stats) = Some y →
  int_of_float (y + gi)%py = Some v →
  Z.abs (base_population stats) < 2 ^ 53 →
  v = base_population stats.
Proof.
  unfold growth_increment. intros Hg Hy Hv Hb.
  apply bind_Some in Hg as (r & _ & Hg).
  apply bind_Some in Hg as (rb & _ & Hg). injection Hg as <-.
  apply (int_of_float_add_zero_product _ _ _ _ zero_elapsed_binary64) in Hv.
  destruct (int_of_float_of_int _ Hb) as (f & Hf & Hi).
  congruence.
Qed.

(** X18.  At the fixed epoch the population of each country is its
    base population: in binary64 for a base population below [2^53] in
    absolute value, whenever the call returns, and in exact arithmetic
    always. *)
Theorem population_at_the_epoch :
  (∀ (self self' : PopulationManager float) clk st,
     time_time clk = 1704067200%float →
     calculate_current_population self clk = Some (self', st) →
     (Z.abs (base_population (south_korea_data self)) < 2 ^ 53 →
      south_korea_population st = base_population (south_korea_data self))
     ∧ (Z.abs (base_population (north_korea_data self)) < 2 ^ 53 →
        north_korea_population st = base_population (north_korea_data self)))
  ∧ (∀ (self self' : PopulationManager Q) clk st,
       (time_time clk == 1704067200)%Q →
       calculate_current_population self clk = Some (self', st) →
       south_korea_population st = base_population (south_korea_data self)
       ∧ north_korea_population st
         = base_population (north_korea_data self)).
Proof.
  split.
  - intros self self' clk st Htime Hc.
    unfold calculate_current_population in Hc. rewrite Htime in Hc.
    apply bind_Some in Hc as (bt & Hbt & Hc).
    pose proof fixed_epoch_binary64 as Hep. unfold fixed_epoch in Hep.
    rewrite Hep in Hbt. injection Hbt as <-.
    apply bind_Some in Hc as (d & Hd & Hc).
    vm_compute in Hd. injection Hd as <-.
    apply bind_Some in Hc as (g1 & Hg1 & Hc).
    apply bind_Some in Hc as (g2 & Hg2 & Hc).
    apply bind_Some in Hc as (s1 & Hs1 & Hc).
    apply bind_Some in Hc as (p1 & Hp1 & Hc).
    apply bind_Some in Hc as (s2 & Hs2 & Hc).
    apply bind_Some in Hc as (p2 & Hp2 & Hc).
    repeat (apply bind_Some in Hc as (? & _ & Hc)).
    injection Hc as _ <-. cbn [south_korea_population north_korea_population].
    unfold int_add_float in Hs1, Hs2.
    apply bind_Some in Hs1 as (y1 & Hy1 & Hs1). injection Hs1 as <-.
    apply bind_Some in Hs2 as (y2 & Hy2 & Hs2). injection Hs2 as <-.
    split; intros Hb.
    + by apply (growth_at_epoch_binary64 _ g1 y1).
    + by apply (growth_at_epoch_binary64 _ g2 y2).
  - intros self self' clk st Htime Hc.
    destruct (calculate_current_population_fields _ _ _ _ Hc)
      as (Hsk & Hnk & _).
    rewrite exact_estimate_population in Hsk, Hnk.
    injection Hsk as <-. injection Hnk as <-.
    split; rewrite <- Qtrunc_inject_Z; apply Qtrunc_comp;
      unfold population_formula, epoch_seconds; rewrite Htime; field.
Qed.

Lemma midnight_seconds_binary64 t s :
  local_midnight t →
  get_seconds_since_midnight_kst (F:=float) t = Some s → s = 0.
Proof.
  intros (Hh & Hm & Hs & Hus). unfold get_seconds_since_midnight_kst.
  rewrite datetime_sub_midnight by (unfold valid_time; lia).
  unfold seconds_of_day. rewrite Hh, Hm, Hs, Hus.
  intros H. vm_compute in H. by injection H as <-.
Qed.

Lemma events_at_midnight_binary64 annual v :
  events_today (F:=float) annual 0%float = Some v → v = 0.
Proof.
  unfold events_today, int_mul_float. intros He.
  apply bind_Some in He as (a & Ha & He).
  apply bind_Some in Ha as (y & _ & Ha). injection Ha as <-.
  destruct days_per_year_binary64 as (m & e & Hc).
  by apply (int_of_float_zero_product _ _ _ _ _ _ Prim2SF_zero Hc) in He.
Qed.

(** X19.  At local midnight the seconds since midnight and the
    four counters of the day are 0, whatever the annual counts: in
    binary64 whenever the call returns, and in exact arithmetic, where
    it always returns. *)
Theorem no_events_at_local_midnight :
  (∀ (self self' : PopulationManager float) clk st,
     local_midnight (now_for_seconds clk) →
     calculate_current_population self clk = Some (self', st) →
     seconds_since_midnight_kst st = 0
     ∧ sk_births_today st = 0 ∧ sk_deaths_today st = 0
     ∧ nk_births_today st = 0 ∧ nk_deaths_today st = 0)
  ∧ (∀ (self : PopulationManager Q) clk,
       local_midnight (now_for_seconds clk) →
       ∃ self' st,
         calculate_current_population self clk = Some (self', st)
         ∧ seconds_since_midnight_kst st = 0
         ∧ sk_births_today st = 0 ∧ sk_deaths_today st = 0
         ∧ nk_births_today st = 0 ∧ nk_deaths_today st = 0).
Proof.
  split.
  - intros self self' clk st Hmid Hc.
    unfold calculate_current_population in Hc.
    do 8 (apply bind_Some in Hc as (? & _ & Hc)).
    apply bind_Some in Hc as (s & Hs & Hc).
    apply (midnight_seconds_binary64 _ _ Hmid) in Hs. subst s.
    apply bind_Some in Hc as (f & Hf & Hc).
    vm_compute in Hf. injection Hf as <-.
    apply bind_Some in Hc as (e1 & ->%events_at_midnight_binary64 & Hc).
    apply bind_Some in Hc as (e2 & ->%events_at_midnight_binary64 & Hc).
    apply bind_Some in Hc as (e3 & ->%events_at_midnight_binary64 & Hc).
    apply bind_Some in Hc as (e4 & ->%events_at_midnight_binary64 & Hc).
    by injection Hc as _ <-.
  - intros self clk Hmid.
    destruct (exact_calculate_total self clk) as [[self' st] Hc].
    exists self', st. split; [done|].
    assert (Hv : valid_time (now_for_seconds clk)).
    { destruct Hmid as (? & ? & ? & ?). unfold valid_time. lia. }
    assert (Hz : seconds_of_day (now_for_seconds clk) = 0).
    { destruct Hmid as (Hh & Hm & Hs & _). unfold seconds_of_day.
      rewrite Hh, Hm, Hs. done. }
    destruct (calculate_current_population_fields _ _ _ _ Hc)
      as (_ & _ & H1 & H2 & H3 & H4 & _).
    rewrite (proj1 (exact_estimate_events _ _ Hv)), Hz, Z.mul_0_r in H1.
    rewrite (proj1 (exact_estimate_events _ _ Hv)), Hz, Z.mul_0_r in H2.
    rewrite (proj1 (exact_estimate_events _ _ Hv)), Hz, Z.mul_0_r in H3.
    rewrite (proj1 (exact_estimate_events _ _ Hv)), Hz, Z.mul_0_r in H4.
    injection H1 as <-. injection H2 as <-.
    injection H3 as <-. injection H4 as <-.
    split; [|done].
    unfold calculate_current_population in Hc.
    do 8 (apply bind_Some in Hc as (? & _ & Hc)).
    apply bind_Some in Hc as (s & Hs & Hc).
    rewrite exact_seconds_since_midnight in Hs by done.
    injection Hs as <-.
    repeat (apply bind_Some in Hc as (? & _ & Hc)).
    by injection Hc as _ <-.
Qed.

(** ** The counters of the day *)

(** X20.  [get_seconds_since_midnight_kst] returns
    [hour * 3600 + minute * 60 + second] of the local time, a number
    from 0 to 86399, whatever the date, the microseconds and the offset
    of the zone, in exact arithmetic and in binary64 alike. *)
Theorem seconds_since_midnight_is_the_time_of_day :
  ∀ t : datetime,
    valid_time t →
    get_seconds_since_midnight_kst (F:=Q) t = Some (seconds_of_day t)
    ∧ get_seconds_since_midnight_kst (F:=float) t = Some (seconds_of_day t)
    ∧ 0 <= seconds_of_day t < 86400.
Proof.
  intros t Hv.
  assert (Hs : 0 <= seconds_of_day t < 86400).
  { destruct Hv as (? & ? & ? & ?). unfold seconds_of_day. lia. }
  split; [by apply exact_seconds_since_midnight|]. split; [|done].
  unfold get_seconds_since_midnight_kst.
  rewrite datetime_sub_midnight by done.
  unfold total_seconds. cbn [days seconds microseconds].
  replace (0 * 86400 + seconds_of_day t) with (seconds_of_day t) by lia.
  apply int_truediv_microseconds; [done|].
  destruct Hv as (_ & _ & _ & Hus). lia.
Qed.

Section ExactDay.
Implicit Types (self : PopulationManager Q) (clk : clock_reads Q)
  (st : PopulationState Q).

Lemma exact_counters self clk self' st :
  valid_time (now_for_seconds clk) →
  calculate_current_population self clk = Some (self', st) →
  counters_today st
  = map (λ annual, (annual * seconds_of_day (now_for_seconds clk)) ÷ 31557600)
        (annual_counts self).
Proof.
  intros Hv Hc.
  destruct (calculate_current_population_fields _ _ _ _ Hc)
    as (_ & _ & H1 & H2 & H3 & H4 & _).
  rewrite (proj1 (exact_estimate_events _ _ Hv)) in H1.
  rewrite (proj1 (exact_estimate_events _ _ Hv)) in H2.
  rewrite (proj1 (exact_estimate_events _ _ Hv)) in H3.
  rewrite (proj1 (exact_estimate_events _ _ Hv)) in H4.
  unfold counters_today, annual_counts. simpl. congruence.
Qed.

Lemma quot_day_bounds annual s1 s2 :
  0 <= annual → 0 <= s1 <= s2 → s2 < 86400 →
  0 <= (annual * s1) ÷ 31557600 <= (annual * s2) ÷ 31557600
  ∧ ((annual * s2) ÷ 31557600) * 36525 <= annual * 100.
Proof.
  intros Ha Hs1 Hs2.
  rewrite !Z.quot_div_nonneg by nia. split; [split|].
  - apply Z.div_pos; nia.
  - apply Z.div_le_mono; nia.
  - assert (H := Z.mul_div_le (annual * s2) 31557600). nia.
Qed.

End ExactDay.

Section DailyIncrement.
Implicit Types (self : PopulationManager Q) (clk : clock_reads Q)
  (st : PopulationState Q) (stats : CountryData Q).

Lemma exact_daily_increment stats :
  ∃ i, calculate_daily_increment stats = Some i
       ∧ ∀ now,
           (population_formula (base_population stats)
              (annual_growth_rate stats) now
            == inject_Z (base_population stats)
               + i * ((now - epoch_seconds) / 86400))%Q.
Proof.
  unfold calculate_daily_increment. cbn. eexists. split; [reflexivity|].
  intros now. unfold population_formula.
  change (Z.to_pos (10 ^ (- (-2)))) with 100%positive. field.
Qed.

End DailyIncrement.

(** ** The [comma] filter *)

Section Comma.

Lemma filter_no_comma (l : list Ascii.ascii) :
  ","%char ∉ l → filter (λ c, c ≠ ","%char) l = l.
Proof.
  induction l as [|x l IH]; [done|]. intros Hn.
  apply not_elem_of_cons in Hn as [Hx Hn].
  rewrite filter_cons_True by (intros ->; done). by rewrite IH.
Qed.

Lemma group3_filter (l : list Ascii.ascii) :
  ","%char ∉ l →
  filter (λ c, c ≠ ","%char) (group3 l) = l.
Proof.
  assert (Hgen : ∀ n (l : list Ascii.ascii), (length l ≤ n)%nat → ","%char ∉ l →
                 filter (λ c, c ≠ ","%char) (group3 l) = l).
  { intros n. induction n as [|n IH]; intros k Hlen Hk.
    - destruct k; [done|simpl in Hlen; lia].
    - destruct k as [|a [|b [|c [|d tl]]]];
        [done|by apply filter_no_comma..|].
      change (group3 (a :: b :: c :: d :: tl))
        with (a :: b :: c :: ","%char :: group3 (d :: tl)).
      apply not_elem_of_cons in Hk as [Ha Hk].
      apply not_elem_of_cons in Hk as [Hb Hk].
      apply not_elem_of_cons in Hk as [Hc Hk].
      rewrite !filter_cons_True by (intros ->; done).
      rewrite filter_cons_False by (intros Hn; by apply Hn).
      rewrite IH; [done| |done]. simpl in *. lia. }
  apply (Hgen (length l)). done.
Qed.


Lemma group3_grouped (l : list Ascii.ascii) :
  l ≠ [] → forallb is_digit l = true → grouped_from_right (group3 l) = true.
Proof.
  assert (Hgen : ∀ n (l : list Ascii.ascii), (length l ≤ n)%nat → l ≠ [] →
                 forallb is_digit l = true →
                 grouped_from_right (group3 l) = true).
  { intros n. induction n as [|n IH]; intros k Hlen Hne Hk.
    - destruct k; [done|simpl in Hlen; lia].
    - destruct k as [|a [|b [|c [|d tl]]]]; [done| | | |].
      + simpl in *. by rewrite andb_true_r in Hk.
      + simpl in *. by rewrite andb_true_r in Hk.
      + simpl in *. rewrite andb_true_r in Hk. by rewrite <- andb_assoc.
      + change (group3 (a :: b :: c :: d :: tl))
          with (a :: b :: c :: ","%char :: group3 (d :: tl)).
        simpl in Hk.
        apply andb_prop in Hk as [Ha Hk]. apply andb_prop in Hk as [Hb Hk].
        apply andb_prop in Hk as [Hc Hk].
        assert (Hrec : grouped_from_right (group3 (d :: tl)) = true).
        { apply IH; [simpl in *; lia|done|done]. }
        assert (Hne' : group3 (d :: tl) ≠ []).
        { destruct tl as [|? [|? [|? ?]]]; done. }
        destruct (group3 (d :: tl)) as [|x tl'] eqn:Hg; [done|].
        simpl. rewrite Ha, Hb, Hc. simpl. exact Hrec. }
  apply (Hgen (length l)). done.
Qed.

Lemma string_of_uint_digits (d : Decimal.uint) :
  forallb is_digit (String.list_ascii_of_string (NilEmpty.string_of_uint d))
  = true.
Proof. induction d; simpl; done. Qed.

Lemma string_of_uint_digits' (d : Decimal.uint) :
  forallb is_digit (String.list_ascii_of_string (NilZero.string_of_uint d))
  = true ∧ NilZero.string_of_uint d ≠ "".
Proof.
  destruct d; simpl; try done; (split; [|done]);
    by rewrite string_of_uint_digits.
Qed.

Lemma digits_no_comma (l : list Ascii.ascii) :
  forallb is_digit l = true → ","%char ∉ l.
Proof.
  induction l as [|x l IH]; simpl; [intros _; apply not_elem_of_nil|].
  intros [Hx Hl]%andb_prop. apply not_elem_of_cons. split; [|by apply IH].
  intros <-. done.
Qed.

Lemma forallb_rev {A} (f : A → bool) (l : list A) :
  forallb f (rev l) = forallb f l.
Proof.
  induction l as [|x l IH]; [done|]. simpl.
  rewrite forallb_app, IH. simpl. rewrite andb_true_r. apply andb_comm.
Qed.

Lemma filter_rev {A} (P : A → Prop) `{!∀ x, Decision (P x)} (l : list A) :
  filter P (rev l) = rev (filter P l).
Proof.
  induction l as [|x l IH]; [done|]. simpl. rewrite filter_app, IH.
  destruct (decide (P x)).
  - rewrite (filter_cons_True P x []), (filter_cons_True P x l) by done.
    done.
  - rewrite (filter_cons_False P x []), (filter_cons_False P x l) by done.
    by rewrite app_nil_r.
Qed.

Lemma remove_insert_commas (s : string) :
  forallb is_digit (String.list_ascii_of_string s) = true →
  remove_commas (insert_commas s) = s.
Proof.
  intros Hd. unfold remove_commas, insert_commas.
  rewrite String.list_ascii_of_string_of_list_ascii, filter_rev.
  rewrite group3_filter.
  - by rewrite rev_involutive, String.string_of_list_ascii_of_string.
  - apply digits_no_comma. by rewrite forallb_rev.
Qed.

Lemma remove_commas_format_comma (n : Z) :
  remove_commas (format_comma n) = NilZero.string_of_int (Z.to_int n).
Proof.
  unfold format_comma. destruct (Z.to_int n) as [d|d]; simpl.
  - apply remove_insert_commas, string_of_uint_digits'.
  - pose proof (remove_insert_commas (NilZero.string_of_uint d)
                  (proj1 (string_of_uint_digits' d))) as Hr.
    unfold remove_commas in *.
    change (String.list_ascii_of_string
              (String "-" (insert_commas (NilZero.string_of_uint d))))
      with ("-"%char
            :: String.list_ascii_of_string
                 (insert_commas (NilZero.string_of_uint d))).
    rewrite filter_cons_True by done.
    change (String.string_of_list_ascii ("-"%char :: ?l))
      with (String "-" (String.string_of_list_ascii l)).
    by rewrite Hr.
Qed.

Lemma to_int_not_nil (n : Z) :
  Z.to_int n ≠ Decimal.Pos Decimal.Nil ∧ Z.to_int n ≠ Decimal.Neg Decimal.Nil.
Proof.
  destruct n as [|p|p]; simpl; [done| |];
    (split; [|try done]; try done; intros [= Hp];
     by apply (Unsigned.to_uint_nonnil p)).
Qed.

Lemma is_nan_infinity (x : float) s :
  Prim2SF x = S754_infinity s → PrimFloat.is_nan x = false.
Proof.
  intros Hx. unfold PrimFloat.is_nan.
  rewrite FloatAxioms.eqb_spec, Hx. by destruct s.
Qed.

Lemma is_nan_nan (x : float) :
  Prim2SF x = S754_nan → PrimFloat.is_nan x = true.
Proof.
  intros Hx. unfold PrimFloat.is_nan.
  by rewrite FloatAxioms.eqb_spec, Hx.
Qed.

(** X23.  On an [int] the [comma] filter returns the decimal digits
    in groups of three from the right, separated by commas, after the
    sign: without its commas the string is [str(n)], it reads back as
    [n], and every group but the leftmost has three digits. *)
Theorem comma_filter_groups_the_digits (n : Z) :
  comma_filter (PyInt n) = Some (inl (format_comma n))
  ∧ remove_commas (format_comma n) = NilZero.string_of_int (Z.to_int n)
  ∧ Z.of_int <$> NilZero.int_of_string (remove_commas (format_comma n))
    = Some n
  ∧ (0 <= n → well_grouped (format_comma n) = true)
  ∧ (n < 0 →
     ∃ s, format_comma n = String "-" s ∧ well_grouped s = true).
Proof.
  split; [done|]. split; [apply remove_commas_format_comma|].
  split; [|split].
  - rewrite remove_commas_format_comma.
    destruct (to_int_not_nil n) as [H1 H2].
    rewrite NilZero.isi by done. simpl. by rewrite DecimalZ.of_to.
  - intros Hn. unfold format_comma.
    destruct n as [|p|p]; [| |lia]; simpl Z.to_int; cbv iota;
      unfold well_grouped, insert_commas;
      rewrite String.list_ascii_of_string_of_list_ascii, rev_involutive;
      (apply group3_grouped;
       [|rewrite forallb_rev; apply string_of_uint_digits']).
    + done.
    + intros Hnil. apply (f_equal (@rev _)) in Hnil.
      rewrite rev_involutive in Hnil. simpl in Hnil.
      destruct (string_of_uint_digits' (Pos.to_uint p)) as [_ Hne].
      apply Hne. rewrite <- (String.string_of_list_ascii_of_string
                              (NilZero.string_of_uint (Pos.to_uint p))).
      by rewrite Hnil.
  - intros Hn. destruct n as [|p|p]; [lia|lia|].
    unfold format_comma. simpl Z.to_int. cbv iota.
    eexists. split; [reflexivity|].
    unfold well_grouped, insert_commas.
    rewrite String.list_ascii_of_string_of_list_ascii, rev_involutive.
    apply group3_grouped;
      [|rewrite forallb_rev; apply string_of_uint_digits'].
    intros Hnil. apply (f_equal (@rev _)) in Hnil.
    rewrite rev_involutive in Hnil. simpl in Hnil.
    destruct (string_of_uint_digits' (Pos.to_uint p)) as [_ Hne].
    apply Hne. rewrite <- (String.string_of_list_ascii_of_string
                            (NilZero.string_of_uint (Pos.to_uint p))).
    by rewrite Hnil.
Qed.

(** X24.  The [comma] filter returns [None] and a NaN unchanged,
    formats the integer part of any other finite float, and raises on
    an infinity: [int()] then raises [OverflowError], which the filter
    does not catch. *)
Theorem comma_filter_values_that_are_not_numbers :
  comma_filter PyNone = Some (inr PyNone)
  ∧ (∀ x, Prim2SF x = S754_nan →
       comma_filter (PyFloatValue x) = Some (inr (PyFloatValue x)))
  ∧ (∀ x s, Prim2SF x = S754_infinity s →
       comma_filter (PyFloatValue x) = None)
  ∧ (∀ x n, int_of_float x = Some n →
       comma_filter (PyFloatValue x) = Some (inl (format_comma n))).
Proof.
  split; [done|]. split; [|split].
  - intros x Hx. unfold comma_filter. by rewrite is_nan_nan.
  - intros x s Hx. unfold comma_filter.
    rewrite (is_nan_infinity x s Hx). unfold Binary64.int_of_float.
    by rewrite Hx.
  - intros x n Hn. unfold comma_filter. simpl in Hn.
    assert (Hnan : PrimFloat.is_nan x = false).
    { unfold PrimFloat.is_nan. rewrite FloatAxioms.eqb_spec.
      unfold Binary64.int_of_float in Hn.
      destruct (Prim2SF x) as [s|s| |s m e]; [by destruct s|done|done|].
      unfold SFeqb, SFcompare.
      destruct s; by rewrite Z.compare_refl, Pos.compare_cont_refl. }
    rewrite Hnan, Hn. done.
Qed.
End Comma.

(** ** Instances on concrete runs *)

Lemma remove_client_first_registration_witness :
  ∃ self : PopulationManager float,
    manager_at_epoch = Some self
    ∧ remove_client self 7%nat = self
    ∧ ∃ pre post,
        connected_clients (add_client (add_client self 7%nat) 8%nat)
        = pre ++ 7%nat :: post
        ∧ (7%nat ∉ pre)
        ∧ connected_clients
            (remove_client (add_client (add_client self 7%nat) 8%nat) 7%nat)
          = pre ++ post.
Proof.
  eexists. split; [vm_compute; reflexivity|]. split.
  - apply remove_client_first_registration. simpl. apply not_elem_of_nil.
  - apply remove_client_first_registration. simpl. apply list_elem_of_here.
Defined.

Lemma add_client_then_remove_client_witness :
  ∃ self : PopulationManager float,
    manager_at_epoch = Some self
    ∧ remove_client (add_client self 7%nat) 7%nat = self
    ∧ connected_clients
        (remove_client (add_client (add_client self 7%nat) 7%nat) 7%nat)
      = remove_first 7%nat (connected_clients (add_client self 7%nat))
        ++ [7%nat].
Proof.
  eexists. split; [vm_compute; reflexivity|]. split.
  - apply add_client_then_remove_client. simpl. apply not_elem_of_nil.
  - apply add_client_then_remove_client. simpl. apply list_elem_of_here.
Defined.


Lemma broadcast_rates_are_those_of_the_statistics_witness :
  ∃ (self0 self self' : PopulationManager float) outs m d,
    manager_at_epoch = Some self0
    ∧ run lower_ascii self0
        [AddClient 1%nat;
         UpdateBaseData "North_Korea" (only_births 300000)]
      = Some (self, outs)
    ∧ tick self (clock_at (decimal 1704067200 0)) noon_2025 (λ _, false)
      = Some (self', Some (m, d))
    ∧ calculate_birth_death_rates_per_second (north_korea_data self)
      = Some ((msg_simulation_rates m).1.2, (msg_simulation_rates m).2).
Proof.
  eexists _, _, _, _, _, _.
  lazymatch goal with
  | |- ?A ∧ ?B ∧ ?C ∧ _ =>
      assert (Ha : A) by (vm_compute; reflexivity);
      assert (Hb : B) by (vm_compute; reflexivity);
      assert (Hc : C) by (vm_compute; reflexivity)
  end.
  split; [exact Ha|]. split; [exact Hb|]. split; [exact Hc|].
  exact (proj2 (broadcast_rates_are_those_of_the_statistics lower_ascii
                  _ _ _ _ _ _ _ _ _ _ _ _ _ Ha Hb Hc)).
Defined.

Lemma no_server_side_events_witness :
  ∃ (self0 self : PopulationManager float) outs,
    manager_at_epoch = Some self0
    ∧ run lower_ascii self0
        [AddClient 1%nat;
         Tick (clock_at (decimal 1704067200 0)) noon_2025 (λ _, false)]
      = Some (self, outs)
    ∧ self_recent_events self = [].
Proof.
  eexists _, _, _.
  lazymatch goal with
  | |- ?A ∧ ?B ∧ _ =>
      assert (Ha : A) by (vm_compute; reflexivity);
      assert (Hb : B) by (vm_compute; reflexivity)
  end.
  split; [exact Ha|]. split; [exact Hb|].
  exact (proj1 (no_server_side_events lower_ascii _ _ _ _ _ _ _ Ha Hb)).
Defined.

Lemma update_base_data_last_wins_witness :
  ∃ self self1 self2 : PopulationManager float,
    manager_at_epoch = Some self
    ∧ update_base_data lower_ascii self "south_korea" (only_births 200000)
      = Some self1
    ∧ update_base_data lower_ascii self1 "south_korea"
        (only_growth_rate (decimal 5 (-1))) = Some self2
    ∧ update_base_data lower_ascii self "south_korea"
        (dict_merge (only_births 200000) (only_growth_rate (decimal 5 (-1))))
      = Some self2.
Proof.
  eexists _, _, _.
  lazymatch goal with
  | |- ?A ∧ ?B ∧ ?C ∧ _ =>
      assert (Ha : A) by (vm_compute; reflexivity);
      assert (Hb : B) by (vm_compute; reflexivity);
      assert (Hc : C) by (vm_compute; reflexivity)
  end.
  split; [exact Ha|]. split; [exact Hb|]. split; [exact Hc|].
  exact (proj1 (update_base_data_last_wins lower_ascii _ _ _ _ _ _ Hb Hc)).
Defined.

Lemma updates_of_the_two_countries_commute_witness :
  ∃ self : PopulationManager float,
    manager_at_epoch = Some self
    ∧ (self1 ← update_base_data lower_ascii self "South_Korea"
                 (only_births 200000);
       update_base_data lower_ascii self1 "NORTH_KOREA" (only_births 300000))
      = (self2 ← update_base_data lower_ascii self "NORTH_KOREA"
                   (only_births 300000);
         update_base_data lower_ascii self2 "South_Korea"
           (only_births 200000)).
Proof.
  eexists. split; [vm_compute; reflexivity|].
  apply updates_of_the_two_countries_commute; reflexivity.
Defined.

Lemma update_base_data_overflow_witness :
  ∃ self : PopulationManager float,
    manager_at_epoch = Some self
    ∧ update_base_data lower_ascii self "south_korea"
        (only_population (2 ^ 1024)) = None.
Proof.
  eexists. split; [vm_compute; reflexivity|].
  apply (proj1 update_base_data_overflow). left. split; [reflexivity|].
  left. vm_compute. reflexivity.
Defined.

Lemma snapshots_do_not_interfere_witness :
  ∃ (self self' : PopulationManager float) outs,
    manager_at_epoch = Some self
    ∧ run lower_ascii self
        [AddClient 1%nat;
         Snapshot (clock_at (decimal 1735624800 0));
         Tick (clock_at (decimal 1704067200 0)) noon_2025 (λ _, false)]
      = Some (self', outs)
    ∧ ∃ self'',
        run lower_ascii self
          (filter (λ e, is_snapshot e = false)
             [AddClient 1%nat;
              Snapshot (clock_at (decimal 1735624800 0));
              Tick (clock_at (decimal 1704067200 0)) noon_2025 (λ _, false)])
        = Some (self'', outs)
        ∧ broadcast_view self'' = broadcast_view self'.
Proof.
  eexists _, _, _.
  lazymatch goal with
  | |- ?A ∧ ?B ∧ _ =>
      assert (Ha : A) by (vm_compute; reflexivity);
      assert (Hb : B) by (vm_compute; reflexivity)
  end.
  split; [exact Ha|]. split; [exact Hb|].
  exact (snapshots_do_not_interfere lower_ascii _ _ _ _ Hb).
Defined.

Lemma snapshot_is_idempotent_witness :
  ∃ (self self' : PopulationManager float) st,
    manager_at_epoch = Some self
    ∧ calculate_current_population self (clock_at (decimal 1735624800 0))
      = Some (self', st)
    ∧ calculate_current_population self' (clock_at (decimal 1735624800 0))
      = Some (self', st).
Proof.
  eexists _, _, _.
  lazymatch goal with
  | |- ?A ∧ ?B ∧ _ =>
      assert (Ha : A) by (vm_compute; reflexivity);
      assert (Hb : B) by (vm_compute; reflexivity)
  end.
  split; [exact Ha|]. split; [exact Hb|].
  exact (snapshot_is_idempotent _ _ _ _ Hb).
Defined.



Lemma admin_update_replaces_population_year_and_date_witness :
  ∃ (self self' : PopulationManager float) body,
    manager_at_epoch = Some self
    ∧ update_base_data_endpoint lower_ascii strftime_HMS None self
        "South_Korea" 51000000 2025 None None None (Some "admin-secret-key")
        noon_2025
      = Some (self', Response body)
    ∧ base_population (south_korea_data self') = 51000000
    ∧ base_date (south_korea_data self') = "2025-01-01T00:00:00Z"
    ∧ annual_births (south_korea_data self') = 216215.
Proof.
  eexists _, _, _.
  lazymatch goal with
  | |- ?A ∧ ?B ∧ _ =>
      assert (Ha : A) by (vm_compute; reflexivity);
      assert (Hb : B) by (vm_compute; reflexivity)
  end.
  split; [exact Ha|]. split; [exact Hb|].
  destruct (admin_update_replaces_population_year_and_date lower_ascii
              strftime_HMS _ _ _ _ _ _ _ _ _ _ _ _ eq_refl eq_refl Hb)
    as (stats & stats' & [(_ & -> & -> & _)|(Hnk & _)] & Hp & _ & Hd & Hbi & _).
  - split; [exact Hp|]. split; [exact Hd|]. exact Hbi.
  - discriminate Hnk.
Defined.

Lemma precise_endpoint_division_by_zero_witness :
  ∃ self self' : PopulationManager float,
    manager_at_epoch = Some self
    ∧ update_base_data lower_ascii self "north_korea" (only_births 0)
      = Some self'
    ∧ get_realtime_precise strftime_HMS (λ x _, x) self'
        (clock_at (decimal 1704067200 0)) noon_2025 = None.
Proof.
  eexists _, _.
  lazymatch goal with
  | |- ?A ∧ ?B ∧ _ =>
      assert (Ha : A) by (vm_compute; reflexivity);
      assert (Hb : B) by (vm_compute; reflexivity)
  end.
  split; [exact Ha|]. split; [exact Hb|].
  exact (proj1 (proj2 precise_endpoint_division_by_zero) lower_ascii
           strftime_HMS (λ x _, x) _ _ "north_korea" (only_births 0) _ _
           (or_intror eq_refl) (or_introl eq_refl) Hb).
Defined.

Lemma population_at_the_epoch_witness :
  ∃ (self self' : PopulationManager float) st,
    manager_at_epoch = Some self
    ∧ calculate_current_population self (clock_at 1704067200%float)
      = Some (self', st)
    ∧ south_korea_population st = 51628117
    ∧ north_korea_population st = 25971909.
Proof.
  eexists _, _, _.
  lazymatch goal with
  | |- ?A ∧ ?B ∧ _ =>
      assert (Ha : A) by (vm_compute; reflexivity);
      assert (Hb : B) by (vm_compute; reflexivity)
  end.
  split; [exact Ha|]. split; [exact Hb|].
  destruct (proj1 population_at_the_epoch _ _ (clock_at 1704067200%float) _
              eq_refl Hb) as [Hsk Hnk].
  split; [apply Hsk|apply Hnk]; vm_compute; reflexivity.
Defined.

Lemma no_events_at_local_midnight_witness :
  ∃ (self self' : PopulationManager float) st,
    manager_at_epoch = Some self
    ∧ calculate_current_population self
        (clock_with 1735657200%float midnight_2025) = Some (self', st)
    ∧ sk_births_today st = 0
    ∧ nk_deaths_today st = 0.
Proof.
  eexists _, _, _.
  lazymatch goal with
  | |- ?A ∧ ?B ∧ _ =>
      assert (Ha : A) by (vm_compute; reflexivity);
      assert (Hb : B) by (vm_compute; reflexivity)
  end.
  split; [exact Ha|]. split; [exact Hb|].
  assert (Hmid : local_midnight
                   (now_for_seconds
                      (clock_with 1735657200%float midnight_2025)))
    by (repeat split).
  destruct (proj1 no_events_at_local_midnight _ _ _ _ Hmid Hb)
    as (_ & H1 & _ & _ & H4).
  split; [exact H1|exact H4].
Defined.

Lemma seconds_since_midnight_is_the_time_of_day_witness :
  get_seconds_since_midnight_kst (F:=Q) last_second_2025 = Some 86399
  ∧ get_seconds_since_midnight_kst (F:=float) last_second_2025 = Some 86399.
Proof.
  assert (Hv : valid_time last_second_2025)
    by (unfold valid_time; simpl; lia).
  destruct (seconds_since_midnight_is_the_time_of_day last_second_2025 Hv)
    as (Hq & Hf & _).
  split; [exact Hq|exact Hf].
Defined.



Lemma descriptions_never_change_witness :
  ∃ (self0 self : PopulationManager float) outs,
    manager_at_epoch = Some self0
    ∧ run lower_ascii self0
        [UpdateBaseData "south_korea"
           (population_and_growth_rate 51000000 (decimal 5 (-1)))]
      = Some (self, outs)
    ∧ birth_rate (south_korea_data self) = decimal 42 (-1).
Proof.
  eexists _, _, _.
  lazymatch goal with
  | |- ?A ∧ ?B ∧ _ =>
      assert (Ha : A) by (vm_compute; reflexivity);
      assert (Hb : B) by (vm_compute; reflexivity)
  end.
  split; [exact Ha|]. split; [exact Hb|].
  pose proof (proj1 (descriptions_never_change lower_ascii _ _ _ _ _ _ _
                       Ha Hb)) as Hd.
  exact (f_equal (λ d, d.1.1.2) Hd).
Defined.

Lemma message_does_not_depend_on_deliveries_witness :
  ∃ (self self1 : PopulationManager float) st,
    manager_at_epoch = Some self
    ∧ calculate_current_population (add_client self 1%nat)
        (clock_at (decimal 1704067230 0)) = Some (self1, st)
    ∧ last_resync_time
        (broadcast_update self1 st noon_2025 (λ _, true)).1
      = timestamp st.
Proof.
  eexists _, _, _.
  lazymatch goal with
  | |- ?A ∧ ?B ∧ _ =>
      assert (Ha : A) by (vm_compute; reflexivity);
      assert (Hb : B) by (vm_compute; reflexivity)
  end.
  split; [exact Ha|]. split; [exact Hb|].
  rewrite (proj2 (proj2 (message_does_not_depend_on_deliveries
                           _ _ noon_2025 (λ _, true) (λ _, false))))
    by (simpl; discriminate).
  vm_compute. reflexivity.
Defined.

Lemma nothing_happens_without_viewers_witness :
  ∃ (self self' : PopulationManager float) outs,
    manager_at_epoch = Some self
    ∧ run lower_ascii self (ticks_every_second 1704067200 61)
      = Some (self', outs)
    ∧ outs = []
    ∧ broadcast_view self' = broadcast_view self.
Proof.
  eexists _, _, _.
  lazymatch goal with
  | |- ?A ∧ ?B ∧ _ =>
      assert (Ha : A) by (vm_compute; reflexivity);
      assert (Hb : B) by (vm_compute; reflexivity)
  end.
  split; [exact Ha|]. split; [exact Hb|].
  lazymatch type of Hb with
  | run _ ?s ?es = Some (?s', ?o) =>
      refine (nothing_happens_without_viewers lower_ascii s es s' o
                eq_refl _ Hb)
  end.
  unfold ticks_every_second. apply Forall_map, Forall_forall.
  intros k _. reflexivity.
Defined.

Lemma comma_filter_groups_the_digits_witness :
  format_comma 51628117 = "51,628,117"
  ∧ well_grouped (format_comma 51628117) = true
  ∧ ∃ s, format_comma (-1234) = String "-" s ∧ well_grouped s = true.
Proof.
  split; [vm_compute; reflexivity|]. split.
  - apply (comma_filter_groups_the_digits 51628117). lia.
  - apply (comma_filter_groups_the_digits (-1234)). lia.
Defined.

Lemma comma_filter_values_that_are_not_numbers_witness :
  comma_filter (PyFloatValue infinity) = None
  ∧ comma_filter (PyFloatValue nan) = Some (inr (PyFloatValue nan))
  ∧ comma_filter (PyFloatValue 1234.5%float) = Some (inl "1,234").
Proof.
  split; [|split].
  - apply (proj1 (proj2 (proj2 comma_filter_values_that_are_not_numbers))
             infinity false).
    vm_compute. reflexivity.
  - apply (proj1 (proj2 comma_filter_values_that_are_not_numbers) nan).
    vm_compute. reflexivity.
  - apply (proj2 (proj2 (proj2 comma_filter_values_that_are_not_numbers))
             1234.5%float 1234).
    vm_compute. reflexivity.
Defined.
